(** * Resume document parser: segmentation, classification and ATS scoring

    A shallow embedding of the Python service under
    [document-parser-service/]:

    - [main_old.py]: [DocumentParser] (line classifier and section
      segmenter),
    - [ai_ats_scorer.py]: [AIATSScorer] (model-assisted and rule-based
      scorer),
    - [ollama_resume_analyzer.py]: [OllamaResumeAnalyzer],
    - [main.py]: the HTTP endpoints.

    Modelling choices:

    - Text is a [string] of ASCII characters; [lower], [upper], the
      white-space test and the digit test follow Python's [str] methods on
      that range.
    - The Python [set] of used line indices is a [gset nat]; a
      [Dict[str, int]] is an association list in insertion order.
    - A call that can raise returns an [option] or a sum; [json.loads],
      the language model, the document libraries and the clock are
      parameters.
    - [main_old.py] uses [re] and [ResumeSection] without importing them;
      they are taken to be Python's [re] module and the model class of
      [ollama_resume_analyzer.py].
    - In the legacy scoring endpoint the text of a caught exception and
      the validation of a [ResumeSection] built from a request are
      parameters. *)

From stdpp Require Import gmap list.
From Stdlib Require Import String Ascii ZArith QArith Lia Sorted.

Set Warnings "-register-all".

Open Scope string_scope.
Open Scope nat_scope.
Open Scope list_scope.

(** ** Python primitives *)

Module Py.

(** The newline character and the one-character string holding it. *)
Definition nl_char : ascii := "010"%char.
Definition nl : string := String nl_char EmptyString.

Definition code (c : ascii) : nat := nat_of_ascii c.

(** [c.isdigit()] *)
Definition isdigit (c : ascii) : bool :=
  (48 <=? code c) && (code c <=? 57).

(** [c.isupper()] and [c.islower()] on one character. *)
Definition isupper_char (c : ascii) : bool :=
  (65 <=? code c) && (code c <=? 90).

Definition islower_char (c : ascii) : bool :=
  (97 <=? code c) && (code c <=? 122).

(** [c.isspace()]: tab, line feed, vertical tab, form feed, carriage
    return, the four separators 28..31 and the space. *)
Definition isspace (c : ascii) : bool :=
  ((9 <=? code c) && (code c <=? 13))
  || ((28 <=? code c) && (code c <=? 31))
  || (code c =? 32).

(** Word characters of [re]: letters, digits and the underscore. *)
Definition isword (c : ascii) : bool :=
  isdigit c || isupper_char c || islower_char c || (code c =? 95).

Definition lower_char (c : ascii) : ascii :=
  if isupper_char c then ascii_of_nat (code c + 32) else c.

Definition upper_char (c : ascii) : ascii :=
  if islower_char c then ascii_of_nat (code c - 32) else c.

Fixpoint map_chars (f : ascii -> ascii) (s : string) : string :=
  match s with
  | EmptyString => EmptyString
  | String c s' => String (f c) (map_chars f s')
  end.

(** [s.lower()] and [s.upper()] *)
Definition lower (s : string) : string := map_chars lower_char s.
Definition upper (s : string) : string := map_chars upper_char s.

(** [any(p(c) for c in s)] *)
Fixpoint any_char (p : ascii -> bool) (s : string) : bool :=
  match s with
  | EmptyString => false
  | String c s' => p c || any_char p s'
  end.

(** [s.lstrip()], [s.rstrip()] and [s.strip()] *)
Fixpoint lstrip (s : string) : string :=
  match s with
  | EmptyString => EmptyString
  | String c s' => if isspace c then lstrip s' else s
  end.

Fixpoint rstrip (s : string) : string :=
  match s with
  | EmptyString => EmptyString
  | String c s' =>
      match rstrip s' with
      | EmptyString => if isspace c then EmptyString else String c EmptyString
      | r => String c r
      end
  end.

Definition strip (s : string) : string := rstrip (lstrip s).

(** Truth value of a string: [bool(s)]. *)
Definition truthy (s : string) : bool :=
  match s with
  | EmptyString => false
  | String _ _ => true
  end.

(** [sub in s] *)
Fixpoint contains (sub s : string) : bool :=
  String.prefix sub s
  || match s with
     | EmptyString => false
     | String _ s' => contains sub s'
     end.

(** [any(k in s for k in ks)] *)
Definition any_in (ks : list string) (s : string) : bool :=
  existsb (fun k => contains k s) ks.

(** [s in ks] for a list of strings. *)
Definition mem (s : string) (ks : list string) : bool :=
  existsb (String.eqb s) ks.

(** [s[:n]] *)
Fixpoint slice_to (n : nat) (s : string) : string :=
  match n, s with
  | S n', String c s' => String c (slice_to n' s')
  | _, _ => EmptyString
  end.

(** [s.split(sep)] for a one-character separator: the pieces between
    the separators, empty pieces included. *)
Fixpoint split_char (sep : ascii) (s : string) : list string :=
  match s with
  | EmptyString => [EmptyString]
  | String c s' =>
      if Ascii.eqb c sep then EmptyString :: split_char sep s'
      else match split_char sep s' with
           | [] => [String c EmptyString]
           | w :: ws => String c w :: ws
           end
  end.

(** [s.split()]: the maximal runs of non-space characters. *)
Fixpoint split_ws_aux (cur : string) (s : string) : list string :=
  match s with
  | EmptyString => if truthy cur then [cur] else []
  | String c s' =>
      if isspace c
      then (if truthy cur then [cur] else []) ++ split_ws_aux EmptyString s'
      else split_ws_aux (String.append cur (String c EmptyString)) s'
  end.

Definition split_ws (s : string) : list string := split_ws_aux EmptyString s.

(** [s.istitle()]: upper-case letters only after uncased characters,
    lower-case letters only after cased ones, and at least one letter. *)
Fixpoint istitle_aux (previous_is_cased cased : bool) (s : string) : bool :=
  match s with
  | EmptyString => cased
  | String c s' =>
      if isupper_char c then
        if previous_is_cased then false else istitle_aux true true s'
      else if islower_char c then
        if previous_is_cased then istitle_aux true true s' else false
      else istitle_aux false cased s'
  end.

Definition istitle (s : string) : bool := istitle_aux false false s.

(** [sep.join(parts)] *)
Definition join (sep : string) (parts : list string) : string :=
  String.concat sep parts.

(** [enumerate(l)] and [enumerate(l, start)] *)
Fixpoint enumerate_from {A : Type} (start : nat) (l : list A) : list (nat * A) :=
  match l with
  | [] => []
  | x :: l' => (start, x) :: enumerate_from (S start) l'
  end.

Definition enumerate {A : Type} (l : list A) : list (nat * A) :=
  enumerate_from 0 l.

(** [l[a:b]] for [a <= b]. *)
Definition slice {A : Type} (a b : nat) (l : list A) : list A :=
  take (b - a) (drop a l).

(** [int(n * 0.6)] and [int(n * 0.15)]: the doubles nearest to 0.6 and
    to 0.15 are within relative error 2^-54 of 3/5 and of 3/20, so the
    rounded products truncate to [3 * n / 5] and to [3 * n / 20] for the
    length of every list a machine can hold. *)
Definition int_times_0_6 (n : nat) : nat := (3 * n) / 5.
Definition int_times_0_15 (n : nat) : nat := (3 * n) / 20.

End Py.

Import Py.

(** ** Data model ([ollama_resume_analyzer.py], [ai_ats_scorer.py]) *)

(** [class ResumeSection(BaseModel)] *)
Record ResumeSection := mkSection {
  sec_type : string;
  title : string;
  content : string;
  confidence : Q
}.

(** A [Dict[str, int]] keeps its insertion order: an association list.
    [d[k]] on a present key and [d.get(k, default)] are [dict_get]. *)
Definition dict := list (string * Z).

Fixpoint dict_lookup (k : string) (d : dict) : option Z :=
  match d with
  | [] => None
  | (k', v) :: d' => if String.eqb k k' then Some v else dict_lookup k d'
  end.

Definition dict_get (k : string) (default : Z) (d : dict) : Z :=
  match dict_lookup k d with
  | Some v => v
  | None => default
  end.

(** [sum(d.values())] *)
Definition sum_values (d : dict) : Z :=
  fold_right Z.add 0%Z (map snd d).

(** [class ATSScore(BaseModel)] *)
Record ATSScore := mkATS {
  overall_score : Z;
  category_scores : dict;
  suggestions : list string;
  strengths : list string
}.

(** [class CompleteResumeAnalysis(BaseModel)]; [processing_time] is a
    wall-clock reading supplied by the environment. *)
Record CompleteResumeAnalysis := mkAnalysis {
  success : bool;
  filename : string;
  sections : list ResumeSection;
  ats_analysis : ATSScore;
  raw_text : string;
  processing_time : Q
}.

(** ** Section segmenter ([main_old.py], [DocumentParser]) *)

Module DocumentParser.

(** A claimed line: its index in [lines] and its text.  The source keeps
    the two in parallel lists ([personal_lines] and [used_indices]). *)
Definition claim := (nat * string)%type.

(** What an extractor returns: [('\n'.join(xs) if xs else '', used_indices)]. *)
Definition content_of (cs : list claim) : string := join nl (map snd cs).
Definition indices_of (cs : list claim) : list nat := map fst cs.

(** [_extract_personal_info_with_tracking]: the test on one of the first
    ten lines. *)
Definition is_contact_line (line : string) : bool :=
  let line_lower := lower line in
  any_in ["@"; ".com"; ".org"; ".net"] line
  || any_in ["phone"; "mobile"; "tel"; "linkedin"; "github"] line_lower
  || (any_char isdigit line && (8 <? String.length line))
  || any_in ["india"; "usa"; "uk"; "canada"; "city"; "state"] line_lower.

Definition is_name_line (i : nat) (line : string) : bool :=
  (i =? 0) && (List.length (split_ws line) <=? 4) && istitle line.

Fixpoint personal_loop (ls : list claim) : list claim :=
  match ls with
  | [] => []
  | (i, line) :: rest =>
      if is_contact_line line then (i, line) :: personal_loop rest
      else if is_name_line i line then (i, line) :: personal_loop rest
      else personal_loop rest
  end.

Definition _extract_personal_info_with_tracking (lines : list string)
  : list claim :=
  personal_loop (enumerate (take 10 lines)).

(** The four extractors that run in an in/out mode
    ([_extract_summary_with_tracking], [_extract_education_with_tracking],
    [_extract_skills_with_tracking], [_extract_projects_with_tracking])
    share one loop and differ in three keyword lists: the keywords that
    start the mode, the bare headers that are not claimed themselves, and
    the keywords that end the mode ([break]). *)
Fixpoint mode_loop (start headers stop : list string) (used_lines : gset nat)
    (in_mode : bool) (ls : list claim) : list claim :=
  match ls with
  | [] => []
  | (i, line) :: rest =>
      if bool_decide (i ∈ used_lines) then
        mode_loop start headers stop used_lines in_mode rest
      else
        let line_lower := strip (lower line) in
        if any_in start line_lower then
          (if negb (mem line_lower headers) then [(i, line)] else [])
          ++ mode_loop start headers stop used_lines true rest
        else if in_mode && any_in stop line_lower then []
        else if in_mode && truthy (strip line) then
          (i, line) :: mode_loop start headers stop used_lines in_mode rest
        else mode_loop start headers stop used_lines in_mode rest
  end.

Definition _extract_summary_with_tracking (lines : list string)
    (used_lines : gset nat) : list claim :=
  mode_loop ["objective"; "summary"; "profile"; "about"]
            ["objective"; "summary"; "profile"; "about"]
            ["experience"; "education"; "skills"; "projects"]
            used_lines false (enumerate lines).

Definition _extract_education_with_tracking (lines : list string)
    (used_lines : gset nat) : list claim :=
  mode_loop ["education"; "academic"; "qualification"; "degree";
             "university"; "college"]
            ["education"; "academic background"; "qualifications"]
            ["skills"; "projects"; "experience"; "additional"]
            used_lines false (enumerate lines).

Definition _extract_skills_with_tracking (lines : list string)
    (used_lines : gset nat) : list claim :=
  mode_loop ["skills"; "technical"; "competenc"; "technolog"]
            ["skills"; "technical skills"; "competencies"; "technologies"]
            ["projects"; "experience"; "education"; "additional"]
            used_lines false (enumerate lines).

Definition _extract_projects_with_tracking (lines : list string)
    (used_lines : gset nat) : list claim :=
  mode_loop ["projects"; "portfolio"]
            ["projects"; "portfolio"; "key projects"]
            ["additional"; "other"; "leadership"]
            used_lines false (enumerate lines).

(** The passes that test every unclaimed line on its own
    ([_extract_all_experience], the two [_from_remaining] passes and
    [_extract_clean_additional_info]) share this loop. *)
Fixpoint claim_loop (test : string -> bool) (used_lines : gset nat)
    (ls : list claim) : list claim :=
  match ls with
  | [] => []
  | (i, line) :: rest =>
      if bool_decide (i ∈ used_lines) then claim_loop test used_lines rest
      else if test line then (i, line) :: claim_loop test used_lines rest
      else claim_loop test used_lines rest
  end.

(** [is_work_content] of [_extract_all_experience]. *)
Definition is_work_content (line : string) : bool :=
  let line_lower := strip (lower line) in
  any_in ["experience"; "work"; "employment"; "career"] line_lower
  || any_in ["developer"; "engineer"; "manager"; "analyst"; "consultant";
             "lead"; "senior"] line_lower
  || any_in ["corp"; "inc"; "ltd"; "company"; "technologies"; "systems"]
            line_lower
  || any_in ["led"; "managed"; "developed"; "built"; "implemented";
             "delivered"; "improved"] line_lower
  || (any_in ["2020"; "2021"; "2022"; "2023"; "2024"] line
      && any_in ["present"; "current"; "-"; "to"] line_lower)
  || any_in ["agile"; "team"; "client"; "project"; "system"; "application"]
            line_lower.

Definition _extract_all_experience (lines : list string)
    (used_lines : gset nat) : list claim :=
  claim_loop is_work_content used_lines (enumerate lines).

(** [_extract_education_from_remaining]: blank lines are skipped, then
    the education test. *)
Definition is_remaining_education (line : string) : bool :=
  let line_lower := strip (lower line) in
  truthy (strip line)
  && (mem line_lower ["education"; "academic background"; "qualifications"]
      || any_in ["degree"; "university"; "college"; "bachelor"; "master";
                 "phd"; "diploma"; "certification"; "gpa"] line_lower).

Definition _extract_education_from_remaining (lines : list string)
    (used_lines : gset nat) : list claim :=
  claim_loop is_remaining_education used_lines (enumerate lines).

(** [_extract_skills_from_remaining] *)
Definition is_remaining_skills (line : string) : bool :=
  let line_lower := strip (lower line) in
  truthy (strip line)
  && (mem line_lower ["skills"; "technical skills"; "competencies";
                      "technologies"]
      || any_in ["programming"; "languages"; "frameworks"; "tools";
                 "software"; "database"; "cloud"; "aws"; "python"; "java";
                 "javascript"; "react"; "node"] line_lower).

Definition _extract_skills_from_remaining (lines : list string)
    (used_lines : gset nat) : list claim :=
  claim_loop is_remaining_skills used_lines (enumerate lines).

(** [_extract_clean_additional_info]: bare headers are dropped; a line is
    kept when it names additional information, or when it has none of the
    excluded indicators and more than three characters. *)
Definition is_additional (line : string) : bool :=
  let line_lower := strip (lower line) in
  truthy (strip line)
  && negb (mem line_lower ["objective"; "education"; "skills"; "experience";
                           "projects"; "summary"; "work experience";
                           "technical skills"; "professional summary"])
  && (any_in ["leadership"; "additional"; "other"; "activities"; "interests";
              "hobbies"; "http"; "www"; ".com"; "portfolio"; "website"]
             line_lower
      || (negb (any_in ["developer"; "engineer"; "manager"; "led"; "built";
                        "developed"; "implemented"; "delivered"; "improved";
                        "corp"; "inc"; "company"; "2020"; "2021"; "2022";
                        "2023"; "2024"; "education"; "degree"; "university";
                        "college"; "skills"; "programming"; "languages";
                        "frameworks"; "objective"; "summary"] line_lower)
          && (3 <? String.length (strip line)))).

(** The claims behind the returned string; the source returns only
    [content_of] of them. *)
Definition additional_claims (lines : list string) (used_lines : gset nat)
  : list claim :=
  claim_loop is_additional used_lines (enumerate lines).

Definition _extract_clean_additional_info (lines : list string)
    (used_lines : gset nat) : string :=
  content_of (additional_claims lines used_lines).

(** A section under construction together with the line indices it owns
    (the [used_indices] its extractor returned). *)
Definition owned_section := (ResumeSection * list nat)%type.

Definition section_of (ty ttl : string) (conf : Q) (cs : list claim)
  : owned_section :=
  (mkSection ty ttl (content_of cs) conf, indices_of cs).

(** One step of [_create_structured_resume]:
    [if content: sections.append(...); used_lines.update(indices)]. *)
Definition add_section (ty ttl : string) (conf : Q) (cs : list claim)
    (st : list owned_section * gset nat) : list owned_section * gset nat :=
  if truthy (content_of cs)
  then (st.1 ++ [section_of ty ttl conf cs],
        st.2 ∪ list_to_set (indices_of cs))
  else st.

(** [any(section.type == ty for section in sections)] *)
Definition has_type (ty : string) (secs : list owned_section) : bool :=
  existsb (fun s => String.eqb (sec_type s.1) ty) secs.

(** The eight passes of [_create_structured_resume], in the order of the
    source, threading [sections] and [used_lines]. *)
Definition structured_passes (lines : list string) : list owned_section :=
  let st0 : list owned_section * gset nat := ([], ∅) in
  let st1 := add_section "personal" "Personal Information" (9 # 10)
               (_extract_personal_info_with_tracking lines) st0 in
  let st2 := add_section "summary" "Professional Summary" (9 # 10)
               (_extract_summary_with_tracking lines st1.2) st1 in
  let st3 := add_section "experience" "Work Experience" (9 # 10)
               (_extract_all_experience lines st2.2) st2 in
  let st4 := add_section "education" "Education" (9 # 10)
               (_extract_education_with_tracking lines st3.2) st3 in
  let st5 := add_section "skills" "Technical Skills" (9 # 10)
               (_extract_skills_with_tracking lines st4.2) st4 in
  let st6 := add_section "projects" "Projects" (9 # 10)
               (_extract_projects_with_tracking lines st5.2) st5 in
  let st7 := if has_type "education" st6.1 then st6
             else add_section "education" "Education" (8 # 10)
                    (_extract_education_from_remaining lines st6.2) st6 in
  let st8 := if has_type "skills" st7.1 then st7
             else add_section "skills" "Technical Skills" (8 # 10)
                    (_extract_skills_from_remaining lines st7.2) st7 in
  let additional := additional_claims lines st8.2 in
  if truthy (_extract_clean_additional_info lines st8.2)
  then st8.1 ++ [section_of "additional" "Additional Information" (8 # 10)
                   additional]
  else st8.1.

(** [_create_basic_sections]: the position-based split. *)
Definition _create_basic_sections_owned (lines : list string)
  : list owned_section :=
  let total_lines := List.length lines in
  let personal_end := Nat.min (Nat.max 5 (total_lines / 5)) 10 in
  let exp_start := personal_end in
  let exp_end := Nat.min total_lines (exp_start + int_times_0_6 total_lines) in
  (if 0 <? personal_end
   then [section_of "personal" "Personal Information" (8 # 10)
           (slice 0 personal_end (enumerate lines))]
   else [])
  ++ (if exp_start <? exp_end
      then [section_of "experience" "Work Experience" (7 # 10)
              (slice exp_start exp_end (enumerate lines))]
      else [])
  ++ (if exp_end <? total_lines
      then [section_of "skills" "Skills & Additional Information" (7 # 10)
              (slice exp_end total_lines (enumerate lines))]
      else []).

Definition _create_basic_sections (lines : list string) : list ResumeSection :=
  map fst (_create_basic_sections_owned lines).

(** [_create_structured_resume]:
    [return sections if sections else self._create_basic_sections(lines)]. *)
Definition _create_structured_resume_owned (lines : list string)
  : list owned_section :=
  match structured_passes lines with
  | [] => _create_basic_sections_owned lines
  | secs => secs
  end.

Definition _create_structured_resume (lines : list string)
  : list ResumeSection :=
  map fst (_create_structured_resume_owned lines).

(** [_simple_section_parsing] *)
Definition _simple_section_parsing (lines : list string) : list ResumeSection :=
  match lines with
  | [] => []
  | _ => _create_structured_resume lines
  end.

(** [lines = [line.strip() for line in text.split('\n') if line.strip()]] *)
Definition text_lines (text : string) : list string :=
  map strip (filter (fun line => truthy (strip line) = true)
                    (split_char nl_char text)).

(** [parse_resume_text] *)
Definition parse_resume_text (text : string) : list ResumeSection :=
  let lines := text_lines text in
  match lines with
  | [] => []
  | _ => _simple_section_parsing lines
  end.

End DocumentParser.

(** ** Rule-based ATS scorer ([ai_ats_scorer.py], [AIATSScorer]) *)

Module AIATSScorer.

(** [next((s for s in sections if s.type == ty), None)] *)
Definition first_of_type (ty : string) (sections : list ResumeSection)
  : option ResumeSection :=
  List.find (fun s => String.eqb (sec_type s) ty) sections.

Definition tech_keywords : list string :=
  ["python"; "javascript"; "react"; "node"; "sql"; "aws"; "docker"; "git";
   "java"; "c++"; "html"; "css"; "api"; "rest"; "agile"; "scrum"].

Definition business_keywords : list string :=
  ["management"; "leadership"; "strategy"; "analysis"; "project"; "team";
   "client"; "sales"; "marketing"; "operations"].

Definition action_verbs : list string :=
  ["led"; "managed"; "developed"; "created"; "implemented"; "designed";
   "improved"; "increased"; "delivered"; "built"].

(** [condition ? points : 0], the shape of every [+=] in the scorer. *)
Definition pts (b : bool) (n : Z) : Z := if b then n else 0%Z.

Section Scoring.

Variable sections : list ResumeSection.

Definition section_types : list string := map sec_type sections.

Definition all_text : string :=
  join " " (map (fun s => lower (content s)) sections).

(** Format & Structure *)
Definition score_format_structure : Z :=
  (pts (mem "personal" section_types) 8
   + pts (existsb (fun t => mem t section_types) ["summary"; "objective"]) 7
   + pts ((4 <=? List.length sections)%nat
          && (List.length sections <=? 8)%nat) 10)%Z.

(** Keywords & Skills *)
Definition keyword_count : nat :=
  List.length (filter (fun k => contains k all_text = true)
                      (tech_keywords ++ business_keywords)).

Definition score_keywords_skills : Z :=
  (pts (mem "skills" section_types
        && match first_of_type "skills" sections with
           | Some skills_section =>
               (10 <? List.length (split_ws (content skills_section)))%nat
           | None => false
           end) 15
   + Z.min 10 (Z.of_nat keyword_count))%Z.

(** Experience Relevance *)
Definition score_experience_relevance : Z :=
  if mem "experience" section_types then
    match first_of_type "experience" sections with
    | Some experience_section =>
        let exp_content := lower (content experience_section) in
        (pts (any_in ["years"; "year"; "months"; "2020"; "2021"; "2022";
                      "2023"; "2024"] exp_content) 8
         + pts (any_in action_verbs exp_content) 8
         + pts (any_in ["%"; "$"; "#"] exp_content
                || any_in ["million"; "thousand"; "percent"; "increased";
                           "reduced"; "improved"] exp_content) 9)%Z
    | None => 0%Z
    end
  else 0%Z.

(** Contact Info *)
Definition score_contact_info : Z :=
  match first_of_type "personal" sections with
  | Some personal_section =>
      let contact_content := lower (content personal_section) in
      (pts (contains "@" contact_content && contains "." contact_content) 8
       + pts (any_in ["+"; "("; "-"] contact_content
              || contains "phone" contact_content) 8
       + pts (contains "linkedin" contact_content) 5
       + pts (any_in ["github"; "portfolio"; "website"] contact_content) 4)%Z
  | None => 0%Z
  end.

(** Education Credentials *)
Definition score_education_credentials : Z :=
  if mem "education" section_types then
    match first_of_type "education" sections with
    | Some education_section =>
        let edu_content := lower (content education_section) in
        ((if any_in ["bachelor"; "master"; "phd"; "doctorate"] edu_content
          then 15
          else pts (any_in ["associate"; "diploma"; "certificate"]
                           edu_content) 10)
         + pts (any_in ["university"; "college"; "institute"] edu_content) 5
         + pts (any_in ["gpa"; "honors"; "magna"; "summa"; "dean"]
                       edu_content) 5)%Z
    | None => 0%Z
    end
  else 0%Z.

(** The [category_scores] dict, in the order its keys are created. *)
Definition rule_category_scores : dict :=
  [("format_structure", score_format_structure);
   ("keywords_skills", score_keywords_skills);
   ("experience_relevance", score_experience_relevance);
   ("contact_info", score_contact_info);
   ("education_credentials", score_education_credentials)].

(** [if c: xs.append(s)] *)
Definition append_if (b : bool) (s : string) (xs : list string) : list string :=
  if b then xs ++ [s] else xs.

Definition targeted_suggestions : list string :=
  let c := rule_category_scores in
  let s0 := [] in
  let s1 := append_if (dict_get "contact_info" 0 c <? 15)%Z
    "Add complete contact information including professional email, phone number, and LinkedIn profile"
    s0 in
  let s2 := append_if (dict_get "keywords_skills" 0 c <? 15)%Z
    "Include more industry-relevant keywords and technical skills to improve ATS compatibility"
    s1 in
  let s3 := append_if (dict_get "experience_relevance" 0 c <? 15)%Z
    "Add quantifiable achievements with specific metrics (e.g., 'Increased sales by 25%', 'Led team of 8')"
    s2 in
  append_if (dict_get "format_structure" 0 c <? 15)%Z
    "Improve resume structure with clear section headers and consistent formatting"
    s3.

Definition targeted_strengths : list string :=
  let c := rule_category_scores in
  let s0 := [] in
  let s1 := append_if (20 <=? dict_get "contact_info" 0 c)%Z
    "Complete and professional contact information" s0 in
  let s2 := append_if (20 <=? dict_get "experience_relevance" 0 c)%Z
    "Strong work experience with quantifiable achievements" s1 in
  let s3 := append_if (20 <=? dict_get "keywords_skills" 0 c)%Z
    "Good technical and industry keyword coverage" s2 in
  append_if (20 <=? dict_get "format_structure" 0 c)%Z
    "Well-structured and organized resume format" s3.

Definition additional_suggestions : list string :=
  ["Use action verbs to start bullet points in your experience section";
   "Tailor your resume keywords to match specific job descriptions";
   "Consider adding a professional summary highlighting your key strengths";
   "Include relevant certifications or professional development courses"].

(** The padding loop: append each unseen suggestion, [break] at four. *)
Fixpoint pad_suggestions (suggestions pool : list string) : list string :=
  match pool with
  | [] => suggestions
  | suggestion :: rest =>
      if mem suggestion suggestions then pad_suggestions suggestions rest
      else
        let suggestions' := suggestions ++ [suggestion] in
        if 4 <=? List.length suggestions' then suggestions'
        else pad_suggestions suggestions' rest
  end.

(** The [try] body of [_enhanced_fallback_analysis].  Every operation in
    it is defined on every list of sections, so its [except] branch,
    which returns [default_score], is not taken. *)
Definition _enhanced_fallback_analysis : ATSScore :=
  let overall := sum_values rule_category_scores in
  let suggestions :=
    if List.length targeted_suggestions <? 3
    then pad_suggestions targeted_suggestions additional_suggestions
    else targeted_suggestions in
  let strengths :=
    match targeted_strengths with
    | [] => ["Professional resume structure"; "Clear section organization"]
    | xs => xs
    end in
  mkATS (Z.min 100 overall) rule_category_scores
        (take 4 suggestions) (take 3 strengths).

End Scoring.

(** The constant of the [except] branch. *)
Definition default_score : ATSScore :=
  mkATS 70
    [("format_structure", 15); ("keywords_skills", 15);
     ("experience_relevance", 15); ("contact_info", 12);
     ("education_credentials", 13)]%Z
    ["Optimize resume format for better ATS compatibility";
     "Include more relevant industry keywords and technical skills";
     "Add quantifiable achievements to your experience section";
     "Ensure all contact information is complete and professional"]
    ["Professional resume structure"; "Clear section organization"].

End AIATSScorer.

(** ** Regular expressions of the line classifier

    The patterns of [classify_section_type] use literals, character
    classes, alternation, optional groups, bounded and greedy repetition
    of a class, and the word boundary.  [re] resolves them by
    backtracking with the leftmost alternative and the longest repetition
    tried first; the matcher below does the same, in continuation-passing
    style.  A position is the character before it (for the word boundary)
    and the text after it. *)

Module Re.

Inductive regex : Type :=
| Lit (s : string)                    (* the characters of [s] *)
| Class (p : ascii -> bool)           (* one character of a class *)
| Seq (r1 r2 : regex)
| Alt (r1 r2 : regex)                 (* [r1|r2] *)
| Opt (r : regex)                     (* [r?] *)
| Many (lo : nat) (p : ascii -> bool) (* [p*] ([lo] = 0), [p+], [p{lo,}] *)
| Times (n : nat) (p : ascii -> bool) (* [p{n}] *)
| WordB.                              (* [\b] *)

Definition pos := (option ascii * string)%type.

Definition is_word_before (prev : option ascii) : bool :=
  match prev with
  | Some c => isword c
  | None => false
  end.

Definition is_word_after (s : string) : bool :=
  match s with
  | String c _ => isword c
  | EmptyString => false
  end.

Section Matcher.

Context {R : Type}.

Fixpoint lit (l : string) (prev : option ascii) (s : string)
    (k : option ascii -> string -> option R) : option R :=
  match l with
  | EmptyString => k prev s
  | String a l' =>
      match s with
      | String c s' => if Ascii.eqb a c then lit l' (Some c) s' k else None
      | EmptyString => None
      end
  end.

Fixpoint times (n : nat) (p : ascii -> bool) (prev : option ascii)
    (s : string) (k : option ascii -> string -> option R) : option R :=
  match n with
  | 0 => k prev s
  | S n' =>
      match s with
      | String c s' => if p c then times n' p (Some c) s' k else None
      | EmptyString => None
      end
  end.

Fixpoint many (lo : nat) (p : ascii -> bool) (prev : option ascii)
    (s : string) (k : option ascii -> string -> option R) : option R :=
  let stop := match lo with 0 => k prev s | S _ => None end in
  match s with
  | String c s' =>
      if p c then
        match many (Nat.pred lo) p (Some c) s' k with
        | Some x => Some x
        | None => stop
        end
      else stop
  | EmptyString => stop
  end.

Fixpoint run (r : regex) (prev : option ascii) (s : string)
    (k : option ascii -> string -> option R) : option R :=
  match r with
  | Lit l => lit l prev s k
  | Class p =>
      match s with
      | String c s' => if p c then k (Some c) s' else None
      | EmptyString => None
      end
  | Seq r1 r2 => run r1 prev s (fun prev' s' => run r2 prev' s' k)
  | Alt r1 r2 =>
      match run r1 prev s k with
      | Some x => Some x
      | None => run r2 prev s k
      end
  | Opt r1 =>
      match run r1 prev s k with
      | Some x => Some x
      | None => k prev s
      end
  | Many lo p => many lo p prev s k
  | Times n p => times n p prev s k
  | WordB =>
      if xorb (is_word_before prev) (is_word_after s) then k prev s else None
  end.

End Matcher.

(** The match of [r] that starts at a position, if there is one: the
    position where it ends. *)
Definition match_at (r : regex) (prev : option ascii) (s : string)
  : option pos :=
  run r prev s (fun prev' s' => Some (prev', s')).

(** [len(re.findall(r, s))]: scan from the left; after a match resume
    where it ended (one character further after an empty match). *)
Fixpoint count_from (fuel : nat) (r : regex) (prev : option ascii)
    (s : string) : nat :=
  match fuel with
  | 0 => 0
  | S fuel' =>
      match match_at r prev s with
      | Some (prev', s') =>
          if String.length s' <? String.length s
          then S (count_from fuel' r prev' s')
          else match s with
               | String c rest => S (count_from fuel' r (Some c) rest)
               | EmptyString => 1
               end
      | None =>
          match s with
          | String c rest => count_from fuel' r (Some c) rest
          | EmptyString => 0
          end
      end
  end.

Definition findall_count (r : regex) (s : string) : nat :=
  count_from (S (String.length s)) r None s.

(** Building blocks. *)
Fixpoint seq_all (rs : list regex) : regex :=
  match rs with
  | [] => Lit EmptyString
  | [r] => r
  | r :: rs' => Seq r (seq_all rs')
  end.

Fixpoint alt_words (ws : list string) : regex :=
  match ws with
  | [] => Class (fun _ => false)
  | [w] => Lit w
  | w :: ws' => Alt (Lit w) (alt_words ws')
  end.

(** [\b(w1|w2|...)\b] *)
Definition word_of (ws : list string) : regex :=
  seq_all [WordB; alt_words ws; WordB].

Definition one_of (cs : string) (c : ascii) : bool :=
  any_char (Ascii.eqb c) cs.

End Re.

(** ** Line classifier ([main_old.py], [classify_section_type]) *)

Module Classifier.

Import Re.

(** [self.section_keywords], in the order of the dict literal. *)
Definition section_keywords : list (string * list string) :=
  [("personal", ["contact"; "personal information"; "personal details";
                 "profile"; "address"; "phone"; "email"; "linkedin";
                 "github"]);
   ("summary", ["summary"; "objective"; "profile summary";
                "career objective"; "about"; "professional summary";
                "overview"; "career summary"]);
   ("experience", ["experience"; "work experience"; "employment";
                   "career history"; "professional experience";
                   "work history"; "employment history";
                   "professional background"]);
   ("education", ["education"; "academic"; "qualifications"; "degrees";
                  "certifications"; "academic background";
                  "educational background"; "university"; "college";
                  "school"]);
   ("skills", ["skills"; "technical skills"; "competencies"; "expertise";
               "technologies"; "programming languages"; "tools";
               "software"]);
   ("projects", ["projects"; "portfolio"; "work samples"; "achievements";
                 "personal projects"; "side projects"; "open source"])].

(** Character classes of the patterns.  The source class [[-–]] also
    holds the en dash, which is not an ASCII character. *)
Definition phone_sep (c : ascii) : bool := one_of "-." c || isspace c.
Definition email_local (c : ascii) : bool :=
  isupper_char c || islower_char c || isdigit c || one_of "._%+-" c.
Definition email_domain (c : ascii) : bool :=
  isupper_char c || islower_char c || isdigit c || one_of ".-" c.
Definition email_tld (c : ascii) : bool :=
  isupper_char c || islower_char c || one_of "|" c.
Definition dash (c : ascii) : bool := one_of "-" c.

Definition year_range : regex :=
  seq_all [WordB; Times 4 isdigit; Many 0 isspace; Class dash;
           Many 0 isspace; Times 4 isdigit; WordB].

(** The local [patterns] dict of [classify_section_type]. *)
Definition patterns : list (string * list regex) :=
  [("personal",
    [seq_all [WordB; Times 3 isdigit; Opt (Class phone_sep); Times 3 isdigit;
              Opt (Class phone_sep); Times 4 isdigit; WordB];
     seq_all [WordB; Many 1 email_local; Lit "@"; Many 1 email_domain;
              Lit "."; Many 2 email_tld; WordB];
     seq_all [WordB; alt_words ["linkedin"; "github"]; Lit ".com"; WordB];
     seq_all [WordB; Times 5 isdigit;
              Opt (Seq (Lit "-") (Times 4 isdigit)); WordB]]);
   ("experience",
    [seq_all [WordB;
              alt_words ["jan"; "feb"; "mar"; "apr"; "may"; "jun"; "jul";
                         "aug"; "sep"; "oct"; "nov"; "dec"];
              Many 1 isspace; Times 4 isdigit; WordB];
     year_range;
     word_of ["present"; "current"];
     word_of ["developed"; "created"; "built"; "managed"; "led"; "designed";
              "implemented"]]);
   ("education",
    [word_of ["bachelor"; "master"; "phd"; "doctorate"; "diploma";
              "certificate"];
     word_of ["university"; "college"; "institute"; "school"];
     seq_all [WordB; alt_words ["gpa"; "cgpa"]; Many 0 isspace;
              Opt (Lit ":"); Many 0 isspace; Many 1 isdigit; Lit ".";
              Many 1 isdigit; WordB];
     year_range]);
   ("skills",
    [word_of ["python"; "javascript"; "java"; "react"; "node"; "html"; "css";
              "sql"; "aws"; "docker"];
     word_of ["programming"; "development"; "software"; "technical"];
     word_of ["proficient"; "experienced"; "expert"; "familiar"]]);
   ("projects",
    [word_of ["project"; "built"; "developed"; "created"; "designed"];
     word_of ["github"; "repository"; "demo"; "live"];
     word_of ["technologies"; "stack"; "framework"]])].

(** [d.get(k, [])] on the two tables. *)
Fixpoint table_get {A : Type} (k : string) (d : list (string * list A))
  : list A :=
  match d with
  | [] => []
  | (k', v) :: d' => if String.eqb k k' then v else table_get k d'
  end.

(** The first loop: 3 for a keyword in the first 50 characters, 1 for a
    keyword elsewhere in the line. *)
Definition keyword_points (text_lower keyword : string) : nat :=
  if contains keyword text_lower then
    if contains keyword (slice_to 50 text_lower) then 3 else 1
  else 0.

Fixpoint sum_nat (l : list nat) : nat :=
  match l with
  | [] => 0
  | x :: l' => x + sum_nat l'
  end.

Definition keyword_score (keywords : list string) (text_lower : string) : nat :=
  sum_nat (map (keyword_points text_lower) keywords).

(** The second loop: [matches * 2] for every pattern. *)
Definition pattern_score (pattern_list : list regex) (text_lower : string)
  : nat :=
  sum_nat (map (fun pattern => findall_count pattern text_lower * 2)
               pattern_list).

(** [section_scores[section_type]] after both loops. *)
Definition section_score (section_type text : string) : nat :=
  let text_lower := lower text in
  keyword_score (table_get section_type section_keywords) text_lower
  + pattern_score (table_get section_type patterns) text_lower.

Definition section_scores (text : string) : list (string * nat) :=
  map (fun kv => (kv.1, section_score kv.1 text)) section_keywords.

(** [classify_section_type]: the first type with the highest positive
    score, else the chain of fallback heuristics. *)
Definition classify_section_type (text : string) : string :=
  let text_lower := lower text in
  let scores := section_scores text in
  let max_score := fold_right Nat.max 0 (map snd scores) in
  match (if 0 <? max_score
         then List.find (fun kv => kv.2 =? max_score) scores
         else None) with
  | Some (section_type, _) => section_type
  | None =>
      if contains "@" text || any_in ["phone"; "email"; "address"] text_lower
      then "personal"
      else if any_in ["university"; "degree"; "bachelor"; "master"; "phd"]
                     text_lower
      then "education"
      else if any_in ["company"; "manager"; "developer"; "analyst";
                      "engineer"] text_lower
      then "experience"
      else if any_in ["python"; "javascript"; "java"; "react"; "node"]
                     text_lower
      then "skills"
      else "other"
  end.

End Classifier.

(** ** Model replies

    A reply of the language model is text; [json.loads] turns it into a
    Python value.  The values that matter here are integers, strings,
    lists and dicts; a JSON number is taken to be an integer, and a dict
    is the list of its items (one per key). *)

Module Json.

Inductive json : Type :=
| JNull
| JBool (b : bool)
| JInt (z : Z)
| JStr (s : string)
| JList (l : list json)
| JDict (d : list (string * json)).

(** [bool(v)] *)
Definition truthy (v : json) : bool :=
  match v with
  | JNull => false
  | JBool b => b
  | JInt z => negb (z =? 0)%Z
  | JStr s => Py.truthy s
  | JList l => match l with [] => false | _ => true end
  | JDict d => match d with [] => false | _ => true end
  end.

Fixpoint assoc (k : string) (d : list (string * json)) : option json :=
  match d with
  | [] => None
  | (k', v) :: d' => if String.eqb k k' then Some v else assoc k d'
  end.

(** [v.get(k, default)]; [None] stands for the [AttributeError] of a
    value that is not a dict. *)
Definition get (k : string) (default : json) (v : json) : option json :=
  match v with
  | JDict d => Some (match assoc k d with Some x => x | None => default end)
  | _ => None
  end.

(** A value used as an [int] ([bool] is a subclass of [int]). *)
Definition as_int (v : json) : option Z :=
  match v with
  | JInt z => Some z
  | JBool b => Some (if b then 1 else 0)%Z
  | _ => None
  end.

Definition as_str (v : json) : option string :=
  match v with
  | JStr s => Some s
  | _ => None
  end.

(** Validation of a [List[str]] and of a [Dict[str, int]] field. *)
Definition as_str_list (v : json) : option (list string) :=
  match v with
  | JList l => mapM as_str l
  | _ => None
  end.

Definition as_int_dict (v : json) : option dict :=
  match v with
  | JDict d => mapM (fun kv => z ← as_int kv.2; Some (kv.1, z)) d
  | _ => None
  end.

(** [v[:n]] followed by validation as [List[str]]: only a list of
    strings passes. *)
Definition str_list_prefix (n : nat) (v : json) : option (list string) :=
  match v with
  | JList l => as_str_list (JList (take n l))
  | _ => None
  end.

(** [re.search(r'\{.*\}', text, re.DOTALL)]: from the first opening
    brace to the last closing brace after it. *)
Fixpoint upto_last (c : ascii) (s : string) : option string :=
  match s with
  | EmptyString => None
  | String a s' =>
      match upto_last c s' with
      | Some r => Some (String a r)
      | None => if Ascii.eqb a c then Some (String a EmptyString) else None
      end
  end.

Fixpoint json_span (text : string) : option string :=
  match text with
  | EmptyString => None
  | String a s' =>
      if Ascii.eqb a "{"%char
      then option_map (String a) (upto_last "}"%char s')
      else json_span s'
  end.

(** [s.replace(old, new)] for a non-empty [old]: [skip] counts the
    characters of a replaced occurrence still to pass over. *)
Fixpoint replace_aux (old new : string) (skip : nat) (s : string) : string :=
  match s with
  | EmptyString => EmptyString
  | String c s' =>
      match skip with
      | S skip' => replace_aux old new skip' s'
      | 0 =>
          if String.prefix old s
          then String.append new
                 (replace_aux old new (String.length old - 1) s')
          else String c (replace_aux old new 0 s')
      end
  end.

Definition replace (old new s : string) : string := replace_aux old new 0 s.

End Json.

(** ** Model-assisted scoring *)

Import Json.

Definition json_strings (l : list string) : json := JList (map JStr l).

Definition json_ints (d : dict) : json :=
  JDict (map (fun kv => (kv.1, JInt kv.2)) d).

(** [AIATSScorer.analyze_resume] ([ai_ats_scorer.py]) from the reply of
    the HTTP call on: [reply] is [None] when the call fails, times out or
    answers with a status other than 200. *)
Section AIAnalyze.

Variable json_loads : string -> option json.

(** [max(0, min(hi, v.get(k, default)))] *)
Definition clamped (hi : Z) (k : string) (default : Z) (v : json) : option Z :=
  x ← get k (JInt default) v;
  z ← as_int x;
  Some (Z.max 0 (Z.min hi z)).

(** "Validate and sanitize the response": [None] stands for an
    exception, which the callers answer with the rule-based scorer. *)
Definition sanitized (ai_analysis : json) : option ATSScore :=
  overall ← clamped 100 "overall_score" 70 ai_analysis;
  cs ← get "category_scores" (JDict []) ai_analysis;
  fs ← clamped 25 "format_structure" 15 cs;
  ks ← clamped 25 "keywords_skills" 15 cs;
  er ← clamped 25 "experience_relevance" 15 cs;
  ci ← clamped 25 "contact_info" 12 cs;
  ec ← clamped 25 "education_credentials" 13 cs;
  sg ← get "suggestions"
         (json_strings
            ["Add more quantifiable achievements with specific metrics";
             "Include more industry-specific keywords and technical skills";
             "Ensure all contact information is complete and professional";
             "Use action verbs to start each bullet point in experience section"])
         ai_analysis;
  suggestions ← str_list_prefix 4 sg;
  st ← get "strengths"
         (json_strings ["Professional resume structure";
                        "Clear section organization"])
         ai_analysis;
  strengths ← str_list_prefix 3 st;
  Some (mkATS overall
          [("format_structure", fs); ("keywords_skills", ks);
           ("experience_relevance", er); ("contact_info", ci);
           ("education_credentials", ec)]
          suggestions strengths).

Definition analyze_resume (reply : option string)
    (sections : list ResumeSection) : ATSScore :=
  let fallback := AIATSScorer._enhanced_fallback_analysis sections in
  match reply with
  | None => fallback
  | Some ai_response =>
      match json_span ai_response with
      | None => fallback
      | Some json_str =>
          match json_loads json_str with
          | None => fallback
          | Some ai_analysis => default fallback (sanitized ai_analysis)
          end
      end
  end.

End AIAnalyze.

(** ** [OllamaResumeAnalyzer] ([ollama_resume_analyzer.py]) *)

Module OllamaResumeAnalyzer.

(** [_classify_section_type] *)
Definition _classify_section_type (header : string) : string :=
  let header_lower := lower header in
  if any_in ["objective"; "summary"; "profile"] header_lower then "summary"
  else if any_in ["experience"; "work"; "employment"; "career"] header_lower
  then "experience"
  else if any_in ["education"; "academic"; "degree"] header_lower
  then "education"
  else if any_in ["skills"; "technical"; "competencies"] header_lower
  then "skills"
  else if any_in ["projects"; "portfolio"] header_lower then "projects"
  else "other".

Definition is_header_line (line : string) : bool :=
  let line_clean := upper (strip line) in
  (String.length line_clean <? 50)
  && any_in ["OBJECTIVE"; "SUMMARY"; "EXPERIENCE"; "WORK"; "EMPLOYMENT";
             "EDUCATION"; "SKILLS"; "PROJECTS"; "ACHIEVEMENTS";
             "CERTIFICATIONS"] line_clean.

(** The loop over [section_headers]: each header owns the lines up to the
    next header, or to the end. *)
Fixpoint header_sections (lines : list string)
    (section_headers : list (nat * string)) : list ResumeSection :=
  match section_headers with
  | [] => []
  | (line_idx, header) :: rest =>
      let start_idx := line_idx + 1 in
      let end_idx := match rest with
                     | (next_idx, _) :: _ => next_idx
                     | [] => List.length lines
                     end in
      let content := strip (join nl (slice start_idx end_idx lines)) in
      (if Py.truthy content
       then [mkSection (_classify_section_type header) header content
                       (8 # 10)]
       else [])
      ++ header_sections lines rest
  end.

(** [if content: sections.append(...)] of the percentage split. *)
Definition section_if (ty ttl content : string) (conf : Q)
  : list ResumeSection :=
  if Py.truthy content then [mkSection ty ttl content conf] else [].

(** [_fallback_section_extraction] *)
Definition _fallback_section_extraction (raw_text : string)
  : list ResumeSection :=
  let lines := split_char nl_char raw_text in
  let section_headers :=
    map (fun il => (il.1, strip il.2))
        (filter (fun il => is_header_line il.2 = true) (enumerate lines)) in
  match section_headers with
  | _ :: _ => header_sections lines section_headers
  | [] =>
      let total_lines := List.length lines in
      let personal_end := Nat.max 5 (int_times_0_15 total_lines) in
      let exp_start := personal_end in
      let exp_end := exp_start + int_times_0_6 total_lines in
      section_if "personal" "Personal Information"
        (strip (join nl (take personal_end lines))) (7 # 10)
      ++ section_if "experience" "Work Experience"
           (strip (join nl (slice exp_start exp_end lines))) (6 # 10)
      ++ section_if "skills" "Skills & Additional Information"
           (strip (join nl (drop exp_end lines))) (6 # 10)
  end.

(** [_fallback_ats_scoring] *)
Definition _fallback_ats_scoring (sections : list ResumeSection) : ATSScore :=
  let has_contact :=
    existsb (fun s => contains "email" (lower (content s))
                      || contains "phone" (lower (content s))) sections in
  let has_experience :=
    existsb (fun s => contains "experience" (lower (title s))
                      || contains "work" (lower (title s))) sections in
  let has_skills :=
    existsb (fun s => contains "skill" (lower (title s))) sections in
  let has_education :=
    existsb (fun s => contains "education" (lower (title s))
                      || contains "degree" (lower (content s))) sections in
  let total_words :=
    Classifier.sum_nat
      (map (fun s => List.length (split_ws (content s))) sections) in
  let contact_score := (if has_contact then 13 else 8)%Z in
  let experience_score := (if has_experience then 22 else 15)%Z in
  let skills_score := (if has_skills then 18 else 12)%Z in
  let education_score := (if has_education then 8 else 5)%Z in
  let format_score := if 100 <? total_words then 20%Z else 15%Z in
  let overall_score :=
    (contact_score + experience_score + skills_score + education_score
     + format_score)%Z in
  let s0 := [] in
  let s1 := AIATSScorer.append_if (negb has_contact)
    "Add complete contact information including email and phone number" s0 in
  let s2 := AIATSScorer.append_if (negb has_experience)
    "Include detailed work experience with quantifiable achievements" s1 in
  let s3 := AIATSScorer.append_if (negb has_skills)
    "Add a dedicated skills section with relevant technical skills" s2 in
  let s4 := AIATSScorer.append_if (total_words <? 200)
    "Expand content with more detailed descriptions" s3 in
  (* [while len(suggestions) < 4: suggestions.extend(four entries)]:
     one pass makes the list long enough. *)
  let suggestions :=
    if List.length s4 <? 4
    then s4 ++ ["Use action verbs and quantify achievements where possible";
                "Include industry-specific keywords for better ATS compatibility";
                "Ensure consistent formatting throughout the document";
                "Add relevant certifications or professional development"]
    else s4 in
  mkATS (Z.min overall_score 100)
    [("format_structure", format_score); ("keywords_skills", skills_score);
     ("experience_relevance", experience_score);
     ("contact_info", contact_score);
     ("education_credentials", education_score)]
    (take 4 suggestions)
    ["Resume follows standard professional format";
     "Content is well-organized and readable"].

Section WithModel.

(** [json.loads]; [None] is a [JSONDecodeError]. *)
Variable json_loads : string -> option json.

Definition truthy_opt (parsed_data : option json) : bool :=
  match parsed_data with
  | Some v => Json.truthy v
  | None => false
  end.

(** [try: parsed_data = json.loads(s) except JSONDecodeError: pass] *)
Definition try_loads (s : string) (parsed_data : option json) : option json :=
  match json_loads s with
  | Some v => Some v
  | None => parsed_data
  end.

(** The three extraction strategies, each run only while [parsed_data]
    is still falsy. *)
Definition parse_reply (response_text : string) : option json :=
  let parsed1 := try_loads response_text None in
  let parsed2 :=
    if truthy_opt parsed1 then parsed1
    else match json_span response_text with
         | Some json_str => try_loads json_str parsed1
         | None => parsed1
         end in
  if truthy_opt parsed2 then parsed2
  else
    let clean_text :=
      strip (replace "```" "" (replace "```json" "" response_text)) in
    try_loads clean_text parsed2.

Definition default_category_scores : dict :=
  [("format_structure", 18); ("keywords_skills", 16);
   ("experience_relevance", 20); ("contact_info", 12);
   ("education_credentials", 9)]%Z.

(** The [ATSScore(...)] built from [parsed_data]; [None] stands for an
    exception (a value of the wrong type), caught by the caller.  An
    integer field takes an integer as it is; the conversions pydantic
    applies to other values are outside the model. *)
Definition ats_of_parsed (parsed_data : json) : option ATSScore :=
  ov ← get "overall_score" (JInt 75) parsed_data;
  overall ← as_int ov;
  cs ← get "category_scores" (json_ints default_category_scores) parsed_data;
  categories ← as_int_dict cs;
  sg ← get "suggestions"
         (json_strings
            ["Optimize resume format for better ATS compatibility";
             "Include more industry-specific keywords";
             "Add quantifiable achievements to experience";
             "Ensure contact information is complete"])
         parsed_data;
  suggestions ← str_list_prefix 4 sg;
  st ← get "strengths"
         (json_strings ["Professional resume structure";
                        "Clear section organization"])
         parsed_data;
  strengths ← str_list_prefix 3 st;
  Some (mkATS overall categories suggestions strengths).

(** [score_ats_with_ollama]: [generated] is the text of the model reply,
    [None] when [self.client.generate] raises. *)
Definition score_ats_with_ollama (generated : option string)
    (sections : list ResumeSection) : ATSScore :=
  match generated with
  | None => _fallback_ats_scoring sections
  | Some response =>
      let response_text := strip response in
      let parsed_data := parse_reply response_text in
      if truthy_opt parsed_data
      then default (_fallback_ats_scoring sections)
                   (parsed_data ≫= ats_of_parsed)
      else _fallback_ats_scoring sections
  end.

End WithModel.

(** [analyze_complete_resume]: the two steps inside [try] are calls that
    either return or raise ([None]); [elapsed] is the clock reading
    [time.time() - start_time]. *)
Section Analyze.

Variable extract_sections_with_ollama : string -> option (list ResumeSection).
Variable score_ats : list ResumeSection -> option ATSScore.
Variable elapsed : Q.

Definition analyze_complete_resume (raw_text filename : string)
  : CompleteResumeAnalysis :=
  let normal :=
    sections ← extract_sections_with_ollama raw_text;
    ats_analysis ← score_ats sections;
    Some (mkAnalysis true filename sections ats_analysis raw_text elapsed) in
  match normal with
  | Some analysis => analysis
  | None =>
      let fallback_sections := _fallback_section_extraction raw_text in
      let fallback_ats := _fallback_ats_scoring fallback_sections in
      mkAnalysis false filename fallback_sections fallback_ats raw_text
                 elapsed
  end.

End Analyze.

End OllamaResumeAnalyzer.

(** ** HTTP endpoints ([main.py]) *)

Module Service.

(** What an endpoint does: return a value or raise [HTTPException]. *)
Inductive response (A : Type) : Type :=
| Ok (a : A)
| HTTPException (status_code : nat) (detail : string).

Arguments Ok {A} a.
Arguments HTTPException {A} status_code detail.

(** The part of [UploadFile] the service reads. *)
Record UploadFile := mkUpload {
  content_type : option string;
  upload_filename : option string;
  file_content : string
}.

(** [s.endswith(suffix)] *)
Fixpoint endswith (s suffix : string) : bool :=
  String.eqb s suffix
  || match s with
     | EmptyString => false
     | String _ s' => endswith s' suffix
     end.

Definition pdf_type : string := "application/pdf".
Definition docx_type : string :=
  "application/vnd.openxmlformats-officedocument.wordprocessingml.document".
Definition txt_type : string := "text/plain".

Definition is_type (ct : option string) (t : string) : bool :=
  match ct with
  | Some c => String.eqb c t
  | None => false
  end.

Section Endpoints.

(** The libraries behind [DocumentParser]: the text of a PDF, the
    paragraphs of a DOCX and the decoded text of a TXT file, or the cause
    of the failure ([inl]). *)
Variable pdf_text : string -> string + string.
Variable docx_paragraphs : string -> string + list string.
Variable txt_text : string -> string + string.

(** The module-level [analyzer]: [None] when its construction failed,
    else [analyzer.analyze_complete_resume], which raises ([inl], with the
    message) or returns. *)
Variable analyzer :
  option (string -> option string -> string + CompleteResumeAnalysis).

Definition parse_pdf (content : string) : response string :=
  match pdf_text content with
  | inr text => Ok (strip text)
  | inl cause => HTTPException 400 (String.append "Failed to parse PDF: " cause)
  end.

Definition parse_docx (content : string) : response string :=
  match docx_paragraphs content with
  | inr paragraphs =>
      Ok (strip (String.concat "" (map (fun p => String.append p nl)
                                       paragraphs)))
  | inl cause =>
      HTTPException 400 (String.append "Failed to parse DOCX: " cause)
  end.

Definition parse_txt (content : string) : response string :=
  match txt_text content with
  | inr text => Ok (strip text)
  | inl cause => HTTPException 400 (String.append "Failed to parse TXT: " cause)
  end.

(** [DocumentParser.parse_file] *)
Definition parse_file (file : UploadFile) : response string :=
  if is_type (content_type file) pdf_type then parse_pdf (file_content file)
  else if is_type (content_type file) docx_type
  then parse_docx (file_content file)
  else if is_type (content_type file) txt_type
  then parse_txt (file_content file)
  else
    match upload_filename file with
    | None =>
        HTTPException 500
          "File parsing failed: 'NoneType' object has no attribute 'lower'"
    | Some name =>
        let filename := lower name in
        if endswith filename ".pdf" then parse_pdf (file_content file)
        else if endswith filename ".docx" then parse_docx (file_content file)
        else if endswith filename ".txt" then parse_txt (file_content file)
        else HTTPException 400 "Unsupported file type"
    end.

(** The type check at the head of [analyze_resume]. *)
Definition type_accepted (file : UploadFile) : bool :=
  is_type (content_type file) pdf_type
  || is_type (content_type file) docx_type
  || is_type (content_type file) txt_type
  || (let filename := match upload_filename file with
                      | Some name => lower name
                      | None => EmptyString
                      end in
      endswith filename ".pdf" || endswith filename ".docx"
      || endswith filename ".txt").

(** [analyze_resume]: the response, and the texts on which the analyzer
    (section extraction and scoring) was invoked while producing it. *)
Definition analyze_resume (file : UploadFile)
  : response CompleteResumeAnalysis * list string :=
  match analyzer with
  | None => (HTTPException 503 "Ollama analyzer not available", [])
  | Some analyze_complete_resume =>
      if negb (type_accepted file)
      then (HTTPException 400 "Only PDF, DOCX, and TXT files are supported", [])
      else
        match parse_file file with
        | HTTPException code detail => (HTTPException code detail, [])
        | Ok raw_text =>
            if negb (Py.truthy (strip raw_text))
            then (HTTPException 400 "No text content found in file", [])
            else
              match analyze_complete_resume raw_text (upload_filename file) with
              | inr analysis => (Ok analysis, [raw_text])
              | inl message =>
                  (HTTPException 500 (String.append "Analysis failed: " message),
                   [raw_text])
              end
        end
  end.

(** The dicts of the legacy format. *)
Record LegacySection := mkLegacySection {
  legacy_type : string;
  legacy_title : string;
  legacy_content : string;
  legacy_confidence : Q
}.

Record LegacyMetadata := mkLegacyMetadata {
  legacy_processing_time : Q;
  ats_score : Z
}.

Record LegacyResponse := mkLegacy {
  legacy_success : bool;
  legacy_filename : string;
  legacy_sections : list LegacySection;
  metadata : LegacyMetadata;
  legacy_raw_text : string
}.

(** "Convert to legacy format" *)
Definition to_legacy (analysis : CompleteResumeAnalysis) : LegacyResponse :=
  mkLegacy (success analysis) (filename analysis)
    (map (fun section =>
            mkLegacySection (sec_type section) (title section)
                            (content section) (confidence section))
         (sections analysis))
    (mkLegacyMetadata (processing_time analysis)
                      (overall_score (ats_analysis analysis)))
    (raw_text analysis).

(** [parse_resume_legacy] *)
Definition parse_resume_legacy (file : UploadFile) : response LegacyResponse :=
  match (analyze_resume file).1 with
  | Ok analysis => Ok (to_legacy analysis)
  | HTTPException code detail => HTTPException code detail
  end.

End Endpoints.

End Service.

(** ** Scenarios of the specification *)

(** Scenario A. *)
Definition scenario_A_text : string :=
  join nl ["John Doe"; "john@example.com"; "555-123-4567"; "";
           "EXPERIENCE"; "Software Engineer at Acme Corp 2020-Present";
           "Built scalable systems."; ""; "EDUCATION";
           "Bachelor of Science, State University, 2019"; "";
           "SKILLS"; "Python, SQL, Docker"].

(** Scenario D: a reply with text around the JSON object. *)
Definition dq : string := String "034"%char EmptyString.

Definition scenario_D_json : string :=
  String.concat dq ["{"; "overall_score"; ": 150}"].

Definition scenario_D_reply : string :=
  String.append "Here is the result: " scenario_D_json.

(** ** Vocabulary of the properties *)

Module Notions.

Import DocumentParser Service.

(** The invariant of [_create_structured_resume]: no index is owned
    twice, and every owned index is in [used_lines]. *)
Definition owners (secs : list owned_section) : list (list nat) := map snd secs.

Definition tracked (st : list owned_section * gset nat) : Prop :=
  NoDup (List.concat (owners st.1)) ∧ ∀ i, i ∈ List.concat (owners st.1) → i ∈ st.2.

(** A section is built from claims on [lines] when its content is the
    text of some claimed lines, in the order of the document, and it owns
    exactly their indices. *)
Definition built_from (lines : list string) (s : owned_section) : Prop :=
  ∃ cs : list claim,
    cs `sublist_of` enumerate lines
    ∧ content s.1 = content_of cs ∧ s.2 = indices_of cs.

(** Pairwise disjointness of a family of index lists. *)
Definition pairwise_disjoint (family : list (list nat)) : Prop :=
  ∀ (j k : nat) (a b : list nat),
    j ≠ k → family !! j = Some a → family !! k = Some b →
    ∀ i, i ∈ a → i ∉ b.

(** The lines of a section's content. *)
Definition lines_of (s : ResumeSection) : list string :=
  split_char nl_char (content s).

(** Some section of type [ty] has [line] among its lines. *)
Definition section_holds (ty line : string) (secs : list ResumeSection) : bool :=
  existsb (fun s => String.eqb (sec_type s) ty && mem line (lines_of s)) secs.

(** Scenario A, scenario_A_sections and then scenario_A_score by the rule-based scorer. *)
Definition scenario_A_sections : list ResumeSection :=
  DocumentParser.parse_resume_text scenario_A_text.

Definition scenario_A_score : ATSScore :=
  AIATSScorer._enhanced_fallback_analysis scenario_A_sections.

(** Two lines of Scenario A. *)
Definition acme_line : string := "Software Engineer at Acme Corp 2020-Present".
Definition degree_line : string := "Bachelor of Science, State University, 2019".

(** The outcome the specification expects of Scenario A. *)
Definition expected_outcome : bool :=
  section_holds "personal" "john@example.com" scenario_A_sections
  && section_holds "personal" "555-123-4567" scenario_A_sections
  && section_holds "experience" acme_line scenario_A_sections
  && section_holds "education" degree_line scenario_A_sections
  && section_holds "skills" "Python, SQL, Docker" scenario_A_sections
  && (16 <=? dict_get "contact_info" 0 (category_scores scenario_A_score))%Z
  && (20 <=? dict_get "education_credentials" 0 (category_scores scenario_A_score))%Z.

(** The band of a category score. *)
Definition in_band (v : Z) : Prop := (0 <= v <= 25)%Z.

(** The section types of the position-based split. *)
Definition split_types : list string := ["personal"; "experience"; "skills"].

(** A character that [strip] keeps. *)
Definition nonspace (c : ascii) : bool := negb (isspace c).

(** A text has a visible character when some character is not a space. *)
Definition has_visible (text : string) : bool := any_char nonspace text.

(** A section whose content is not the empty string. *)
Definition has_content (s : owned_section) : Prop :=
  Py.truthy (content s.1) = true.

(** A line of 54 characters that ends in a word of the skills pattern. *)
Definition python_line : string :=
  "I have written production services for years in python".

(** The reply of Scenario D, once parsed. *)
Definition scenario_D_parsed : json := JDict [("overall_score", JInt 150)].

(** A [json.loads] that knows the object of Scenario D and nothing else. *)
Definition scenario_D_loads (s : string) : option json :=
  if String.eqb s scenario_D_json then Some scenario_D_parsed else None.

(** Field-for-field agreement of a legacy section with a section. *)
Definition same_section (l : LegacySection) (s : ResumeSection) : Prop :=
  legacy_type l = sec_type s ∧ legacy_title l = title s
  ∧ legacy_content l = content s ∧ legacy_confidence l = confidence s.

(** A concrete service: a PDF library that finds only white space, and
    one that finds the text of Scenario A; an analyzer that answers with
    a fixed analysis. *)
Definition blank_pdf (_ : string) : string + string := inr "   ".
Definition scenario_pdf (_ : string) : string + string := inr scenario_A_text.
Definition no_docx (_ : string) : string + list string := inl "not a DOCX".
Definition no_txt (_ : string) : string + string := inl "not a TXT".

Definition sample_upload : UploadFile :=
  mkUpload (Some pdf_type) (Some "resume.pdf") "%PDF".

Definition sample_analysis (raw : string) : CompleteResumeAnalysis :=
  let secs := OllamaResumeAnalyzer._fallback_section_extraction raw in
  mkAnalysis true "resume.pdf" secs
    (OllamaResumeAnalyzer._fallback_ats_scoring secs) raw (1 # 2).

Definition sample_analyzer
  : option (string → option string → string + CompleteResumeAnalysis) :=
  Some (fun raw _ => inr (sample_analysis raw)).

(** [tail_of w' w]: the text [w'] is what remains of [w] after some of
    its characters. *)
Inductive tail_of : string → string → Prop :=
| tail_here (w : string) : tail_of w w
| tail_later (w' : string) (c : ascii) (w : string) :
    tail_of w' w → tail_of w' (String c w).

(** The characters of the section keywords: the space and the lower-case
    letters. *)
Definition keyword_alphabet : string := " abcdefghijklmnopqrstuvwxyz".

Definition in_alphabet (c : ascii) : bool :=
  any_char (Ascii.eqb c) keyword_alphabet.

(** [all(p(c) for c in s)] *)
Fixpoint all_chars (p : ascii → bool) (s : string) : bool :=
  match s with
  | EmptyString => true
  | String c s' => p c && all_chars p s'
  end.

(** A class that holds some character of the alphabet. *)
Definition hits (p : ascii → bool) : bool := any_char p keyword_alphabet.

(** Can the pattern match inside a text made of the alphabet?  A sound
    over-approximation. *)
Fixpoint can_match_inside (r : Re.regex) : bool :=
  match r with
  | Re.Lit l => all_chars in_alphabet l
  | Re.Class p => hits p
  | Re.Seq r1 r2 => can_match_inside r1 && can_match_inside r2
  | Re.Alt r1 r2 => can_match_inside r1 || can_match_inside r2
  | Re.Opt _ => true
  | Re.Many lo p => (lo =? 0) || hits p
  | Re.Times n p => (n =? 0) || hits p
  | Re.WordB => true
  end.

(** Can a match that starts in a line run on across an appended space
    into appended text made of the alphabet?  A sound
    over-approximation. *)
Fixpoint can_cross (r : Re.regex) : bool :=
  match r with
  | Re.Lit l => any_char (Ascii.eqb " ") l
  | Re.Class p => p " "%char
  | Re.Seq r1 r2 => (can_cross r1 && can_match_inside r2) || can_cross r2
  | Re.Alt r1 r2 => can_cross r1 || can_cross r2
  | Re.Opt r1 => can_cross r1
  | Re.Many lo p => p " "%char
  | Re.Times n p => negb (n =? 0) && p " "%char
  | Re.WordB => false
  end.

(** [line + " " + keyword] *)
Definition with_keyword (text keyword : string) : string :=
  String.append text (String " " keyword).

End Notions.

(** ** Further functions of [DocumentParser] ([main_old.py]) *)

Module DocumentParserMore.

Import DocumentParser.

(** The loop of [_extract_personal_info]: the loop of the tracking
    variant without the index list. *)
Fixpoint plain_personal_loop (ls : list (nat * string)) : list string :=
  match ls with
  | [] => []
  | (i, line) :: rest =>
      if is_contact_line line then line :: plain_personal_loop rest
      else if is_name_line i line then line :: plain_personal_loop rest
      else plain_personal_loop rest
  end.

Definition _extract_personal_info (lines : list string) : string :=
  join nl (plain_personal_loop (enumerate (take 10 lines))).

(** The loop shared by [_extract_summary], [_extract_education],
    [_extract_skills] and [_extract_projects]: no line is skipped. *)
Fixpoint plain_mode_loop (start headers stop : list string) (in_mode : bool)
    (lines : list string) : list string :=
  match lines with
  | [] => []
  | line :: rest =>
      let line_lower := strip (lower line) in
      if any_in start line_lower then
        (if negb (mem line_lower headers) then [line] else [])
        ++ plain_mode_loop start headers stop true rest
      else if in_mode && any_in stop line_lower then []
      else if in_mode && Py.truthy (strip line) then
        line :: plain_mode_loop start headers stop in_mode rest
      else plain_mode_loop start headers stop in_mode rest
  end.

Definition _extract_summary (lines : list string) : string :=
  join nl (plain_mode_loop ["objective"; "summary"; "profile"; "about"]
             ["objective"; "summary"; "profile"; "about"]
             ["experience"; "education"; "skills"; "projects"]
             false lines).

Definition _extract_education (lines : list string) : string :=
  join nl (plain_mode_loop ["education"; "academic"; "qualification"; "degree"]
             ["education"; "academic background"; "qualifications"]
             ["skills"; "projects"; "experience"; "additional"]
             false lines).

Definition _extract_skills (lines : list string) : string :=
  join nl (plain_mode_loop ["skills"; "technical"; "competenc"; "technolog"]
             ["skills"; "technical skills"; "competencies"; "technologies"]
             ["projects"; "experience"; "education"; "additional"]
             false lines).

Definition _extract_projects (lines : list string) : string :=
  join nl (plain_mode_loop ["projects"; "portfolio"]
             ["projects"; "portfolio"; "key projects"]
             ["additional"; "other"; "leadership"]
             false lines).

(** [s.isupper()]: some cased character, and no lower-case one. *)
Definition isupper (s : string) : bool :=
  any_char isupper_char s && negb (any_char islower_char s).

(** [s.count(c)] for one character. *)
Fixpoint count_char (c : ascii) (s : string) : nat :=
  match s with
  | EmptyString => 0
  | String a s' => (if Ascii.eqb a c then 1 else 0) + count_char c s'
  end.

(** [_determine_section_type] *)
Definition _determine_section_type (line : string) : string :=
  let line_lower := strip (lower line) in
  if any_in ["experience"; "work"; "employment"; "career"] line_lower
  then "experience"
  else if any_in ["education"; "academic"; "qualification"; "degree"]
                 line_lower
  then "education"
  else if any_in ["skill"; "technical"; "competenc"; "technolog"] line_lower
  then "skills"
  else if any_in ["project"; "portfolio"] line_lower then "projects"
  else if any_in ["summary"; "objective"; "profile"] line_lower
  then "summary"
  else if any_in ["contact"; "personal"; "about"] line_lower then "personal"
  else "other".

(** [_get_section_title]: [titles.get(section_type, 'Information')]. *)
Definition titles : list (string * string) :=
  [("personal", "Personal Information");
   ("summary", "Professional Summary");
   ("experience", "Work Experience");
   ("education", "Education");
   ("skills", "Technical Skills");
   ("projects", "Projects");
   ("other", "Additional Information")].

Fixpoint titles_get (k : string) (d : list (string * string)) : option string :=
  match d with
  | [] => None
  | (k', v) :: d' => if String.eqb k k' then Some v else titles_get k d'
  end.

Definition _get_section_title (section_type : string) : string :=
  default "Information" (titles_get section_type titles).

(** [_is_clear_section_header] *)
Definition clear_headers : list string :=
  ["experience"; "work experience"; "professional experience";
   "education"; "academic background"; "qualifications";
   "skills"; "technical skills"; "core competencies";
   "projects"; "key projects"; "notable projects";
   "summary"; "professional summary"; "objective";
   "contact"; "personal information"; "about"].

Definition _is_clear_section_header (line : string) : bool :=
  let line_lower := strip (lower line) in
  let few_words := List.length (split_ws line) <=? 3 in
  existsb (fun header => String.eqb line_lower header
                         || (few_words && contains header line_lower))
          clear_headers
  || ((String.length line <? 50)
      && (isupper line
          || Service.endswith line ":"
          || (few_words && any_in clear_headers line_lower))).

(** A boundary: [(line index, section type, title)]. *)
Definition boundary := (nat * string * string)%type.

Definition boundary_index (b : boundary) : nat := b.1.1.
Definition boundary_type (b : boundary) : string := b.1.2.
Definition boundary_title (b : boundary) : string := b.2.

(** The index of the first line from [start] on that passes [test]:
    the loops of [_create_logical_boundaries] that [break] at the first
    hit. *)
Fixpoint first_hit (test : string -> bool) (start : nat) (lines : list string)
  : option nat :=
  match lines with
  | [] => None
  | line :: rest =>
      if test line then Some start else first_hit test (S start) rest
  end.

(** [sorted(boundaries, key=lambda x: x[0])]: a stable sort on the index. *)
Fixpoint insert_boundary (b : boundary) (sorted : list boundary)
  : list boundary :=
  match sorted with
  | [] => [b]
  | b' :: rest =>
      if boundary_index b <=? boundary_index b' then b :: sorted
      else b' :: insert_boundary b rest
  end.

Definition sorted_by_index (bs : list boundary) : list boundary :=
  fold_right insert_boundary [] bs.

Definition has_boundary_type (ty : string) (bs : list boundary) : bool :=
  existsb (fun b => String.eqb (boundary_type b) ty) bs.

(** [_create_logical_boundaries] *)
Definition _create_logical_boundaries (lines : list string) : list boundary :=
  let b0 : list boundary :=
    match lines with
    | [] => []
    | _ => [(0, "personal", "Personal Information")]
    end in
  let b1 :=
    match first_hit
            (fun line =>
               any_in ["developer"; "engineer"; "manager"; "analyst";
                       "consultant"; "2020"; "2021"; "2022"; "2023"; "2024";
                       "present"] (lower line)) 0 lines with
    | Some i =>
        if negb (has_boundary_type "experience" b0)
        then b0 ++ [(Nat.max 0 (i - 2), "experience", "Work Experience")]
        else b0
    | None => b0
    end in
  let half := List.length lines / 2 in
  let b2 :=
    match first_hit
            (fun line =>
               any_in ["javascript"; "python"; "react"; "node"; "aws";
                       "docker"; "sql"] (lower line)) half (drop half lines)
    with
    | Some i =>
        if negb (has_boundary_type "skills" b1)
        then b1 ++ [(Nat.max 0 (i - 1), "skills", "Technical Skills")]
        else b1
    | None => b1
    end in
  sorted_by_index b2.

(** The first loop of [_find_section_boundaries]. *)
Fixpoint header_boundaries (ls : list (nat * string)) : list boundary :=
  match ls with
  | [] => []
  | (i, line) :: rest =>
      if _is_clear_section_header line
      then (i, _determine_section_type line,
            _get_section_title (_determine_section_type line))
           :: header_boundaries rest
      else header_boundaries rest
  end.

(** [_find_section_boundaries] *)
Definition _find_section_boundaries (lines : list string) : list boundary :=
  match header_boundaries (enumerate lines) with
  | [] => _create_logical_boundaries lines
  | boundaries => boundaries
  end.

(** [re.match(pattern, s)]: a match that starts at the first character. *)
Definition re_match (r : Re.regex) (s : string) : bool :=
  match Re.match_at r None s with
  | Some _ => true
  | None => false
  end.

(** [self.section_patterns]; each is applied to the upper-cased line.
    [X?] after a word makes its last letter optional. *)
Definition section_patterns : list Re.regex :=
  let ws := Re.Many 0 isspace in
  let plural (w : string) := Re.Seq (Re.Lit w) (Re.Opt (Re.Lit "S")) in
  [Re.Seq (Re.alt_words ["CONTACT"; "PERSONAL"])
     (Re.Seq ws (Re.Opt (Re.alt_words ["INFORMATION"; "DETAILS"])));
   Re.Seq (Re.Opt (Re.Seq (Re.Lit "PROFESSIONAL") ws))
     (Re.alt_words ["SUMMARY"; "OBJECTIVE"; "PROFILE"]);
   Re.Seq (Re.Opt (Re.Seq (Re.Lit "WORK") ws))
     (Re.alt_words ["EXPERIENCE"; "EMPLOYMENT"; "HISTORY"]);
   Re.alt_words ["EDUCATION"; "ACADEMIC"; "QUALIFICATIONS"];
   Re.Seq (Re.Opt (Re.Seq (Re.Lit "TECHNICAL") ws))
     (Re.alt_words ["SKILLS"; "COMPETENCIES"; "EXPERTISE"]);
   Re.alt_words ["PROJECTS"; "PORTFOLIO"; "ACHIEVEMENTS"];
   Re.Alt (plural "CERTIFICATION") (plural "LICENSE");
   Re.Alt (plural "AWARD") (Re.Alt (plural "HONOR") (Re.Lit "RECOGNITION"));
   Re.Alt (plural "LANGUAGE") (Re.Lit "LINGUISTIC");
   Re.Alt (plural "REFERENCE") (plural "RECOMMENDATION")].

(** [s.startswith(prefix)] *)
Definition startswith (s prefix : string) : bool := String.prefix prefix s.

Definition count_true (conditions : list bool) : nat :=
  List.length (filter (fun b => b = true) conditions).

(** The eight weak signals of [is_section_header], on the stripped line.
    The bullet character of the sixth signal is not an ASCII character,
    so only the dash can start a line of the model. *)
Definition header_conditions (line : string) : list bool :=
  let line_lower := lower line in
  [(String.length line <? 60) && (2 <? String.length line);
   isupper line;
   Service.endswith line ":";
   negb (any_char isdigit (slice_to 15 line));
   count_char " " line <=? 4;
   negb (startswith line "-");
   negb (any_in ["developed"; "created"; "built"; "managed"; "led"]
                line_lower);
   count_char "." line <=? 1].

(** [is_section_header] *)
Definition is_section_header (raw_line : string) : bool :=
  let line := strip raw_line in
  if negb (Py.truthy line) then false
  else if existsb (fun pattern => re_match pattern (upper line))
                  section_patterns then true
  else if existsb
            (fun kv => existsb (fun keyword =>
                                  contains keyword (lower line)
                                  && (String.length line <? 80)) kv.2)
            Classifier.section_keywords then true
  else 3 <=? count_true (header_conditions line).

End DocumentParserMore.

(** ** Section extraction with the model ([ollama_resume_analyzer.py]) *)

Module OllamaSections.

Import OllamaResumeAnalyzer.

(** [for section_data in v]: the items of a list, the keys of a dict and
    the characters of a string; [None] is the [TypeError] of a value that
    is not iterable. *)
Definition iterate (v : json) : option (list json) :=
  match v with
  | JList l => Some l
  | JDict d => Some (map (fun kv => JStr kv.1) d)
  | JStr s =>
      Some (map (fun c => JStr (String c EmptyString)) (list_ascii_of_string s))
  | _ => None
  end.

(** The [ResumeSection(...)] built from one item; [None] stands for an
    exception: the [AttributeError] of an item without [get], or a field
    that is not a string (the conversions pydantic applies to other
    values are outside the model). *)
Definition section_of_item (section_data : json) : option ResumeSection :=
  ty ← get "type" (JStr "other") section_data ≫= as_str;
  ttl ← get "title" (JStr "Unknown Section") section_data ≫= as_str;
  c ← get "content" (JStr EmptyString) section_data ≫= as_str;
  Some (mkSection ty ttl c (9 # 10)).

(** The sections built from a truthy [parsed_data].  [None] stands for
    every way to the fallback: ['sections' in parsed_data] is false (the
    [else] branch), or it raises, or [parsed_data['sections']] or the
    loop raises (the [except] branch).  Only a dict can have the key and
    answer the subscript. *)
Definition sections_of_parsed (parsed_data : json)
  : option (list ResumeSection) :=
  match parsed_data with
  | JDict d =>
      match assoc "sections" d with
      | Some v => items ← iterate v; mapM section_of_item items
      | None => None
      end
  | _ => None
  end.

Section WithModel.

Variable json_loads : string -> option json.

(** [extract_sections_with_ollama]: [generated] is the text of the model
    reply, [None] when [self.client.generate] raises. *)
Definition extract_sections_with_ollama (generated : option string)
    (raw_text : string) : list ResumeSection :=
  match generated with
  | None => _fallback_section_extraction raw_text
  | Some response =>
      let response_text := strip response in
      let parsed_data := parse_reply json_loads response_text in
      if truthy_opt parsed_data
      then default (_fallback_section_extraction raw_text)
                   (parsed_data ≫= sections_of_parsed)
      else _fallback_section_extraction raw_text
  end.

(** The model behind [self.client.generate]: the reply to the prompt
    built from the text, and the reply to the prompt built from the
    sections. *)
Variable generate_sections : string -> option string.
Variable generate_score : list ResumeSection -> option string.
Variable elapsed : Q.

(** [analyze_complete_resume] with the two steps of the class: both
    catch their own exceptions and return. *)
Definition analyze_with_model (raw_text filename : string)
  : CompleteResumeAnalysis :=
  analyze_complete_resume
    (fun raw => Some (extract_sections_with_ollama (generate_sections raw) raw))
    (fun sections =>
       Some (score_ats_with_ollama json_loads (generate_score sections)
                                   sections))
    elapsed raw_text filename.

End WithModel.

End OllamaSections.

(** ** The legacy scoring endpoint ([main.py], [ats_score_legacy]) *)

Module LegacyScore.

Import Service.

(** What the body of a [try] raises. *)
Inductive raised : Type :=
| RaisedHTTP (status_code : nat) (detail : string)
| RaisedError (message : string).

Section Endpoint.

(** [str(e)] of an [HTTPException], which the framework defines. *)
Variable str_of_http : nat -> string -> string.

(** The message of the [TypeError] of a loop over a value that is not
    iterable. *)
Variable not_iterable : json -> string.

(** [ResumeSection(type=section.get('type', 'other'), ...)] on a dict:
    the section, or the message of the validation error. *)
Variable make_section : list (string * json) -> string + ResumeSection.

(** The module-level [analyzer] seen through [score_ats_with_ollama]:
    [None] when its construction failed. *)
Variable analyzer : option (list ResumeSection -> ATSScore).

Definition str_of (e : raised) : string :=
  match e with
  | RaisedHTTP status_code detail => str_of_http status_code detail
  | RaisedError message => message
  end.

(** The loop that converts the items: only dicts are converted, and a
    validation error ends the loop. *)
Fixpoint convert_sections (sections_data : list json)
  : raised + list ResumeSection :=
  match sections_data with
  | [] => inr []
  | JDict section :: rest =>
      match make_section section with
      | inl message => inl (RaisedError message)
      | inr resume_section =>
          match convert_sections rest with
          | inl e => inl e
          | inr resume_sections => inr (resume_section :: resume_sections)
          end
      end
  | _ :: rest => convert_sections rest
  end.

(** The body of the [try]; [request] is a dict, so
    [isinstance(request, list)] is false. *)
Definition score_body (score : list ResumeSection -> ATSScore)
    (request : list (string * json)) : raised + ATSScore :=
  let sections_data :=
    match assoc "sections" request with
    | Some v => v
    | None => JList []
    end in
  if negb (Json.truthy sections_data)
  then inl (RaisedHTTP 400 "No sections provided")
  else
    match OllamaSections.iterate sections_data with
    | None => inl (RaisedError (not_iterable sections_data))
    | Some items =>
        match convert_sections items with
        | inl e => inl e
        | inr resume_sections =>
            if match resume_sections with [] => true | _ => false end
            then inl (RaisedHTTP 400 "No valid sections found")
            else inr (score resume_sections)
        end
    end.

(** [ats_score_legacy]: [except Exception] also catches the two
    [HTTPException]s raised in the body. *)
Definition ats_score_legacy (request : list (string * json))
  : response ATSScore :=
  match analyzer with
  | None => HTTPException 503 "Ollama analyzer not available"
  | Some score =>
      match score_body score request with
      | inr ats_analysis => Ok ats_analysis
      | inl e =>
          HTTPException 500 (String.append "ATS scoring failed: " (str_of e))
      end
  end.

End Endpoint.

End LegacyScore.

(** ** Vocabulary of the further properties *)

Module MoreNotions.

Import DocumentParser DocumentParserMore.

(** A line that names a university or a college. *)
Definition names_institution (line : string) : bool :=
  any_in ["university"; "college"] (strip (lower line)).

(** The lines at the indices [idx] of a document. *)
Definition lines_at (lines : list string) (idx : list nat)
    (ls : list string) : Prop :=
  Forall2 (fun i line => lines !! i = Some line) idx ls.

(** The section types of [_create_structured_resume]. *)
Definition structured_types : list string :=
  ["personal"; "summary"; "experience"; "education"; "skills"; "projects";
   "additional"].

Definition types_of (secs : list owned_section) : list string :=
  map (fun s => sec_type s.1) secs.

(** The sections that own the line [i]. *)
Definition owns (i : nat) (s : owned_section) : Prop := i ∈ s.2.

(** The sections of a state own every used line, and the types they have
    are among [allowed]. *)
Definition accounted (allowed : list string)
    (st : list owned_section * gset nat) : Prop :=
  ∀ i, i ∈ st.2 → ∃ s, s ∈ st.1 ∧ owns i s ∧ sec_type s.1 ∈ allowed.

(** Boundaries in the order of the document. *)
Definition by_index (a b : boundary) : Prop :=
  boundary_index a <= boundary_index b.

(** A boundary of a document: its index is the index of a line, and its
    title is the title of its type. *)
Definition boundary_of (lines : list string) (b : boundary) : Prop :=
  boundary_index b < List.length lines
  ∧ boundary_title b = _get_section_title (boundary_type b)
  ∧ boundary_title b ≠ "Information".

(** The five keys of [category_scores]. *)
Definition category_keys : list string :=
  ["format_structure"; "keywords_skills"; "experience_relevance";
   "contact_info"; "education_credentials"].

(** A score as the response model describes it: [overall_score] within
    0..100, the five categories each within 0..25, at most four
    suggestions and at most three strengths. *)
Definition valid_score (r : ATSScore) : Prop :=
  (0 <= overall_score r <= 100)%Z
  ∧ map fst (category_scores r) = category_keys
  ∧ Forall (fun kv => Notions.in_band kv.2) (category_scores r)
  ∧ List.length (suggestions r) <= 4
  ∧ List.length (strengths r) <= 3.

(** The suggestion that the rule-based scorer attaches to a category. *)
Definition category_advice : list (string * string) :=
  [("contact_info",
    "Add complete contact information including professional email, phone number, and LinkedIn profile");
   ("keywords_skills",
    "Include more industry-relevant keywords and technical skills to improve ATS compatibility");
   ("experience_relevance",
    "Add quantifiable achievements with specific metrics (e.g., 'Increased sales by 25%', 'Led team of 8')");
   ("format_structure",
    "Improve resume structure with clear section headers and consistent formatting")].

(** A [json.loads] whose every result is falsy ([None], [0], [{}], ...)
    or an error. *)
Definition never_truthy (json_loads : string → option json) : Prop :=
  ∀ s v, json_loads s = Some v → Json.truthy v = false.

(** [c in s] for one character. *)
Definition has_char (c : ascii) (s : string) : bool :=
  any_char (Ascii.eqb c) s.

(** The text from an opening brace to a closing brace, around [mid]. *)
Definition braced (mid : string) : string :=
  String "{" (String.append mid "}").

(** A text in which [span] is the leftmost longest run from an opening
    to a closing brace: no opening brace before it, no closing brace
    after it. *)
Definition leftmost_longest_span (text span : string) : Prop :=
  ∃ pre mid post,
    text = String.append pre (String.append (braced mid) post)
    ∧ span = braced mid
    ∧ has_char "{" pre = false
    ∧ has_char "}" post = false.


(** The answers of an endpoint by status. *)
Definition status_of {A : Type} (r : Service.response A) : nat :=
  match r with
  | Service.Ok _ => 200
  | Service.HTTPException status_code _ => status_code
  end.

End MoreNotions.

(** * Properties *)

(** Names for the state after each pass of [structured_passes]. *)
Ltac name_passes :=
  unfold DocumentParser.structured_passes;
  set (st0 := ([], ∅) : list DocumentParser.owned_section * gset nat);
  set (st1 := DocumentParser.add_section "personal" _ _ _ st0);
  set (st2 := DocumentParser.add_section "summary" _ _ _ st1);
  set (st3 := DocumentParser.add_section "experience" _ _ _ st2);
  set (st4 := DocumentParser.add_section "education" _ _ _ st3);
  set (st5 := DocumentParser.add_section "skills" _ _ _ st4);
  set (st6 := DocumentParser.add_section "projects" _ _ _ st5);
  set (st7 := if DocumentParser.has_type "education" st6.1 then _ else _);
  set (st8 := if DocumentParser.has_type "skills" st7.1 then _ else _).

(** ** Ownership of lines *)

Module Ownership.

Import Notions.

Import DocumentParser.

Lemma indices_enumerate_from {A : Type} (start : nat) (l : list A) :
  map fst (enumerate_from start l) = seq start (List.length l).
Proof.
  revert start. induction l as [|x l IH]; intros start; simpl; [reflexivity|].
  by rewrite IH.
Qed.

Lemma values_enumerate_from {A : Type} (start : nat) (l : list A) :
  map snd (enumerate_from start l) = l.
Proof.
  revert start. induction l as [|x l IH]; intros start; simpl; [reflexivity|].
  by rewrite IH.
Qed.

Lemma length_enumerate {A : Type} (l : list A) :
  List.length (enumerate l) = List.length l.
Proof.
  unfold enumerate. generalize 0.
  induction l as [|x l IH]; intros n; simpl; [reflexivity|]. by rewrite IH.
Qed.

(** Every loop of the segmenter keeps a sublist of the lines it scans. *)
Lemma personal_loop_sublist ls : personal_loop ls `sublist_of` ls.
Proof.
  induction ls as [|[i line] rest IH]; simpl; [constructor|].
  destruct (is_contact_line line); [by constructor|].
  destruct (is_name_line i line); by constructor.
Qed.

Lemma claim_loop_sublist test used ls : claim_loop test used ls `sublist_of` ls.
Proof.
  induction ls as [|[i line] rest IH]; simpl; [constructor|].
  case_bool_decide; [by constructor|].
  destruct (test line); by constructor.
Qed.

Lemma mode_loop_sublist start headers stop used in_mode ls :
  mode_loop start headers stop used in_mode ls `sublist_of` ls.
Proof.
  revert in_mode.
  induction ls as [|[i line] rest IH]; intros in_mode; simpl; [constructor|].
  case_bool_decide; [by constructor|].
  destruct (any_in start _).
  - destruct (negb _); simpl; [by constructor | by constructor].
  - destruct (in_mode && any_in stop _); [apply sublist_nil_l|].
    destruct (in_mode && _); by constructor.
Qed.

(** A loop that tests [i in used_lines] claims no used line. *)
Lemma claim_loop_fresh test used ls i :
  i ∈ indices_of (claim_loop test used ls) → i ∉ used.
Proof.
  unfold indices_of.
  induction ls as [|[j line] rest IH]; simpl; [by intros ?%elem_of_nil|].
  case_bool_decide as Hj; [exact IH|].
  destruct (test line); [|exact IH].
  simpl. intros [->|Hi]%elem_of_cons; [exact Hj | by apply IH].
Qed.

Lemma mode_loop_fresh start headers stop used in_mode ls i :
  i ∈ indices_of (mode_loop start headers stop used in_mode ls) → i ∉ used.
Proof.
  unfold indices_of. revert in_mode.
  induction ls as [|[j line] rest IH]; intros in_mode; simpl;
    [by intros ?%elem_of_nil|].
  case_bool_decide as Hj; [apply IH|].
  destruct (any_in start _).
  - destruct (negb _); simpl; [|apply IH].
    intros [->|Hi]%elem_of_cons; [exact Hj | by eapply IH].
  - destruct (in_mode && any_in stop _); [by intros ?%elem_of_nil|].
    destruct (in_mode && _); [|apply IH].
    simpl. intros [->|Hi]%elem_of_cons; [exact Hj | by eapply IH].
Qed.

(** The indices of a sublist of [enumerate lines] are distinct. *)
Lemma indices_NoDup (lines : list string) (cs : list claim) :
  cs `sublist_of` enumerate lines → NoDup (indices_of cs).
Proof.
  intros Hsub. unfold indices_of.
  eapply sublist_NoDup; [|apply fmap_sublist, Hsub].
  unfold enumerate. change (fmap fst) with (@map (nat * string) nat fst).
  rewrite indices_enumerate_from. apply NoDup_seq.
Qed.

Lemma indices_NoDup_take (lines : list string) (n : nat) (cs : list claim) :
  cs `sublist_of` enumerate (take n lines) → NoDup (indices_of cs).
Proof. apply indices_NoDup. Qed.

Lemma owners_snoc secs s :
  List.concat (owners (secs ++ [s])) = List.concat (owners secs) ++ s.2.
Proof.
  unfold owners. rewrite map_app, concat_app. simpl. by rewrite app_nil_r.
Qed.

Lemma tracked_empty : tracked ([], ∅).
Proof. split; simpl; [constructor | by intros i ?%elem_of_nil]. Qed.

Lemma add_section_tracked ty ttl conf cs st :
  tracked st →
  NoDup (indices_of cs) →
  (∀ i, i ∈ indices_of cs → i ∉ st.2) →
  tracked (add_section ty ttl conf cs st).
Proof.
  intros [Hnd Hused] Hcs Hfresh. unfold add_section.
  destruct (Py.truthy (content_of cs)); [|by split].
  split; simpl; rewrite owners_snoc; simpl.
  - apply NoDup_app. split; [exact Hnd|]. split; [|exact Hcs].
    intros i Hi Hi'. by apply (Hfresh i Hi'), Hused.
  - intros i [Hi|Hi]%elem_of_app.
    + apply elem_of_union_l, Hused, Hi.
    + apply elem_of_union_r, elem_of_list_to_set, Hi.
Qed.

Lemma salvage_tracked ty ttl conf cs st :
  tracked st →
  NoDup (indices_of cs) →
  (∀ i, i ∈ indices_of cs → i ∉ st.2) →
  tracked (if has_type ty st.1 then st else add_section ty ttl conf cs st).
Proof.
  intros. destruct (has_type ty st.1); [done | by apply add_section_tracked].
Qed.

(** The main pipeline gives no line to two sections. *)
Lemma structured_passes_NoDup lines :
  NoDup (List.concat (owners (structured_passes lines))).
Proof.
  name_passes.
  assert (H1 : tracked st1).
  { apply add_section_tracked; [apply tracked_empty| |set_solver].
    eapply indices_NoDup_take, personal_loop_sublist. }
  assert (H2 : tracked st2).
  { apply add_section_tracked; [done| |apply mode_loop_fresh].
    eapply indices_NoDup, mode_loop_sublist. }
  assert (H3 : tracked st3).
  { apply add_section_tracked; [done| |apply claim_loop_fresh].
    eapply indices_NoDup, claim_loop_sublist. }
  assert (H4 : tracked st4).
  { apply add_section_tracked; [done| |apply mode_loop_fresh].
    eapply indices_NoDup, mode_loop_sublist. }
  assert (H5 : tracked st5).
  { apply add_section_tracked; [done| |apply mode_loop_fresh].
    eapply indices_NoDup, mode_loop_sublist. }
  assert (H6 : tracked st6).
  { apply add_section_tracked; [done| |apply mode_loop_fresh].
    eapply indices_NoDup, mode_loop_sublist. }
  assert (H7 : tracked st7).
  { apply salvage_tracked; [done| |apply claim_loop_fresh].
    eapply indices_NoDup, claim_loop_sublist. }
  assert (H8 : tracked st8).
  { apply salvage_tracked; [done| |apply claim_loop_fresh].
    eapply indices_NoDup, claim_loop_sublist. }
  destruct H8 as [Hnd Hused].
  destruct (Py.truthy _); [|exact Hnd].
  rewrite owners_snoc. simpl.
  apply NoDup_app. split; [exact Hnd|]. split.
  - intros i Hi Hi'. by apply (claim_loop_fresh _ _ _ _ Hi'), Hused.
  - eapply indices_NoDup, claim_loop_sublist.
Qed.

(** The indices of the slice [lines[a:b]]. *)
Lemma indices_slice (lines : list string) (a b : nat) :
  indices_of (slice a b (enumerate lines))
  = seq a (Nat.min (b - a) (List.length lines - a)).
Proof.
  unfold indices_of, slice, enumerate.
  change (@map (nat * string) nat fst) with (@fmap list _ (nat * string) nat fst).
  rewrite fmap_take, fmap_drop.
  change (fmap fst) with (@map (nat * string) nat fst).
  rewrite indices_enumerate_from, drop_seq, take_seq. reflexivity.
Qed.

(** The position-based split gives no line to two sections. *)
Lemma basic_sections_NoDup lines :
  NoDup (List.concat (owners (_create_basic_sections_owned lines))).
Proof.
  unfold _create_basic_sections_owned.
  set (n := List.length lines).
  set (pe := Nat.min (Nat.max 5 (n / 5)) 10).
  set (ee := Nat.min n (pe + int_times_0_6 n)).
  assert (Hpe : 5 <= pe) by (subst pe; lia).
  assert (Hee : ee < n → pe <= ee) by (subst ee; lia).
  unfold owners. rewrite !map_app, !concat_app.
  destruct (Nat.ltb_spec 0 pe); [|lia].
  destruct (Nat.ltb_spec pe ee); destruct (Nat.ltb_spec ee n);
    simpl; rewrite ?indices_slice, ?app_nil_r;
    repeat (apply NoDup_app; split; [apply NoDup_seq|split; [|try apply NoDup_seq]]);
    try apply NoDup_seq; try apply NoDup_nil_2;
    intros i; rewrite ?elem_of_app, !elem_of_seq; lia.
Qed.

Lemma structured_resume_NoDup lines :
  NoDup (List.concat (owners (_create_structured_resume_owned lines))).
Proof.
  unfold _create_structured_resume_owned.
  pose proof (structured_passes_NoDup lines) as H.
  destruct (structured_passes lines); [apply basic_sections_NoDup | exact H].
Qed.

Lemma NoDup_concat_disjoint (family : list (list nat)) :
  NoDup (List.concat family) → pairwise_disjoint family.
Proof.
  induction family as [|c family IH]; intros Hnd j k a b Hjk Hj Hk i Ha Hb.
  { by rewrite lookup_nil in Hj. }
  simpl in Hnd. apply NoDup_app in Hnd as (Hc & Hdisj & Hrest).
  destruct j as [|j], k as [|k]; simpl in *; simplify_eq.
  - apply (Hdisj i Ha). apply list_elem_of_In, in_concat.
    exists b. split; apply list_elem_of_In; [by eapply list_elem_of_lookup_2|done].
  - apply (Hdisj i Hb). apply list_elem_of_In, in_concat.
    exists a. split; apply list_elem_of_In; [by eapply list_elem_of_lookup_2|done].
  - eapply (IH Hrest j k a b); eauto.
Qed.

(** The owned indices are the indices of the lines in the content. *)
Lemma enumerate_from_take {A : Type} (start n : nat) (l : list A) :
  enumerate_from start (take n l) = take n (enumerate_from start l).
Proof.
  revert start n. induction l as [|x l IH]; intros start [|n]; simpl;
    try reflexivity.
  by rewrite IH.
Qed.

Lemma enumerate_from_lookup {A : Type} (start i : nat) (x : A) (l : list A) :
  (i, x) ∈ enumerate_from start l → start <= i ∧ l !! (i - start) = Some x.
Proof.
  revert start. induction l as [|y l IH]; intros start; simpl.
  { by intros ?%elem_of_nil. }
  intros [[= -> ->]|Hin]%elem_of_cons.
  - split; [lia|]. by rewrite Nat.sub_diag.
  - destruct (IH _ Hin) as [Hle Hl]. split; [lia|].
    replace (i - start) with (S (i - S start)) by lia. exact Hl.
Qed.

Lemma claimed_line_is_line (lines : list string) (cs : list claim)
    (i : nat) (line : string) :
  cs `sublist_of` enumerate lines → (i, line) ∈ cs → lines !! i = Some line.
Proof.
  intros Hsub Hin.
  destruct (enumerate_from_lookup 0 i line lines) as [_ H].
  - by eapply elem_of_sublist.
  - by rewrite Nat.sub_0_r in H.
Qed.

Lemma slice_sublist {A : Type} (a b : nat) (l : list A) :
  slice a b l `sublist_of` l.
Proof.
  unfold slice. etrans; [apply sublist_take | apply sublist_drop].
Qed.

Lemma add_section_built lines ty ttl conf cs st :
  Forall (built_from lines) st.1 →
  cs `sublist_of` enumerate lines →
  Forall (built_from lines) (add_section ty ttl conf cs st).1.
Proof.
  intros Hst Hcs. unfold add_section.
  destruct (Py.truthy (content_of cs)); [|exact Hst].
  simpl. apply Forall_app. split; [exact Hst|].
  constructor; [|constructor]. by exists cs.
Qed.

Lemma structured_passes_built lines :
  Forall (built_from lines) (structured_passes lines).
Proof.
  name_passes.
  assert (H0 : Forall (built_from lines) st0.1) by constructor.
  assert (H1 : Forall (built_from lines) st1.1).
  { apply add_section_built; [done|].
    etrans; [apply personal_loop_sublist|].
    unfold enumerate. rewrite enumerate_from_take. apply sublist_take. }
  assert (H2 : Forall (built_from lines) st2.1)
    by (apply add_section_built; [done|apply mode_loop_sublist]).
  assert (H3 : Forall (built_from lines) st3.1)
    by (apply add_section_built; [done|apply claim_loop_sublist]).
  assert (H4 : Forall (built_from lines) st4.1)
    by (apply add_section_built; [done|apply mode_loop_sublist]).
  assert (H5 : Forall (built_from lines) st5.1)
    by (apply add_section_built; [done|apply mode_loop_sublist]).
  assert (H6 : Forall (built_from lines) st6.1)
    by (apply add_section_built; [done|apply mode_loop_sublist]).
  assert (H7 : Forall (built_from lines) st7.1).
  { unfold st7. destruct (has_type "education" st6.1); [exact H6|].
    apply add_section_built; [done|apply claim_loop_sublist]. }
  assert (H8 : Forall (built_from lines) st8.1).
  { unfold st8. destruct (has_type "skills" st7.1); [exact H7|].
    apply add_section_built; [done|apply claim_loop_sublist]. }
  destruct (Py.truthy _); [|exact H8].
  apply Forall_app. split; [exact H8|].
  constructor; [|constructor].
  eexists. split; [apply claim_loop_sublist|done].
Qed.

Lemma basic_sections_built lines :
  Forall (built_from lines) (_create_basic_sections_owned lines).
Proof.
  unfold _create_basic_sections_owned.
  repeat (apply Forall_app; split);
    match goal with |- context [if ?b then _ else _] => destruct b end;
    constructor; try constructor;
    (eexists; split; [apply slice_sublist|done]).
Qed.

Lemma structured_resume_built lines :
  Forall (built_from lines) (_create_structured_resume_owned lines).
Proof.
  unfold _create_structured_resume_owned.
  pose proof (structured_passes_built lines) as H.
  destruct (structured_passes lines); [apply basic_sections_built | exact H].
Qed.

(** C1 (disjointness).  For every list of lines, the index sets owned by
    the sections that [_create_structured_resume] returns (the six primary
    passes, the two salvage passes, the additional-information pass, or
    else the position-based split) are pairwise disjoint: no line index
    is owned by two different sections. *)
Theorem sections_pairwise_disjoint (lines : list string) :
  pairwise_disjoint (owners (_create_structured_resume_owned lines))
  ∧ _create_structured_resume lines
    = map fst (_create_structured_resume_owned lines).
Proof.
  split; [|reflexivity].
  apply NoDup_concat_disjoint, structured_resume_NoDup.
Qed.

End Ownership.

(** ** Scenario A *)

Module ScenarioA.

Import Notions.

(** C3, as stated, fails: the personal pass owns the Acme line and the
    degree line (each holds a digit and more than 8 characters, within
    the first ten lines), so neither reaches the experience or the
    education section, and [education_credentials] is 0. *)
Lemma scenario_A_expected_fails :
  expected_outcome = false
  ∧ section_holds "experience" acme_line scenario_A_sections = false
  ∧ section_holds "personal" acme_line scenario_A_sections = true
  ∧ section_holds "education" degree_line scenario_A_sections = false
  ∧ section_holds "personal" degree_line scenario_A_sections = true
  ∧ dict_get "education_credentials" 0 (category_scores scenario_A_score) = 0%Z.
Proof. vm_compute. repeat split; reflexivity. Qed.

(** C3, amended.  On the Scenario A text the segmenter returns four
    sections: personal (name, email, phone, and also the Acme and the
    degree line), experience (the header and "Built scalable systems."),
    skills (the three tokens) and, from the salvage pass, education (the
    bare header); the rule-based scorer then gives [contact_info] 16 and
    [education_credentials] 0. *)
Theorem scenario_A_outcome :
  scenario_A_sections =
    [mkSection "personal" "Personal Information"
       (join nl ["John Doe"; "john@example.com"; "555-123-4567";
                 acme_line; degree_line]) (9 # 10);
     mkSection "experience" "Work Experience"
       (join nl ["EXPERIENCE"; "Built scalable systems."]) (9 # 10);
     mkSection "skills" "Technical Skills" "Python, SQL, Docker" (9 # 10);
     mkSection "education" "Education" "EDUCATION" (8 # 10)]
  ∧ category_scores scenario_A_score =
      [("format_structure", 18); ("keywords_skills", 3);
       ("experience_relevance", 8); ("contact_info", 16);
       ("education_credentials", 0)]%Z.
Proof. split; vm_compute; reflexivity. Qed.

End ScenarioA.

(** ** Bounds of the rule-based scorer *)

Module RuleBased.

Import Notions.

Import AIATSScorer.

Lemma pts_bounds (b : bool) (n : Z) : (0 <= n → 0 <= pts b n <= n)%Z.
Proof. destruct b; simpl; lia. Qed.

Lemma format_structure_band sections : in_band (score_format_structure sections).
Proof.
  unfold in_band, score_format_structure.
  repeat match goal with |- context [pts ?b ?n] => destruct b; simpl pts end;
    lia.
Qed.

Lemma keywords_skills_band sections : in_band (score_keywords_skills sections).
Proof.
  unfold in_band, score_keywords_skills.
  match goal with |- context [pts ?b ?n] => destruct b; simpl pts end; lia.
Qed.

Lemma experience_relevance_band sections :
  in_band (score_experience_relevance sections).
Proof.
  unfold in_band, score_experience_relevance.
  destruct (mem _ _); [|lia].
  destruct (first_of_type _ _); [|lia]. cbv zeta.
  repeat match goal with |- context [pts ?b ?n] => destruct b; simpl pts end;
    lia.
Qed.

Lemma contact_info_band sections : in_band (score_contact_info sections).
Proof.
  unfold in_band, score_contact_info.
  destruct (first_of_type _ _); [|lia]. cbv zeta.
  repeat match goal with |- context [pts ?b ?n] => destruct b; simpl pts end;
    lia.
Qed.

Lemma education_credentials_band sections :
  in_band (score_education_credentials sections).
Proof.
  unfold in_band, score_education_credentials.
  destruct (mem _ _); [|lia].
  destruct (first_of_type _ _); [|lia]. cbv zeta.
  destruct (any_in ["bachelor"; _; _; _] _);
    repeat match goal with |- context [pts ?b ?n] => destruct b; simpl pts end;
    lia.
Qed.

(** The constant of the [except] branch obeys the same equation. *)
Lemma default_score_consistent :
  overall_score default_score
  = Z.min 100 (sum_values (category_scores default_score))
  ∧ Forall (fun kv => in_band kv.2) (category_scores default_score).
Proof.
  split; [reflexivity|].
  repeat constructor; simpl; lia.
Qed.

(** C5.  For every list of sections the rule-based scorer returns an
    [overall_score] equal to the sum of its five category scores, cut
    off at 100, and each category score lies between 0 and 25. *)
Theorem rule_based_score_is_clamped_sum (sections : list ResumeSection) :
  let result := _enhanced_fallback_analysis sections in
  overall_score result = Z.min 100 (sum_values (category_scores result))
  ∧ map fst (category_scores result)
    = ["format_structure"; "keywords_skills"; "experience_relevance";
       "contact_info"; "education_credentials"]
  ∧ Forall (fun kv => in_band kv.2) (category_scores result)
  ∧ (0 <= overall_score result <= 100)%Z.
Proof.
  cbv zeta. unfold _enhanced_fallback_analysis.
  cbn [overall_score category_scores].
  unfold rule_category_scores, sum_values. cbn [map fst snd fold_right].
  pose proof (format_structure_band sections) as H1.
  pose proof (keywords_skills_band sections) as H2.
  pose proof (experience_relevance_band sections) as H3.
  pose proof (contact_info_band sections) as H4.
  pose proof (education_credentials_band sections) as H5.
  split; [reflexivity|]. split; [reflexivity|]. split.
  - repeat (constructor; [assumption|]). constructor.
  - unfold in_band in *. lia.
Qed.

End RuleBased.

(** ** The position-based split *)

Module PositionSplit.

Import Notions.

Import DocumentParser.

Lemma basic_sections_shape (lines : list string) :
  let result := _create_basic_sections lines in
  (List.length lines <= 5 → List.length result = 1)
  ∧ (5 < List.length lines → 2 <= List.length result <= 3)
  ∧ Forall (fun s => sec_type s ∈ split_types) result
  ∧ sec_type <$> head result = Some "personal".
Proof.
  cbv zeta. unfold _create_basic_sections, _create_basic_sections_owned.
  set (n := List.length lines).
  set (pe := Nat.min (Nat.max 5 (n / 5)) 10).
  set (ee := Nat.min n (pe + int_times_0_6 n)).
  assert (Hpe : 5 <= pe) by (subst pe; lia).
  assert (Hsmall : n <= 5 → ee = n ∧ n <= pe) by (subst ee; lia).
  assert (Hlarge : 5 < n → pe < ee).
  { intros Hn.
    assert (n / 5 < n) by (apply Nat.div_lt; lia).
    assert (1 <= int_times_0_6 n)
      by (unfold int_times_0_6; apply Nat.div_le_lower_bound; lia).
    subst ee pe. lia. }
  destruct (Nat.ltb_spec 0 pe); [|lia].
  destruct (Nat.ltb_spec pe ee); destruct (Nat.ltb_spec ee n); simpl;
    (split; [lia|]); (split; [lia|]);
    (split; [|reflexivity]);
    repeat (constructor; [apply list_elem_of_In; simpl; tauto|]); constructor.
Qed.

(** C6, as stated, fails: on the single line "abc" no pass claims
    anything, and the position-based split returns one section, not two
    or three. *)
Lemma short_text_has_one_section :
  structured_passes ["abc"] = []
  ∧ List.length (_create_structured_resume ["abc"]) = 1
  ∧ parse_resume_text "abc"
    = [mkSection "personal" "Personal Information" "abc" (8 # 10)].
Proof. vm_compute. repeat split; reflexivity. Qed.

(** C6, amended.  When no extraction pass claims any line, the segmenter
    returns the position-based split: one to three sections, the first
    of type personal, all of type personal, experience or skills; a
    document of at most five lines gives the personal section alone, a
    longer one gives two or three sections. *)
Theorem fallback_split_shape (lines : list string) :
  structured_passes lines = [] →
  let result := _create_structured_resume lines in
  result = _create_basic_sections lines
  ∧ 1 <= List.length result <= 3
  ∧ (List.length lines <= 5 → List.length result = 1)
  ∧ (5 < List.length lines → 2 <= List.length result)
  ∧ Forall (fun s => sec_type s ∈ split_types) result
  ∧ sec_type <$> head result = Some "personal".
Proof.
  intros Hnone. cbv zeta.
  assert (Heq : _create_structured_resume lines = _create_basic_sections lines).
  { unfold _create_structured_resume, _create_structured_resume_owned.
    by rewrite Hnone. }
  rewrite Heq.
  destruct (basic_sections_shape lines) as (Hs & Hl & Hty & Hhd).
  split; [reflexivity|].
  split; [destruct (Nat.le_gt_cases (List.length lines) 5); lia|].
  split; [exact Hs|]. split; [lia|]. by split.
Qed.

(** The hypothesis holds on six short lines, which give two sections. *)
Lemma fallback_split_shape_witness :
  structured_passes ["ab"; "ab"; "ab"; "ab"; "ab"; "ab"] = []
  ∧ List.length (_create_structured_resume ["ab"; "ab"; "ab"; "ab"; "ab"; "ab"])
    = 2.
Proof.
  assert (H : structured_passes ["ab"; "ab"; "ab"; "ab"; "ab"; "ab"] = [])
    by (vm_compute; reflexivity).
  split; [exact H|].
  destruct (fallback_split_shape _ H) as (Heq & _).
  rewrite Heq. vm_compute. reflexivity.
Defined.

End PositionSplit.

(** ** Totality of the segmenter *)

Module Totality.

Import Notions.

Import DocumentParser.

Lemma any_char_lstrip s : any_char nonspace (lstrip s) = any_char nonspace s.
Proof.
  induction s as [|c s IH]; simpl; [reflexivity|].
  unfold nonspace at 2. destruct (isspace c) eqn:Hc; simpl; [exact IH|].
  unfold nonspace. by rewrite Hc.
Qed.

Lemma truthy_rstrip s : Py.truthy (rstrip s) = any_char nonspace s.
Proof.
  induction s as [|c s IH]; simpl; [reflexivity|].
  rewrite <- IH. unfold nonspace.
  destruct (rstrip s); simpl; [|by rewrite orb_true_r].
  destruct (isspace c); reflexivity.
Qed.

Lemma truthy_strip s : Py.truthy (strip s) = has_visible s.
Proof. unfold strip, has_visible. by rewrite truthy_rstrip, any_char_lstrip. Qed.

Lemma truthy_nonempty s : Py.truthy s = true ↔ s ≠ EmptyString.
Proof. destruct s; simpl; split; congruence. Qed.

(** A visible character of the text lies in one of its lines. *)
Lemma visible_in_some_line (text : string) :
  has_visible text = true →
  Exists (fun line => has_visible line = true) (split_char nl_char text).
Proof.
  unfold has_visible.
  induction text as [|c s IH]; simpl; [discriminate|].
  destruct (Ascii.eqb_spec c nl_char) as [->|Hc].
  - change (nonspace nl_char) with false. simpl. intros H.
    apply Exists_cons_tl, IH, H.
  - intros H. destruct (nonspace c) eqn:Hv.
    + destruct (split_char nl_char s); apply Exists_cons_hd; simpl;
        by rewrite Hv.
    + simpl in H. specialize (IH H).
      destruct (split_char nl_char s) as [|w ws]; [by inversion IH|].
      inversion IH as [? ? Hw|? ? Hws]; subst.
      * apply Exists_cons_hd. simpl. by rewrite Hw, orb_true_r.
      * by apply Exists_cons_tl.
Qed.

Lemma text_lines_nonempty (text : string) :
  has_visible text = true → text_lines text ≠ [].
Proof.
  intros H%visible_in_some_line. apply Exists_exists in H as (line & Hin & Hv).
  unfold text_lines. intros Hnil.
  apply fmap_nil_inv in Hnil.
  assert (Hel : line ∈ filter (fun l => Py.truthy (strip l) = true)
                        (split_char nl_char text)).
  { apply list_elem_of_filter. split; [by rewrite truthy_strip|exact Hin]. }
  rewrite Hnil in Hel. by apply elem_of_nil in Hel.
Qed.

Lemma text_lines_truthy (text : string) :
  Forall (fun line => Py.truthy line = true) (text_lines text).
Proof.
  unfold text_lines. apply Forall_fmap, Forall_forall.
  intros line [Hl _]%list_elem_of_filter. exact Hl.
Qed.

(** Joining a list that starts with a non-empty string gives a
    non-empty string. *)
Lemma join_truthy (sep x : string) (xs : list string) :
  Py.truthy x = true → Py.truthy (join sep (x :: xs)) = true.
Proof.
  unfold join. destruct x as [|c x]; [discriminate|]. intros _.
  destruct xs; reflexivity.
Qed.

Lemma content_of_slice (lines : list string) (a b : nat) :
  content_of (slice a b (enumerate lines)) = join nl (slice a b lines).
Proof.
  unfold content_of, slice, enumerate. f_equal.
  change (@map (nat * string) string snd)
    with (@fmap list _ (nat * string) string snd).
  rewrite fmap_take, fmap_drop.
  change (fmap snd) with (@map (nat * string) string snd).
  by rewrite Ownership.values_enumerate_from.
Qed.

Lemma slice_content_truthy (lines : list string) (a b : nat) :
  Forall (fun line => Py.truthy line = true) lines →
  a < b → a < List.length lines →
  Py.truthy (content_of (slice a b (enumerate lines))) = true.
Proof.
  intros Hall Hab Hlen. rewrite content_of_slice. unfold slice.
  destruct (lookup_lt_is_Some_2 lines a Hlen) as [x Hx].
  rewrite (drop_S _ _ _ Hx).
  destruct (b - a) as [|k] eqn:Hk; [lia|]. simpl.
  apply join_truthy. eapply Forall_forall in Hall; [exact Hall|].
  by eapply list_elem_of_lookup_2.
Qed.

(** Every pass adds a section only when its content is non-empty. *)
Lemma add_section_content ty ttl conf cs st :
  Forall has_content st.1 → Forall has_content (add_section ty ttl conf cs st).1.
Proof.
  intros H. unfold add_section.
  destruct (Py.truthy (content_of cs)) eqn:Hc; [|exact H].
  simpl. apply Forall_app. split; [exact H|].
  constructor; [exact Hc|constructor].
Qed.

Lemma structured_passes_content (lines : list string) :
  Forall has_content (structured_passes lines).
Proof.
  name_passes.
  assert (H0 : Forall has_content st0.1) by constructor.
  assert (H1 : Forall has_content st1.1) by by apply add_section_content.
  assert (H2 : Forall has_content st2.1) by by apply add_section_content.
  assert (H3 : Forall has_content st3.1) by by apply add_section_content.
  assert (H4 : Forall has_content st4.1) by by apply add_section_content.
  assert (H5 : Forall has_content st5.1) by by apply add_section_content.
  assert (H6 : Forall has_content st6.1) by by apply add_section_content.
  assert (H7 : Forall has_content st7.1).
  { unfold st7. destruct (has_type "education" st6.1);
      [exact H6|by apply add_section_content]. }
  assert (H8 : Forall has_content st8.1).
  { unfold st8. destruct (has_type "skills" st7.1);
      [exact H7|by apply add_section_content]. }
  unfold _extract_clean_additional_info.
  destruct (Py.truthy (content_of _)) eqn:Hc; [|exact H8].
  apply Forall_app. split; [exact H8|].
  constructor; [exact Hc|constructor].
Qed.

Lemma basic_sections_content (lines : list string) :
  lines ≠ [] →
  Forall (fun line => Py.truthy line = true) lines →
  _create_basic_sections_owned lines ≠ []
  ∧ Forall has_content (_create_basic_sections_owned lines).
Proof.
  intros Hne Hall. unfold _create_basic_sections_owned.
  set (n := List.length lines).
  set (pe := Nat.min (Nat.max 5 (n / 5)) 10).
  set (ee := Nat.min n (pe + int_times_0_6 n)).
  assert (Hn : 0 < n) by (subst n; destruct lines; simpl; [done|lia]).
  assert (Hpe : 5 <= pe) by (subst pe; lia).
  assert (Hee : ee <= n) by (subst ee; lia).
  destruct (Nat.ltb_spec 0 pe); [|lia].
  split; [simpl; discriminate|].
  apply Forall_app. split.
  { constructor; [|constructor].
    apply slice_content_truthy; [done|lia|done]. }
  apply Forall_app. split.
  - destruct (Nat.ltb_spec pe ee); constructor; [|constructor].
    apply slice_content_truthy; [done|lia|fold n; lia].
  - destruct (Nat.ltb_spec ee n); constructor; [|constructor].
    apply slice_content_truthy; [done|lia|fold n; lia].
Qed.

(** C4, as stated, fails: a text of one space is not empty, yet it has
    no line left after trimming and the segmenter returns no section. *)
Lemma blank_text_has_no_section :
  " " ≠ EmptyString ∧ parse_resume_text " " = [].
Proof. split; [discriminate|reflexivity]. Qed.

(** C4, amended.  For every text with at least one character that is
    not white space, [parse_resume_text] returns at least one section and
    every returned section has non-empty content.  The segmenter is a
    total function: it returns on every input, in the worst case the
    position-based split. *)
Theorem segmentation_total (text : string) :
  has_visible text = true →
  parse_resume_text text ≠ []
  ∧ Forall (fun s => content s ≠ EmptyString) (parse_resume_text text).
Proof.
  intros Hv.
  pose proof (text_lines_nonempty text Hv) as Hne.
  pose proof (text_lines_truthy text) as Hall.
  unfold parse_resume_text, _simple_section_parsing.
  destruct (text_lines text) as [|l ls] eqn:Hl; [done|].
  unfold _create_structured_resume, _create_structured_resume_owned.
  pose proof (structured_passes_content (l :: ls)) as Hp.
  destruct (structured_passes (l :: ls)) as [|s secs].
  - destruct (basic_sections_content (l :: ls)) as [Hb1 Hb2]; [done|done|].
    split.
    + intros Hnil%fmap_nil_inv. by apply Hb1.
    + apply Forall_fmap. eapply Forall_impl; [exact Hb2|].
      intros x Hx. by apply truthy_nonempty.
  - split; [simpl; discriminate|].
    apply Forall_fmap. eapply Forall_impl; [exact Hp|].
    intros x Hx. by apply truthy_nonempty.
Qed.

(** The hypothesis holds on Scenario A. *)
Lemma segmentation_total_witness :
  has_visible scenario_A_text = true
  ∧ parse_resume_text scenario_A_text ≠ [].
Proof.
  assert (H : has_visible scenario_A_text = true) by (vm_compute; reflexivity).
  split; [exact H|]. exact (proj1 (segmentation_total scenario_A_text H)).
Defined.

End Totality.

(** ** Matches under appended text *)

Module ReFacts.

Import Notions Re.

Lemma tail_of_trans (w1 w2 w3 : string) :
  tail_of w1 w2 → tail_of w2 w3 → tail_of w1 w3.
Proof.
  intros H12 H23. induction H23 as [|w2 c w3 _ IH]; [exact H12|].
  by apply tail_later, IH.
Qed.

Lemma tail_of_tail (c : ascii) (w' w : string) :
  tail_of (String c w') w → tail_of w' w.
Proof.
  intros H. eapply tail_of_trans; [|exact H]. apply tail_later, tail_here.
Qed.

Lemma tail_of_length (w' w : string) :
  tail_of w' w → String.length w' <= String.length w.
Proof. induction 1; simpl; lia. Qed.

Lemma tail_of_all_chars (p : ascii → bool) (w' w : string) :
  tail_of w' w → all_chars p w = true → all_chars p w' = true.
Proof.
  induction 1 as [|w' c w _ IH]; [done|]. simpl.
  intros [_ H]%andb_true_iff. by apply IH.
Qed.

Section Continuations.

Context {R : Type}.

Implicit Types K : option ascii → string → option R.

(** The outcome of a match depends on the continuation only at the
    positions that lie ahead. *)
Lemma lit_ext l prev w K1 K2 :
  (∀ p w', tail_of w' w → K1 p w' = K2 p w') →
  lit l prev w K1 = lit l prev w K2.
Proof.
  revert prev w. induction l as [|a l IH]; intros prev w H; simpl.
  - apply H, tail_here.
  - destruct w as [|c w]; [reflexivity|].
    destruct (Ascii.eqb a c); [|reflexivity].
    apply IH. intros p w' Hw. by apply H, tail_later.
Qed.

Lemma times_ext n q prev w K1 K2 :
  (∀ p w', tail_of w' w → K1 p w' = K2 p w') →
  times n q prev w K1 = times n q prev w K2.
Proof.
  revert prev w. induction n as [|n IH]; intros prev w H; simpl.
  - apply H, tail_here.
  - destruct w as [|c w]; [reflexivity|].
    destruct (q c); [|reflexivity].
    apply IH. intros p w' Hw. by apply H, tail_later.
Qed.

Lemma many_ext lo q prev w K1 K2 :
  (∀ p w', tail_of w' w → K1 p w' = K2 p w') →
  many lo q prev w K1 = many lo q prev w K2.
Proof.
  revert lo prev. induction w as [|c w IH]; intros lo prev H; simpl.
  - destruct lo; [apply H, tail_here|reflexivity].
  - rewrite (IH (Nat.pred lo) (Some c)).
    + by rewrite (H prev (String c w) (tail_here _)).
    + intros p w' Hw. by apply H, tail_later.
Qed.

Lemma run_ext r prev w K1 K2 :
  (∀ p w', tail_of w' w → K1 p w' = K2 p w') →
  run r prev w K1 = run r prev w K2.
Proof.
  revert prev w K1 K2.
  induction r as [l|q|r1 IH1 r2 IH2|r1 IH1 r2 IH2|r1 IH1|lo q|n q|];
    intros prev w K1 K2 H; simpl.
  - by apply lit_ext.
  - destruct w as [|c w]; [reflexivity|].
    destruct (q c); [|reflexivity]. apply H, tail_later, tail_here.
  - apply IH1. intros p w' Hw. apply IH2.
    intros p' w'' Hw'. apply H. by eapply tail_of_trans.
  - by rewrite (IH1 prev w K1 K2 H), (IH2 prev w K1 K2 H).
  - by rewrite (IH1 prev w K1 K2 H), (H prev w (tail_here _)).
  - by apply many_ext.
  - by apply times_ext.
  - by rewrite (H prev w (tail_here _)).
Qed.

(** A continuation that always fails makes the match fail. *)
Lemma lit_none l prev w : lit (R := R) l prev w (fun _ _ => None) = None.
Proof.
  revert prev w. induction l as [|a l IH]; intros prev w; simpl; [done|].
  destruct w as [|c w]; [done|]. by destruct (Ascii.eqb a c).
Qed.

Lemma times_none n q prev w : times (R := R) n q prev w (fun _ _ => None) = None.
Proof.
  revert prev w. induction n as [|n IH]; intros prev w; simpl; [done|].
  destruct w as [|c w]; [done|]. by destruct (q c).
Qed.

Lemma many_none lo q prev w : many (R := R) lo q prev w (fun _ _ => None) = None.
Proof.
  revert lo prev. induction w as [|c w IH]; intros lo prev; simpl.
  - by destruct lo.
  - rewrite IH. by destruct (q c), lo.
Qed.

Lemma run_none r prev w : run (R := R) r prev w (fun _ _ => None) = None.
Proof.
  revert prev w.
  induction r as [l|q|r1 IH1 r2 IH2|r1 IH1 r2 IH2|r1 IH1|lo q|n q|];
    intros prev w; simpl.
  - apply lit_none.
  - destruct w as [|c w]; [done|]. by destruct (q c).
  - etrans; [|apply (IH1 prev w)]. apply run_ext. intros p w' _. apply IH2.
  - by rewrite IH1, IH2.
  - by rewrite IH1.
  - apply many_none.
  - apply times_none.
  - by destruct (xorb _ _).
Qed.

Lemma run_dead r prev w K :
  (∀ p w', tail_of w' w → K p w' = None) → run r prev w K = None.
Proof.
  intros H. rewrite <- (run_none r prev w). by apply run_ext.
Qed.

End Continuations.

(** Mapping the result of the continuation maps the result of the match. *)
Section Mapping.

Context {R S : Type} (g : R → S).

Implicit Types K : option ascii → string → option R.

Lemma lit_map l prev w K :
  lit l prev w (fun p w' => option_map g (K p w'))
  = option_map g (lit l prev w K).
Proof.
  revert prev w. induction l as [|a l IH]; intros prev w; simpl; [done|].
  destruct w as [|c w]; [done|]. destruct (Ascii.eqb a c); [apply IH|done].
Qed.

Lemma times_map n q prev w K :
  times n q prev w (fun p w' => option_map g (K p w'))
  = option_map g (times n q prev w K).
Proof.
  revert prev w. induction n as [|n IH]; intros prev w; simpl; [done|].
  destruct w as [|c w]; [done|]. destruct (q c); [apply IH|done].
Qed.

Lemma many_map lo q prev w K :
  many lo q prev w (fun p w' => option_map g (K p w'))
  = option_map g (many lo q prev w K).
Proof.
  revert lo prev. induction w as [|c w IH]; intros lo prev; simpl.
  - by destruct lo.
  - rewrite IH. destruct (q c); [|by destruct lo].
    destruct (many (Nat.pred lo) q (Some c) w K); [done|by destruct lo].
Qed.

Lemma run_map r prev w K :
  run r prev w (fun p w' => option_map g (K p w'))
  = option_map g (run r prev w K).
Proof.
  revert prev w K.
  induction r as [l|q|r1 IH1 r2 IH2|r1 IH1 r2 IH2|r1 IH1|lo q|n q|];
    intros prev w K; simpl.
  - apply lit_map.
  - destruct w as [|c w]; [done|]. by destruct (q c).
  - rewrite <- IH1. apply run_ext. intros p w' _. apply IH2.
  - rewrite IH1, IH2. by destruct (run r1 prev w K).
  - rewrite IH1. by destruct (run r1 prev w K).
  - apply many_map.
  - apply times_map.
  - by destruct (xorb _ _).
Qed.

End Mapping.

#[local] Infix "+++" := String.append (at level 60, right associativity).
#[local] Arguments Ascii.eqb : simpl never.

Lemma length_append (s1 s2 : string) :
  String.length (s1 +++ s2) = String.length s1 + String.length s2.
Proof. induction s1 as [|c s1 IH]; simpl; [done|by rewrite IH]. Qed.

Lemma any_char_member (p : ascii → bool) (c : ascii) (s : string) :
  any_char p s = false → any_char (Ascii.eqb c) s = true → p c = false.
Proof.
  induction s as [|a s IH]; simpl; [discriminate|].
  intros [Ha Hs]%orb_false_iff [Hc|Hc]%orb_true_iff.
  - apply Ascii.eqb_eq in Hc. by subst.
  - by apply IH.
Qed.

(** Appending text: a space, then text [t0] made of the alphabet. *)
Section Boundary.

Variable t0 : string.
Hypothesis Ht0 : all_chars in_alphabet t0 = true.

#[local] Abbreviation t := (String " "%char t0).

Lemma inside_char (c : ascii) (w : string) :
  tail_of (String c w) t0 → in_alphabet c = true ∧ tail_of w t0.
Proof.
  intros H. split; [|by eapply tail_of_tail].
  pose proof (tail_of_all_chars _ _ _ H Ht0) as Hall. simpl in Hall.
  by apply andb_true_iff in Hall as [? _].
Qed.

Lemma inside_misses (q : ascii → bool) (c : ascii) (w : string) :
  hits q = false → tail_of (String c w) t0 → q c = false.
Proof.
  intros Hq [Hc _]%inside_char. by eapply any_char_member.
Qed.

(** Every position ahead of a position in the line is in the line, or
    inside the appended keyword. *)
Lemma tail_append_cases (u w' : string) :
  tail_of w' (u +++ t) → (∃ u', w' = u' +++ t) ∨ tail_of w' t0.
Proof.
  induction u as [|c u IH]; simpl; intros H.
  - inversion H; subst; [left; by exists EmptyString | by right].
  - inversion H; subst; [left; by exists (String c u) | by apply IH].
Qed.

Lemma inside_shorter (u w : string) : tail_of w t0 → w ≠ u +++ t.
Proof.
  intros H%tail_of_length ->. rewrite length_append in H.
  simpl in H. lia.
Qed.

Section Outcome.

Context {R : Type}.

Implicit Types K : option ascii → string → option R.

(** Soundness of [can_match_inside]. *)
Lemma lit_outside l prev w K :
  all_chars in_alphabet l = false → tail_of w t0 → lit l prev w K = None.
Proof.
  revert prev w. induction l as [|a l IH]; intros prev w Hl Hw; simpl;
    [discriminate|].
  destruct w as [|c w]; [reflexivity|].
  destruct (Ascii.eqb_spec a c) as [->|]; [|reflexivity].
  destruct (inside_char _ _ Hw) as [Hc Hw']. simpl in Hl. rewrite Hc in Hl.
  by apply IH.
Qed.

Lemma cannot_match_inside r prev w K :
  can_match_inside r = false → tail_of w t0 → run r prev w K = None.
Proof.
  revert prev w K.
  induction r as [l|q|r1 IH1 r2 IH2|r1 IH1 r2 IH2|r1 IH1|lo q|n q|];
    intros prev w K Hr Hw; simpl in *; try discriminate.
  - by apply lit_outside.
  - destruct w as [|c w]; [reflexivity|].
    by rewrite (inside_misses q c w Hr Hw).
  - apply andb_false_iff in Hr as [Hr|Hr]; [by apply IH1|].
    apply run_dead. intros p w' Hw'. apply IH2; [done|].
    by eapply tail_of_trans.
  - apply orb_false_iff in Hr as [Hr1 Hr2]. by rewrite IH1, IH2.
  - apply orb_false_iff in Hr as [Hlo Hq]. destruct lo; [discriminate|].
    destruct w as [|c w]; simpl; [reflexivity|].
    by rewrite (inside_misses q c w Hq Hw).
  - apply orb_false_iff in Hr as [Hn Hq]. destruct n; [discriminate|].
    destruct w as [|c w]; simpl; [reflexivity|].
    by rewrite (inside_misses q c w Hq Hw).
Qed.

(** Soundness of [can_cross]: the outcome of a pattern that cannot
    cross depends on the continuation only at positions in the line. *)
Lemma lit_no_cross l prev u K1 K2 :
  any_char (Ascii.eqb " ") l = false →
  (∀ p u', K1 p (u' +++ t) = K2 p (u' +++ t)) →
  lit l prev (u +++ t) K1 = lit l prev (u +++ t) K2.
Proof.
  revert prev u. induction l as [|a l IH]; intros prev u Hl H; simpl;
    [apply H|].
  simpl in Hl. apply orb_false_iff in Hl as [Ha Hl].
  destruct u as [|c u]; simpl.
  - rewrite Ascii.eqb_sym in Ha. by rewrite Ha.
  - destruct (Ascii.eqb a c); [by apply IH|reflexivity].
Qed.

Lemma times_no_cross n q prev u K1 K2 :
  q " "%char = false →
  (∀ p u', K1 p (u' +++ t) = K2 p (u' +++ t)) →
  times n q prev (u +++ t) K1 = times n q prev (u +++ t) K2.
Proof.
  intros Hq H. revert prev u. induction n as [|n IH]; intros prev u; simpl;
    [apply H|].
  destruct u as [|c u]; simpl; [by rewrite Hq|].
  destruct (q c); [apply IH|reflexivity].
Qed.

Lemma many_no_cross lo q prev u K1 K2 :
  q " "%char = false →
  (∀ p u', K1 p (u' +++ t) = K2 p (u' +++ t)) →
  many lo q prev (u +++ t) K1 = many lo q prev (u +++ t) K2.
Proof.
  intros Hq H. revert lo prev. induction u as [|c u IH]; intros lo prev.
  - simpl. rewrite Hq. destruct lo; [apply (H prev EmptyString)|reflexivity].
  - simpl. rewrite IH.
    assert (Hb : K1 prev (String c (u +++ t)) = K2 prev (String c (u +++ t)))
      by apply (H prev (String c u)).
    by rewrite Hb.
Qed.

Lemma no_cross r prev u K1 K2 :
  can_cross r = false →
  (∀ p u', K1 p (u' +++ t) = K2 p (u' +++ t)) →
  run r prev (u +++ t) K1 = run r prev (u +++ t) K2.
Proof.
  revert prev u K1 K2.
  induction r as [l|q|r1 IH1 r2 IH2|r1 IH1 r2 IH2|r1 IH1|lo q|n q|];
    intros prev u K1 K2 Hr H; simpl in Hr; simpl run.
  - by apply lit_no_cross.
  - destruct u as [|c u]; simpl; [by rewrite Hr|].
    destruct (q c); [apply H|reflexivity].
  - apply orb_false_iff in Hr as [Hr1 Hr2].
    assert (Hline : ∀ p u', run r2 p (u' +++ t) K1 = run r2 p (u' +++ t) K2)
      by (intros p u'; by apply IH2).
    apply andb_false_iff in Hr1 as [Hr1|Hr1]; [by apply IH1|].
    apply run_ext. intros p w' [[u' ->]|Hin]%tail_append_cases; [apply Hline|].
    by rewrite !cannot_match_inside.
  - apply orb_false_iff in Hr as [Hr1 Hr2].
    by rewrite (IH1 prev u K1 K2 Hr1 H), (IH2 prev u K1 K2 Hr2 H).
  - by rewrite (IH1 prev u K1 K2 Hr H), (H prev u).
  - by apply many_no_cross.
  - destruct n as [|n]; [apply H|]. by apply times_no_cross.
  - by rewrite (H prev u).
Qed.

(** A continuation that fails inside the keyword and agrees with [K] in
    the line gives the outcome of [K] on the line alone. *)
Definition fails_inside K' : Prop := ∀ p w, tail_of w t0 → K' p w = None.

Lemma is_word_after_append (u : string) :
  is_word_after (u +++ t) = is_word_after u.
Proof. by destruct u. Qed.

Lemma lit_line l prev u K' K :
  fails_inside K' → (∀ p u', K' p (u' +++ t) = K p u') →
  lit l prev (u +++ t) K' = lit l prev u K.
Proof.
  intros Hdead H. revert prev u.
  induction l as [|a l IH]; intros prev u; simpl; [apply H|].
  destruct u as [|c u]; simpl.
  - destruct (Ascii.eqb a " "); [|reflexivity].
    apply (run_dead (Lit l)). intros p w' Hw'. by apply Hdead.
  - destruct (Ascii.eqb a c); [apply IH|reflexivity].
Qed.

Lemma times_line n q prev u K' K :
  fails_inside K' → (∀ p u', K' p (u' +++ t) = K p u') →
  times n q prev (u +++ t) K' = times n q prev u K.
Proof.
  intros Hdead H. revert prev u.
  induction n as [|n IH]; intros prev u; simpl; [apply H|].
  destruct u as [|c u]; simpl.
  - destruct (q " "%char); [|reflexivity].
    apply (run_dead (Times n q)). intros p w' Hw'. by apply Hdead.
  - destruct (q c); [apply IH|reflexivity].
Qed.

Lemma many_line lo q prev u K' K :
  fails_inside K' → (∀ p u', K' p (u' +++ t) = K p u') →
  many lo q prev (u +++ t) K' = many lo q prev u K.
Proof.
  intros Hdead H. revert lo prev.
  induction u as [|c u IH]; intros lo prev.
  - simpl.
    assert (Hin : many (Nat.pred lo) q (Some " "%char) t0 K' = None).
    { apply (run_dead (Many (Nat.pred lo) q)). intros p w' Hw'.
      by apply Hdead. }
    rewrite Hin.
    assert (Hb : K' prev t = K prev EmptyString) by apply (H prev EmptyString).
    rewrite Hb. by destruct (q " "%char).
  - simpl. rewrite IH.
    assert (Hb : K' prev (String c (u +++ t)) = K prev (String c u))
      by apply (H prev (String c u)).
    by rewrite Hb.
Qed.

Lemma run_line r prev u K' K :
  fails_inside K' → (∀ p u', K' p (u' +++ t) = K p u') →
  run r prev (u +++ t) K' = run r prev u K.
Proof.
  revert prev u K' K.
  induction r as [l|q|r1 IH1 r2 IH2|r1 IH1 r2 IH2|r1 IH1|lo q|n q|];
    intros prev u K' K Hdead H; simpl run.
  - by apply lit_line.
  - destruct u as [|c u]; simpl.
    + destruct (q " "%char); [|reflexivity]. apply Hdead, tail_here.
    + destruct (q c); [apply H|reflexivity].
  - apply IH1.
    + intros p w Hw. apply run_dead. intros p' w' Hw'.
      apply Hdead. by eapply tail_of_trans.
    + intros p u'. by apply IH2.
  - by rewrite (IH1 prev u K' K Hdead H), (IH2 prev u K' K Hdead H).
  - by rewrite (IH1 prev u K' K Hdead H), (H prev u).
  - by apply many_line.
  - by apply times_line.
  - by rewrite is_word_after_append, (H prev u).
Qed.

End Outcome.

(** A pattern that cannot cross matches in the extended line exactly
    where it matches in the line, with the same end. *)
Definition extend (pw : pos) : pos := (pw.1, pw.2 +++ t).

Lemma match_at_append r prev u :
  can_cross r = false →
  match_at r prev (u +++ t) = option_map extend (match_at r prev u).
Proof.
  intros Hr. unfold match_at.
  set (K2 := fun (p : option ascii) (w : string) =>
               if String.length w <? String.length t
               then None else Some (p, w)).
  assert (Hline : ∀ p u', K2 p (u' +++ t) = Some (p, u' +++ t)).
  { intros p u'. unfold K2. rewrite length_append.
    by destruct (Nat.ltb_spec (String.length u' + String.length t)
                   (String.length t)); [lia|]. }
  rewrite (no_cross r prev u _ K2 Hr).
  2: { intros p u'. by rewrite Hline. }
  rewrite (run_line r prev u K2 (fun p u' => Some (p, u' +++ t))).
  - apply (run_map extend r prev u (fun p w => Some (p, w))).
  - intros p w Hw%tail_of_length. unfold K2. simpl.
    by destruct (Nat.ltb_spec (String.length w) (S (String.length t0)));
      [|lia].
  - exact Hline.
Qed.

(** Counting from the left, the extended line has at least the matches
    of the line. *)
Lemma count_from_append r fuel1 fuel2 prev u :
  can_cross r = false →
  String.length u < fuel1 → String.length (u +++ t) < fuel2 →
  count_from fuel1 r prev u <= count_from fuel2 r prev (u +++ t).
Proof.
  intros Hr. revert fuel2 prev u.
  induction fuel1 as [|fuel1 IH]; intros fuel2 prev u H1 H2; [lia|].
  destruct fuel2 as [|fuel2]; [lia|]. cbn [count_from].
  rewrite (match_at_append r prev u Hr).
  rewrite length_append in H2.
  destruct (match_at r prev u) as [[p' u']|]; cbn [option_map extend fst snd].
  - rewrite !length_append.
    destruct (Nat.ltb_spec (String.length u') (String.length u)) as [Hlt|Hge];
      destruct (Nat.ltb_spec (String.length u' + String.length t)
                  (String.length u + String.length t)); try lia.
    + apply le_n_S, IH; [lia|]. rewrite length_append. simpl in *. lia.
    + destruct u as [|c u].
      * change (EmptyString +++ t) with t. cbn iota.
        apply le_n_S, Nat.le_0_l.
      * change (String c u +++ t) with (String c (u +++ t)). cbn iota.
        simpl in H1, H2.
        apply le_n_S, IH; [lia|]. rewrite length_append. simpl in *. lia.
  - destruct u as [|c u]; [apply Nat.le_0_l|].
    change (String c u +++ t) with (String c (u +++ t)). cbn iota.
    simpl in H1, H2.
    apply IH; [lia|]. rewrite length_append. simpl in *. lia.
Qed.

Lemma findall_count_append r s :
  can_cross r = false → findall_count r s <= findall_count r (s +++ t).
Proof. intros Hr. unfold findall_count. apply count_from_append; [done|lia|lia]. Qed.

End Boundary.

End ReFacts.

(** ** The line classifier under appended text *)

Module ClassifierScores.

Import Notions.

Import Classifier.

Lemma prefix_append (k s t : string) :
  String.prefix k s = true → String.prefix k (String.append s t) = true.
Proof.
  revert s. induction k as [|a k IH]; intros s;
    [by destruct (String.append s t)|].
  destruct s as [|b s]; simpl; [discriminate|].
  destruct (ascii_dec a b); [apply IH|discriminate].
Qed.

(** A substring of a line is still there after text is appended. *)
Lemma contains_append (k s t : string) :
  contains k s = true → contains k (String.append s t) = true.
Proof.
  induction s as [|c s IH]; simpl.
  - rewrite orb_false_r. intros H. destruct k; [|discriminate].
    by destruct t.
  - intros [H|H]%orb_true_iff; apply orb_true_iff.
    + left. by apply (prefix_append k (String c s) t).
    + right. by apply IH.
Qed.

Lemma slice_to_append (n : nat) (s t : string) :
  ∃ u, slice_to n (String.append s t) = String.append (slice_to n s) u.
Proof.
  revert n. induction s as [|c s IH]; intros n; simpl.
  - exists (slice_to n t). by destruct n.
  - destruct n as [|n]; [by exists EmptyString|].
    destruct (IH n) as [u Hu]. exists u. simpl. by rewrite Hu.
Qed.

Lemma lower_append (s t : string) :
  lower (String.append s t) = String.append (lower s) (lower t).
Proof.
  unfold lower. induction s as [|c s IH]; simpl; [reflexivity|].
  by rewrite IH.
Qed.

Lemma keyword_points_append (text suffix keyword : string) :
  keyword_points text keyword
  <= keyword_points (String.append text suffix) keyword.
Proof.
  unfold keyword_points.
  destruct (contains keyword text) eqn:Hin; [|lia].
  rewrite (contains_append _ _ suffix Hin).
  destruct (contains keyword (slice_to 50 text)) eqn:Hzone.
  - destruct (slice_to_append 50 text suffix) as [u ->].
    by rewrite (contains_append _ _ u Hzone).
  - destruct (contains keyword (slice_to 50 (String.append text suffix)));
      lia.
Qed.

Lemma keyword_score_append (keywords : list string) (text suffix : string) :
  keyword_score keywords text
  <= keyword_score keywords (String.append text suffix).
Proof.
  unfold keyword_score.
  induction keywords as [|k ks IH]; simpl; [lia|].
  pose proof (keyword_points_append text suffix k). lia.
Qed.

(** C7, as stated, fails: "tools" is a skills keyword, yet appending it
    to [python_line] lowers the skills score from 2 to 1.  The appended
    keyword lies past the first 50 characters (1 point) and joins
    "python" into "pythontools", which the word-delimited pattern no
    longer matches (2 points lost). *)
Lemma appended_keyword_lowers_score :
  "tools" ∈ table_get "skills" section_keywords
  ∧ section_score "skills" python_line = 2
  ∧ section_score "skills" (String.append python_line "tools") = 1.
Proof.
  split; [apply list_elem_of_In; simpl; tauto|].
  split; vm_compute; reflexivity.
Qed.

(** Every keyword of the classifier is made of the keyword alphabet,
    and no pattern of the classifier can cross an appended space. *)
Lemma table_get_forallb {A : Type} (P : A → bool) (k : string)
    (d : list (string * list A)) :
  forallb (fun kv => forallb P kv.2) d = true →
  forallb P (table_get k d) = true.
Proof.
  induction d as [|[k' v] d IH]; simpl; [done|].
  intros [Hv Hd]%andb_true_iff.
  destruct (String.eqb k k'); [exact Hv|by apply IH].
Qed.

Lemma keyword_in_alphabet (section_type keyword : string) :
  keyword ∈ table_get section_type section_keywords →
  all_chars in_alphabet (lower keyword) = true.
Proof.
  intros Hin%list_elem_of_In.
  assert (H : forallb (fun kw => all_chars in_alphabet (lower kw))
                (table_get section_type section_keywords) = true).
  { apply table_get_forallb. vm_compute. reflexivity. }
  rewrite forallb_forall in H. by apply H.
Qed.

Lemma pattern_cannot_cross (section_type : string) (pattern : Re.regex) :
  pattern ∈ table_get section_type patterns → can_cross pattern = false.
Proof.
  intros Hin%list_elem_of_In.
  assert (H : forallb (fun r => negb (can_cross r))
                (table_get section_type patterns) = true).
  { apply table_get_forallb. vm_compute. reflexivity. }
  rewrite forallb_forall in H. apply negb_true_iff. by apply H.
Qed.

Lemma pattern_score_append (pattern_list : list Re.regex) (text t0 : string) :
  all_chars in_alphabet t0 = true →
  (∀ pattern, pattern ∈ pattern_list → can_cross pattern = false) →
  pattern_score pattern_list text
  <= pattern_score pattern_list (String.append text (String " " t0)).
Proof.
  intros Ht0 Hall. unfold pattern_score.
  induction pattern_list as [|r rs IH]; simpl; [lia|].
  pose proof (ReFacts.findall_count_append t0 Ht0 r text
                (Hall r (list_elem_of_here _ _))) as Hr.
  assert (Hrs : ∀ pattern, pattern ∈ rs → can_cross pattern = false)
    by (intros pattern Hp; by apply Hall, list_elem_of_further).
  specialize (IH Hrs). lia.
Qed.

(** C7, amended.  For every line and every section type T, appending
    an additional keyword of T after a separating space never decreases
    T's score (keyword presence adds 1, or 3 within the first 50
    characters; each pattern adds 2 per occurrence).  Appended without
    the space, only the keyword part of the score is sure not to
    decrease. *)
Theorem spaced_keyword_monotone (section_type text keyword : string) :
  keyword ∈ table_get section_type section_keywords →
  section_score section_type text
  <= section_score section_type (with_keyword text keyword)
  ∧ keyword_score (table_get section_type section_keywords) (lower text)
    <= keyword_score (table_get section_type section_keywords)
         (lower (String.append text keyword)).
Proof.
  intros Hkw. split.
  - unfold section_score, with_keyword. rewrite lower_append.
    change (lower (String " " keyword)) with (String " " (lower keyword)).
    pose proof (keyword_score_append
                  (table_get section_type section_keywords) (lower text)
                  (String " " (lower keyword))) as Hk.
    pose proof (pattern_score_append (table_get section_type patterns)
                  (lower text) (lower keyword)
                  (keyword_in_alphabet _ _ Hkw)
                  (pattern_cannot_cross section_type)) as Hp.
    lia.
  - rewrite lower_append. apply keyword_score_append.
Qed.

(** The hypothesis holds for the keyword "tools": after a space it
    raises the skills score of [python_line] from 2 to 3. *)
Lemma spaced_keyword_monotone_witness :
  "tools" ∈ table_get "skills" section_keywords
  ∧ section_score "skills" python_line
    <= section_score "skills" (with_keyword python_line "tools")
  ∧ section_score "skills" (with_keyword python_line "tools") = 3.
Proof.
  assert (H : "tools" ∈ table_get "skills" section_keywords)
    by (apply list_elem_of_In; simpl; tauto).
  split; [exact H|]. split.
  - exact (proj1 (spaced_keyword_monotone "skills" python_line "tools" H)).
  - vm_compute. reflexivity.
Defined.

End ClassifierScores.

(** ** Model-assisted scores *)

Module ModelScores.

Import Notions.

Import OllamaResumeAnalyzer.

Lemma clamped_bounds (hi : Z) (k : string) (default : Z) (v : json) (z : Z) :
  (0 <= hi)%Z → clamped hi k default v = Some z → (0 <= z <= hi)%Z.
Proof.
  intros Hhi. unfold clamped.
  destruct (get k (JInt default) v) as [x|]; simpl; [|discriminate].
  destruct (as_int x) as [y|]; simpl; [|discriminate].
  intros [= <-]. lia.
Qed.

(** The sibling path, [AIATSScorer.analyze_resume], does clamp every
    number it takes from the reply. *)
Lemma sanitized_in_band (ai_analysis : json) (result : ATSScore) :
  sanitized ai_analysis = Some result →
  (0 <= overall_score result <= 100)%Z
  ∧ Forall (fun kv => (0 <= kv.2 <= 25)%Z) (category_scores result).
Proof.
  unfold sanitized. intros H.
  repeat match type of H with
         | context [clamped ?hi ?k ?d ?v] =>
             let Hc := fresh "Hc" in
             destruct (clamped hi k d v) eqn:Hc; simpl in H; [|discriminate];
             apply clamped_bounds in Hc; [|lia]
         | context [get ?k ?d ?v] =>
             destruct (get k d v); simpl in H; [|discriminate]
         | context [str_list_prefix ?n ?v] =>
             destruct (str_list_prefix n v); simpl in H; [|discriminate]
         end.
  injection H as <-. simpl. split; [lia|].
  repeat (constructor; [simpl; lia|]). constructor.
Qed.

(** C2 (defect).  On the reply of Scenario D, [score_ats_with_ollama]
    extracts the JSON object with its second strategy and returns the
    model's [overall_score] of 150 as it is: this path has no clamp. *)
Theorem ollama_score_not_clamped (json_loads : string → option json)
    (sections : list ResumeSection) :
  json_loads scenario_D_reply = None →
  json_loads scenario_D_json = Some scenario_D_parsed →
  overall_score
    (score_ats_with_ollama json_loads (Some scenario_D_reply) sections)
  = 150%Z.
Proof.
  intros Hfull Hspan. unfold score_ats_with_ollama.
  replace (strip scenario_D_reply) with scenario_D_reply
    by (vm_compute; reflexivity).
  unfold parse_reply, try_loads. rewrite Hfull. cbn [truthy_opt].
  replace (json_span scenario_D_reply) with (Some scenario_D_json)
    by (vm_compute; reflexivity).
  rewrite Hspan. reflexivity.
Qed.

Lemma ollama_score_not_clamped_witness :
  scenario_D_loads scenario_D_reply = None
  ∧ scenario_D_loads scenario_D_json = Some scenario_D_parsed
  ∧ overall_score
      (score_ats_with_ollama scenario_D_loads (Some scenario_D_reply) [])
    = 150%Z.
Proof.
  assert (H1 : scenario_D_loads scenario_D_reply = None)
    by (vm_compute; reflexivity).
  assert (H2 : scenario_D_loads scenario_D_json = Some scenario_D_parsed)
    by (vm_compute; reflexivity).
  split; [exact H1|]. split; [exact H2|].
  exact (ollama_score_not_clamped scenario_D_loads [] H1 H2).
Defined.

(** On the same reply the sibling path answers 100. *)
Lemma ai_score_clamped (json_loads : string → option json)
    (sections : list ResumeSection) :
  json_loads scenario_D_json = Some scenario_D_parsed →
  overall_score (analyze_resume json_loads (Some scenario_D_reply) sections)
  = 100%Z.
Proof.
  intros Hspan. unfold analyze_resume.
  replace (json_span scenario_D_reply) with (Some scenario_D_json)
    by (vm_compute; reflexivity).
  rewrite Hspan. reflexivity.
Qed.

End ModelScores.

(** ** The complete analysis *)

Module CompleteAnalysis.

Import Notions.

Import OllamaResumeAnalyzer.

(** A step that catches its own failure returns: when the model call
    raises, [score_ats_with_ollama] answers with the fallback scorer. *)
Lemma score_ats_with_ollama_catches (json_loads : string → option json)
    (sections : list ResumeSection) :
  score_ats_with_ollama json_loads None sections
  = _fallback_ats_scoring sections.
Proof. reflexivity. Qed.

(** C9.  For every text and file name, whatever the two internal steps
    do, [analyze_complete_resume] returns an analysis: [success] is true
    exactly when both steps returned, and the analysis then holds their
    results; [success] is false exactly when a step raised, and the
    analysis then holds the sections of the fallback extractor and the
    score of the fallback scorer on them.  The file name and the text
    are passed through on both paths. *)
Theorem success_flag_records_path
    (extract : string → option (list ResumeSection))
    (score : list ResumeSection → option ATSScore) (elapsed : Q)
    (raw name : string) :
  let result := analyze_complete_resume extract score elapsed raw name in
  (success result = true
   ↔ ∃ secs ats, extract raw = Some secs ∧ score secs = Some ats
                 ∧ sections result = secs ∧ ats_analysis result = ats)
  ∧ (success result = false
     ↔ extract raw = None
       ∨ ∃ secs, extract raw = Some secs ∧ score secs = None)
  ∧ (success result = false →
     sections result = _fallback_section_extraction raw
     ∧ ats_analysis result
       = _fallback_ats_scoring (_fallback_section_extraction raw))
  ∧ filename result = name
  ∧ raw_text result = raw.
Proof.
  cbv zeta. unfold analyze_complete_resume.
  destruct (extract raw) as [secs|] eqn:He; simpl.
  - destruct (score secs) as [ats|] eqn:Hs; simpl.
    + repeat split; try done.
      * intros _. by exists secs, ats.
      * intros [?|(? & [= <-] & ?)]; congruence.
    + repeat split; try done.
      * intros (? & ? & [= <-] & ? & _). congruence.
      * intros _. right. by exists secs.
  - repeat split; try done.
    + intros (? & ? & ? & _). discriminate.
    + intros _. by left.
Qed.

End CompleteAnalysis.

(** ** The endpoints *)

Module Endpoints.

Import Notions.

Import Service.

Section WithEnvironment.

Variable pdf_text : string → string + string.
Variable docx_paragraphs : string → string + list string.
Variable txt_text : string → string + string.
Variable analyzer :
  option (string → option string → string + CompleteResumeAnalysis).

(** The analyzer is only ever invoked on the extracted text, and only
    when that text is not blank. *)
Lemma analyzer_sees_visible_text (file : UploadFile) (text : string) :
  text ∈ (analyze_resume pdf_text docx_paragraphs txt_text analyzer file).2 →
  parse_file pdf_text docx_paragraphs txt_text file = Ok text ∧ strip text ≠ EmptyString.
Proof.
  unfold analyze_resume.
  destruct analyzer as [run|]; [|by intros ?%elem_of_nil].
  destruct (negb (type_accepted file)); [by intros ?%elem_of_nil|].
  destruct (parse_file pdf_text docx_paragraphs txt_text file) as [raw|code detail]; [|by intros ?%elem_of_nil].
  destruct (Py.truthy (strip raw)) eqn:Ht; simpl; [|by intros ?%elem_of_nil].
  assert (strip raw ≠ EmptyString) by (by destruct (strip raw)).
  destruct (run raw (upload_filename file));
    intros ->%list_elem_of_singleton; done.
Qed.

(** C8.  For every upload whose extracted text is empty after trimming,
    [analyze_resume] raises an [HTTPException] and never invokes the
    analyzer; with the analyzer in place the status is 400, a client
    input error. *)
Theorem blank_text_rejected (file : UploadFile) (text : string) :
  parse_file pdf_text docx_paragraphs txt_text file = Ok text →
  strip text = EmptyString →
  (analyze_resume pdf_text docx_paragraphs txt_text analyzer file).2 = []
  ∧ ∃ code detail,
      (analyze_resume pdf_text docx_paragraphs txt_text analyzer file).1 = HTTPException code detail
      ∧ (is_Some analyzer → code = 400).
Proof.
  intros Hparse Hblank. unfold analyze_resume.
  destruct analyzer as [run|].
  - destruct (negb (type_accepted file)).
    + split; [reflexivity|]. by eexists _, _.
    + rewrite Hparse, Hblank. simpl.
      split; [reflexivity|]. by eexists _, _.
  - split; [reflexivity|]. eexists _, _. split; [reflexivity|].
    by intros [? ?].
Qed.

(** An error of [analyze_resume] is the error of the legacy endpoint. *)
Lemma legacy_propagates_error (file : UploadFile) (code : nat)
    (detail : string) :
  (analyze_resume pdf_text docx_paragraphs txt_text analyzer file).1 = HTTPException code detail →
  parse_resume_legacy pdf_text docx_paragraphs txt_text analyzer file = HTTPException code detail.
Proof. unfold parse_resume_legacy. by intros ->. Qed.

(** C10.  For every upload that [analyze_resume] answers with an
    analysis, the legacy endpoint answers with that analysis reshaped:
    the same [success], [filename] and [raw_text], the same sections in
    the same order, field for field, and [metadata.ats_score] equal to
    the analysis's [overall_score]. *)
Theorem legacy_is_reshaped_analysis (file : UploadFile)
    (analysis : CompleteResumeAnalysis) :
  (analyze_resume pdf_text docx_paragraphs txt_text analyzer file).1 = Ok analysis →
  ∃ reply,
    parse_resume_legacy pdf_text docx_paragraphs txt_text analyzer file = Ok reply
    ∧ legacy_success reply = success analysis
    ∧ legacy_filename reply = filename analysis
    ∧ legacy_raw_text reply = raw_text analysis
    ∧ Forall2 same_section (legacy_sections reply) (sections analysis)
    ∧ ats_score (metadata reply) = overall_score (ats_analysis analysis)
    ∧ legacy_processing_time (metadata reply) = processing_time analysis.
Proof.
  intros Hok. exists (to_legacy analysis).
  unfold parse_resume_legacy. rewrite Hok.
  repeat split; try reflexivity.
  simpl. induction (sections analysis) as [|s secs IH]; simpl;
    constructor; [by repeat split|exact IH].
Qed.

End WithEnvironment.

Lemma blank_text_rejected_witness :
  parse_file blank_pdf no_docx no_txt sample_upload = Ok EmptyString
  ∧ strip EmptyString = EmptyString
  ∧ (analyze_resume blank_pdf no_docx no_txt sample_analyzer sample_upload).2
    = [].
Proof.
  assert (H1 : parse_file blank_pdf no_docx no_txt sample_upload
               = Ok EmptyString) by reflexivity.
  assert (H2 : strip EmptyString = EmptyString) by reflexivity.
  split; [exact H1|]. split; [exact H2|].
  exact (proj1 (blank_text_rejected blank_pdf no_docx no_txt sample_analyzer
                  sample_upload EmptyString H1 H2)).
Defined.

Lemma legacy_is_reshaped_analysis_witness :
  (analyze_resume scenario_pdf no_docx no_txt sample_analyzer sample_upload).1
  = Ok (sample_analysis scenario_A_text)
  ∧ ∃ reply,
      parse_resume_legacy scenario_pdf no_docx no_txt sample_analyzer
        sample_upload = Ok reply
      ∧ legacy_success reply = true.
Proof.
  assert (H : (analyze_resume scenario_pdf no_docx no_txt sample_analyzer
                 sample_upload).1 = Ok (sample_analysis scenario_A_text))
    by (vm_compute; reflexivity).
  split; [exact H|].
  destruct (legacy_is_reshaped_analysis scenario_pdf no_docx no_txt
              sample_analyzer sample_upload _ H) as (reply & Hr & Hs & _).
  exists reply. split; [exact Hr|]. rewrite Hs. reflexivity.
Defined.

End Endpoints.

(** ** Further properties of the segmenter *)

Module SegmenterFacts.

Import Notions MoreNotions DocumentParser DocumentParserMore.

(** *** The extractors without tracking *)

Lemma plain_personal_loop_tracking (ls : list claim) :
  plain_personal_loop ls = map snd (personal_loop ls).
Proof.
  induction ls as [|[i line] rest IH]; simpl; [reflexivity|].
  destruct (is_contact_line line); simpl; [by rewrite IH|].
  destruct (is_name_line i line); simpl; by rewrite IH.
Qed.

Lemma plain_mode_loop_tracking start headers stop in_mode
    (n : nat) (lines : list string) :
  plain_mode_loop start headers stop in_mode lines
  = map snd (mode_loop start headers stop ∅ in_mode (enumerate_from n lines)).
Proof.
  revert n in_mode.
  induction lines as [|line rest IH]; intros n in_mode; simpl; [reflexivity|].
  rewrite bool_decide_eq_false_2 by apply not_elem_of_empty.
  destruct (any_in start _).
  - rewrite map_app, <- (IH (S n)). by destruct (negb _).
  - destruct (in_mode && any_in stop _); [reflexivity|].
    destruct (in_mode && _); simpl; by rewrite <- (IH (S n)).
Qed.

(** X1 (extractors agree).  The extractors without tracking return the
    content that their tracking variants return when no line is used
    yet: this holds for personal information, summary, skills and
    projects. *)
Theorem plain_extractors_agree (lines : list string) :
  _extract_personal_info lines
  = content_of (_extract_personal_info_with_tracking lines)
  ∧ _extract_summary lines
    = content_of (_extract_summary_with_tracking lines ∅)
  ∧ _extract_skills lines
    = content_of (_extract_skills_with_tracking lines ∅)
  ∧ _extract_projects lines
    = content_of (_extract_projects_with_tracking lines ∅).
Proof.
  unfold _extract_personal_info, _extract_summary, _extract_skills,
    _extract_projects, content_of, _extract_personal_info_with_tracking,
    _extract_summary_with_tracking, _extract_skills_with_tracking,
    _extract_projects_with_tracking, enumerate.
  rewrite plain_personal_loop_tracking.
  by rewrite !(plain_mode_loop_tracking _ _ _ _ 0).
Qed.

(** Two start lists that hit the same lines give the same loop. *)
Lemma plain_mode_loop_start start1 start2 headers stop in_mode
    (lines : list string) :
  Forall (fun line => any_in start1 (strip (lower line))
                      = any_in start2 (strip (lower line))) lines →
  plain_mode_loop start1 headers stop in_mode lines
  = plain_mode_loop start2 headers stop in_mode lines.
Proof.
  intros Hall. revert in_mode.
  induction Hall as [|line rest Hline _ IH]; intros in_mode; simpl;
    [reflexivity|].
  rewrite Hline. destruct (any_in start2 _); [by rewrite IH|].
  destruct (in_mode && any_in stop _); [reflexivity|].
  destruct (in_mode && _); by rewrite IH.
Qed.

(** X2 (education extractors).  [_extract_education] starts on four
    keywords, its tracking variant on six: the two agree on every
    document in which no line names a university or a college. *)
Theorem education_extractors_agree (lines : list string) :
  Forall (fun line => names_institution line = false) lines →
  _extract_education lines
  = content_of (_extract_education_with_tracking lines ∅).
Proof.
  intros Hall.
  unfold _extract_education, content_of, _extract_education_with_tracking,
    enumerate.
  rewrite <- (plain_mode_loop_tracking _ _ _ _ 0). f_equal.
  apply plain_mode_loop_start.
  eapply Forall_impl; [exact Hall|]. intros line Hline.
  unfold names_institution in Hline.
  change ["education"; "academic"; "qualification"; "degree";
          "university"; "college"]
    with (["education"; "academic"; "qualification"; "degree"]
          ++ ["university"; "college"]).
  unfold any_in in *. rewrite existsb_app, Hline. by rewrite orb_false_r.
Qed.

(** They differ once a line names a university. *)
Lemma education_extractors_differ :
  _extract_education ["State University"; "BSc"] = EmptyString
  ∧ content_of (_extract_education_with_tracking ["State University"; "BSc"] ∅)
    = join nl ["State University"; "BSc"].
Proof. split; vm_compute; reflexivity. Qed.

Lemma education_extractors_agree_witness :
  Forall (fun line => names_institution line = false)
    ["Education"; "BSc Physics"; "Skills"]
  ∧ _extract_education ["Education"; "BSc Physics"; "Skills"] = "BSc Physics".
Proof.
  assert (H : Forall (fun line => names_institution line = false)
                ["Education"; "BSc Physics"; "Skills"])
    by (repeat constructor).
  split; [exact H|].
  rewrite (education_extractors_agree _ H). vm_compute. reflexivity.
Defined.

(** *** Document order *)

Lemma StronglySorted_sublist {A : Type} (R : relation A) (l k : list A) :
  l `sublist_of` k → StronglySorted R k → StronglySorted R l.
Proof.
  induction 1 as [|x l k Hsub IH|x l k Hsub IH]; intros Hk.
  - constructor.
  - apply StronglySorted_inv in Hk as [Hk Hx]. constructor; [by apply IH|].
    apply Forall_forall. intros y Hy.
    eapply Forall_forall in Hx; [exact Hx|]. by eapply elem_of_sublist.
  - apply StronglySorted_inv in Hk as [Hk _]. by apply IH.
Qed.

Lemma StronglySorted_seq (start n : nat) : StronglySorted lt (seq start n).
Proof.
  revert start. induction n as [|n IH]; intros start; simpl; constructor.
  - apply IH.
  - apply Forall_forall. intros y Hy%elem_of_seq. lia.
Qed.

(** X3 (document order).  Every section that the segmenter returns owns
    strictly increasing line indices, and its content is the lines at
    those indices joined by newlines: a section keeps its lines in the
    order of the document and holds no line twice. *)
Theorem sections_in_document_order (lines : list string) :
  Forall (fun s : owned_section =>
            StronglySorted lt s.2
            ∧ ∃ ls, lines_at lines s.2 ls ∧ content s.1 = join nl ls)
         (_create_structured_resume_owned lines).
Proof.
  eapply Forall_impl; [apply Ownership.structured_resume_built|].
  intros s (cs & Hsub & Hcontent & Hidx). split.
  - rewrite Hidx. unfold indices_of.
    eapply StronglySorted_sublist; [apply fmap_sublist, Hsub|].
    unfold enumerate. change (fmap fst) with (@map (nat * string) nat fst).
    rewrite Ownership.indices_enumerate_from. apply StronglySorted_seq.
  - exists (map snd cs). split; [|exact Hcontent].
    rewrite Hidx. unfold lines_at, indices_of.
    assert (Hall : ∀ i line, (i, line) ∈ cs → lines !! i = Some line)
      by (intros i line; by apply Ownership.claimed_line_is_line).
    clear Hsub Hcontent Hidx.
    induction cs as [|[i line] cs IH]; simpl; constructor.
    + apply Hall, list_elem_of_here.
    + apply IH. intros j l Hj. by apply Hall, list_elem_of_further.
Qed.

End SegmenterFacts.

Module SegmenterCoverage.

Import Notions MoreNotions DocumentParser.

(** *** One section per type *)

Lemma has_type_types ty secs :
  has_type ty secs = true ↔ ty ∈ types_of secs.
Proof.
  unfold has_type, types_of. rewrite existsb_exists, list_elem_of_fmap.
  split.
  - intros (s & Hs & Heq). apply String.eqb_eq in Heq.
    exists s. split; [done|]. by apply list_elem_of_In.
  - intros (s & -> & Hs). exists s. split; [by apply list_elem_of_In|].
    apply String.eqb_refl.
Qed.

Lemma add_section_types ty ttl conf cs st (allowed : list string) :
  NoDup (types_of st.1) →
  ty ∉ types_of st.1 →
  Forall (fun t => t ∈ allowed) (types_of st.1) →
  NoDup (types_of (add_section ty ttl conf cs st).1)
  ∧ Forall (fun t => t ∈ ty :: allowed)
           (types_of (add_section ty ttl conf cs st).1).
Proof.
  intros Hnd Hty Hall. unfold add_section.
  assert (Hall' : Forall (fun t => t ∈ ty :: allowed) (types_of st.1)).
  { eapply Forall_impl; [exact Hall|]. intros t Ht. by apply list_elem_of_further. }
  destruct (Py.truthy _); simpl; [|done].
  unfold types_of in *. rewrite map_app. simpl. split.
  - apply NoDup_app. split; [done|]. split; [|apply NoDup_singleton].
    intros t Ht Ht'. apply list_elem_of_singleton in Ht'. by subst.
  - apply Forall_app. split; [done|]. repeat constructor.
Qed.

Lemma fresh_type ty (allowed ts : list string) :
  Forall (fun t => t ∈ allowed) ts → ty ∉ allowed → ty ∉ ts.
Proof.
  intros Hall Hty Hin. eapply Forall_forall in Hall; [|exact Hin]. done.
Qed.

Ltac not_listed :=
  let H := fresh in
  intros H; apply list_elem_of_In in H; simpl in H;
  repeat (destruct H as [H|H]; [discriminate H|]); exact H.

Lemma structured_passes_types (lines : list string) :
  NoDup (types_of (structured_passes lines))
  ∧ Forall (fun t => t ∈ structured_types) (types_of (structured_passes lines)).
Proof.
  name_passes.
  assert (H0 : NoDup (types_of st0.1)
               ∧ Forall (fun t => t ∈ []) (types_of st0.1))
    by (split; constructor).
  assert (H1 : NoDup (types_of st1.1)
               ∧ Forall (fun t => t ∈ ["personal"]) (types_of st1.1)).
  { destruct H0 as [Hn Ha]. apply add_section_types; try done.
    eapply fresh_type; [exact Ha|]. not_listed. }
  assert (H2 : NoDup (types_of st2.1)
               ∧ Forall (fun t => t ∈ ["summary"; "personal"])
                        (types_of st2.1)).
  { destruct H1 as [Hn Ha]. apply add_section_types; try done.
    eapply fresh_type; [exact Ha|]. not_listed. }
  assert (H3 : NoDup (types_of st3.1)
               ∧ Forall (fun t => t ∈ ["experience"; "summary"; "personal"])
                        (types_of st3.1)).
  { destruct H2 as [Hn Ha]. apply add_section_types; try done.
    eapply fresh_type; [exact Ha|]. not_listed. }
  assert (H4 : NoDup (types_of st4.1)
               ∧ Forall (fun t => t ∈ ["education"; "experience"; "summary";
                                       "personal"])
                        (types_of st4.1)).
  { destruct H3 as [Hn Ha]. apply add_section_types; try done.
    eapply fresh_type; [exact Ha|]. not_listed. }
  assert (H5 : NoDup (types_of st5.1)
               ∧ Forall (fun t => t ∈ ["skills"; "education"; "experience";
                                       "summary"; "personal"])
                        (types_of st5.1)).
  { destruct H4 as [Hn Ha]. apply add_section_types; try done.
    eapply fresh_type; [exact Ha|]. not_listed. }
  assert (H6 : NoDup (types_of st6.1)
               ∧ Forall (fun t => t ∈ ["projects"; "skills"; "education";
                                       "experience"; "summary"; "personal"])
                        (types_of st6.1)).
  { destruct H5 as [Hn Ha]. apply add_section_types; try done.
    eapply fresh_type; [exact Ha|]. not_listed. }
  set (six := ["projects"; "skills"; "education"; "experience"; "summary";
               "personal"]) in *.
  assert (Hsix : ∀ t, t ∈ six → t ∈ structured_types).
  { intros t Ht. apply list_elem_of_In in Ht. apply list_elem_of_In.
    simpl in *. tauto. }
  assert (Hgrow : ∀ ty ts, ty ∈ six →
            Forall (fun t => t ∈ ty :: six) ts → Forall (fun t => t ∈ six) ts).
  { intros ty ts Hty Hts. eapply Forall_impl; [exact Hts|]. intros t Ht.
    apply elem_of_cons in Ht as [->|Ht]; done. }
  assert (H7 : NoDup (types_of st7.1)
               ∧ Forall (fun t => t ∈ six) (types_of st7.1)).
  { unfold st7.
    destruct (has_type "education" st6.1) eqn:Hhas; [done|].
    destruct H6 as [Hn Ha].
    destruct (add_section_types "education" "Education" (8 # 10)
                (_extract_education_from_remaining lines st6.2) st6 six)
      as [Hn' Ha']; try done.
    - intros Hin. apply has_type_types in Hin. congruence.
    - split; [done|]. eapply Hgrow; [|exact Ha'].
      apply list_elem_of_In. simpl. tauto. }
  assert (H8 : NoDup (types_of st8.1)
               ∧ Forall (fun t => t ∈ six) (types_of st8.1)).
  { unfold st8.
    destruct (has_type "skills" st7.1) eqn:Hhas; [done|].
    destruct H7 as [Hn Ha].
    destruct (add_section_types "skills" "Technical Skills" (8 # 10)
                (_extract_skills_from_remaining lines st7.2) st7 six)
      as [Hn' Ha']; try done.
    - intros Hin. apply has_type_types in Hin. congruence.
    - split; [done|]. eapply Hgrow; [|exact Ha'].
      apply list_elem_of_In. simpl. tauto. }
  destruct H8 as [Hn Ha].
  assert (Ha' : Forall (fun t => t ∈ structured_types) (types_of st8.1)).
  { eapply Forall_impl; [exact Ha|]. exact Hsix. }
  destruct (Py.truthy _); [|done].
  unfold types_of in *. rewrite map_app. simpl. split.
  - apply NoDup_app. split; [done|]. split; [|apply NoDup_singleton].
    intros t Ht Ht'. apply list_elem_of_singleton in Ht'. subst t.
    eapply Forall_forall in Ha; [|exact Ht]. revert Ha. not_listed.
  - apply Forall_app. split; [done|]. repeat constructor.
Qed.

(** X4 (one section per type).  The sections of
    [_create_structured_resume] have pairwise different types, all among
    personal, summary, experience, education, skills, projects and
    additional: the salvage passes never add a second education or skills
    section, and there are at most seven sections. *)
Theorem one_section_per_type (lines : list string) :
  let result := _create_structured_resume lines in
  NoDup (map sec_type result)
  ∧ Forall (fun t => t ∈ structured_types) (map sec_type result)
  ∧ List.length result <= 7.
Proof.
  intros result.
  assert (Hmain : NoDup (map sec_type result)
                  ∧ Forall (fun t => t ∈ structured_types)
                           (map sec_type result)).
  { subst result. unfold _create_structured_resume.
    rewrite <- list_fmap_compose.
    change (sec_type ∘ fst <$> ?l) with (types_of l).
    unfold _create_structured_resume_owned.
    destruct (structured_passes lines) as [|s secs] eqn:Hpasses.
    - unfold _create_basic_sections_owned, types_of.
      repeat (match goal with |- context [if ?b then _ else _] =>
                destruct b end);
        simpl; split;
        repeat (first [apply NoDup_nil_2 | apply NoDup_cons_2
                      | apply Forall_nil_2 | apply Forall_cons_2
                      | not_listed
                      | (apply list_elem_of_In; simpl; tauto)]).
    - rewrite <- Hpasses. apply structured_passes_types. }
  destruct Hmain as [Hnd Hall]. split; [done|]. split; [done|].
  rewrite <- (length_map sec_type).
  change 7 with (List.length structured_types).
  apply submseteq_length, NoDup_submseteq; [done|].
  intros t Ht. eapply Forall_forall in Hall; [exact Hall|done].
Qed.


(** *** Lines that read like work content *)

Lemma enumerate_from_elem {A : Type} (start i : nat) (x : A) (l : list A) :
  l !! i = Some x → (start + i, x) ∈ enumerate_from start l.
Proof.
  revert start i. induction l as [|y l IH]; intros start i Hi; [done|].
  destruct i as [|i]; simpl in *.
  - injection Hi as ->. rewrite Nat.add_0_r. apply list_elem_of_here.
  - apply list_elem_of_further. rewrite <- Nat.add_succ_comm. by apply IH.
Qed.

Lemma claim_loop_complete test used ls i line :
  (i, line) ∈ ls → i ∉ used → test line = true →
  (i, line) ∈ claim_loop test used ls.
Proof.
  intros Hin Hfresh Htest.
  induction ls as [|[j l] rest IH]; [by apply not_elem_of_nil in Hin|].
  simpl. apply elem_of_cons in Hin as [Heq|Hin].
  - injection Heq as <- <-.
    rewrite bool_decide_eq_false_2 by done. rewrite Htest.
    apply list_elem_of_here.
  - destruct (bool_decide (j ∈ used)); [by apply IH|].
    destruct (test l); [apply list_elem_of_further|]; by apply IH.
Qed.

Lemma content_of_truthy (cs : list claim) i line :
  (i, line) ∈ cs → Py.truthy line = true → Py.truthy (content_of cs) = true.
Proof.
  intros Hin Hline. unfold content_of, join.
  destruct cs as [|[j l] cs]; [by apply not_elem_of_nil in Hin|].
  simpl. destruct cs as [|c cs].
  - apply list_elem_of_singleton in Hin. by injection Hin as <- <-.
  - simpl. destruct l; [|done]. done.
Qed.

Lemma add_section_accounted ty ttl conf cs st allowed :
  accounted allowed st → ty ∈ allowed →
  accounted allowed (add_section ty ttl conf cs st).
Proof.
  intros Hst Hty. unfold add_section.
  destruct (Py.truthy _); [|done].
  intros i Hi. simpl in *. apply elem_of_union in Hi as [Hi|Hi].
  - destruct (Hst i Hi) as (s & Hs & Hown & Htype).
    exists s. split; [|done]. apply elem_of_app. by left.
  - exists (section_of ty ttl conf cs). split; [|split; [|done]].
    + apply elem_of_app. right. apply list_elem_of_here.
    + unfold owns. simpl. by apply elem_of_list_to_set in Hi.
Qed.

Lemma add_section_keeps ty ttl conf cs st s :
  s ∈ st.1 → s ∈ (add_section ty ttl conf cs st).1.
Proof.
  intros Hs. unfold add_section. destruct (Py.truthy _); [|done].
  simpl. apply elem_of_app. by left.
Qed.

Lemma add_section_claims ty ttl conf cs st i line :
  (i, line) ∈ cs → Py.truthy line = true →
  ∃ s, s ∈ (add_section ty ttl conf cs st).1 ∧ owns i s ∧ sec_type s.1 = ty.
Proof.
  intros Hin Hline. unfold add_section.
  rewrite (content_of_truthy cs i line Hin Hline). simpl.
  exists (section_of ty ttl conf cs). split; [|split; [|done]].
  - apply elem_of_app. right. apply list_elem_of_here.
  - unfold owns, section_of, indices_of. simpl.
    apply list_elem_of_fmap. by exists (i, line).
Qed.

Lemma work_content_truthy (line : string) :
  is_work_content line = true → Py.truthy line = true.
Proof. destruct line; [discriminate|done]. Qed.

Lemma structured_passes_keep (lines : list string) s :
  let st0 : list owned_section * gset nat := ([], ∅) in
  let st1 := add_section "personal" "Personal Information" (9 # 10)
               (_extract_personal_info_with_tracking lines) st0 in
  let st2 := add_section "summary" "Professional Summary" (9 # 10)
               (_extract_summary_with_tracking lines st1.2) st1 in
  let st3 := add_section "experience" "Work Experience" (9 # 10)
               (_extract_all_experience lines st2.2) st2 in
  s ∈ st3.1 → s ∈ structured_passes lines.
Proof.
  intros st0 st1 st2 st3 Hs.
  unfold structured_passes.
  fold st0. fold st1. fold st2. fold st3.
  set (st4 := add_section "education" _ _ _ st3).
  set (st5 := add_section "skills" _ _ _ st4).
  set (st6 := add_section "projects" _ _ _ st5).
  set (st7 := if has_type "education" st6.1 then _ else _).
  set (st8 := if has_type "skills" st7.1 then _ else _).
  assert (H6 : s ∈ st6.1) by (by do 3 apply add_section_keeps).
  assert (H7 : s ∈ st7.1).
  { unfold st7. destruct (has_type "education" st6.1); [done|].
    by apply add_section_keeps. }
  assert (H8 : s ∈ st8.1).
  { unfold st8. destruct (has_type "skills" st7.1); [done|].
    by apply add_section_keeps. }
  destruct (Py.truthy _); [|done]. apply elem_of_app. by left.
Qed.

(** X5 (work content).  A line that passes the work-content test of
    [_extract_all_experience] is never left out and never lands in a
    later section: in the result of the eight passes it is owned by the
    experience section, unless the personal or the summary pass, which
    run before, has claimed it. *)
Theorem work_content_is_claimed_early (lines : list string) (i : nat)
    (line : string) :
  lines !! i = Some line →
  is_work_content line = true →
  ∃ s, s ∈ structured_passes lines ∧ owns i s
       ∧ sec_type s.1 ∈ ["personal"; "summary"; "experience"].
Proof.
  intros Hline Hwork.
  pose (st0 := ([], ∅) : list owned_section * gset nat).
  pose (st1 := add_section "personal" "Personal Information" (9 # 10)
                 (_extract_personal_info_with_tracking lines) st0).
  pose (st2 := add_section "summary" "Professional Summary" (9 # 10)
                 (_extract_summary_with_tracking lines st1.2) st1).
  pose (st3 := add_section "experience" "Work Experience" (9 # 10)
                 (_extract_all_experience lines st2.2) st2).
  assert (Hacc : accounted ["personal"; "summary"; "experience"] st2).
  { apply add_section_accounted; [|repeat constructor].
    apply add_section_accounted; [|repeat constructor].
    intros j Hj. by apply not_elem_of_empty in Hj. }
  assert (H3 : ∃ s, s ∈ st3.1 ∧ owns i s
                    ∧ sec_type s.1 ∈ ["personal"; "summary"; "experience"]).
  { destruct (decide (i ∈ st2.2)) as [Hused|Hfresh].
    - destruct (Hacc i Hused) as (s & Hs & Hown & Hty).
      exists s. split; [by apply add_section_keeps|done].
    - destruct (add_section_claims "experience" "Work Experience" (9 # 10)
                  (_extract_all_experience lines st2.2) st2 i line)
        as (s & Hs & Hown & Hty).
      + apply claim_loop_complete; [|done|done].
        apply (enumerate_from_elem 0 i line lines Hline).
      + by apply work_content_truthy.
      + exists s. split; [done|]. split; [done|]. rewrite Hty.
        repeat constructor. }
  destruct H3 as (s & Hs & Hown & Hty).
  exists s. split; [|done]. by apply structured_passes_keep.
Qed.

Lemma work_content_is_claimed_early_witness :
  ∃ s, s ∈ structured_passes ["Acme Corp"; "Python"] ∧ owns 0 s
       ∧ sec_type s.1 ∈ ["personal"; "summary"; "experience"].
Proof.
  apply (work_content_is_claimed_early ["Acme Corp"; "Python"] 0 "Acme Corp");
    reflexivity.
Defined.

(** *** The personal pass has the first pick *)

Lemma personal_loop_complete (ls : list claim) i line :
  (i, line) ∈ ls → is_contact_line line = true → (i, line) ∈ personal_loop ls.
Proof.
  intros Hin Hcontact.
  induction ls as [|[j l] rest IH]; [by apply not_elem_of_nil in Hin|].
  simpl. apply elem_of_cons in Hin as [Heq|Hin].
  - injection Heq as <- <-. rewrite Hcontact. apply list_elem_of_here.
  - destruct (is_contact_line l); [apply list_elem_of_further; by apply IH|].
    destruct (is_name_line j l); [apply list_elem_of_further|]; by apply IH.
Qed.

Lemma contact_line_truthy (line : string) :
  is_contact_line line = true → Py.truthy line = true.
Proof. destruct line; [discriminate|done]. Qed.

(** X6 (contact lines).  The personal pass runs first and only looks at
    the first ten lines.  Every one of these lines that passes its
    contact test (an at sign, a domain ending, a contact or location
    word, or a digit in a line of more than eight characters) is owned
    by the personal section, whatever else the line says. *)
Theorem contact_lines_go_to_personal (lines : list string) (i : nat)
    (line : string) :
  i < 10 →
  lines !! i = Some line →
  is_contact_line line = true →
  ∃ s, s ∈ structured_passes lines ∧ owns i s ∧ sec_type s.1 = "personal".
Proof.
  intros Hten Hline Hcontact.
  pose (st0 := ([], ∅) : list owned_section * gset nat).
  destruct (add_section_claims "personal" "Personal Information" (9 # 10)
              (_extract_personal_info_with_tracking lines) st0 i line)
    as (s & Hs & Hown & Hty).
  - apply personal_loop_complete; [|done].
    apply (enumerate_from_elem 0 i line (take 10 lines)).
    by rewrite lookup_take_lt.
  - by apply contact_line_truthy.
  - exists s. split; [|done].
    apply structured_passes_keep. by do 2 apply add_section_keeps.
Qed.

Lemma contact_lines_go_to_personal_witness :
  ∃ s, s ∈ structured_passes ["Software Engineer at Acme Corp 2020-Present"]
       ∧ owns 0 s ∧ sec_type s.1 = "personal".
Proof.
  apply (contact_lines_go_to_personal
           ["Software Engineer at Acme Corp 2020-Present"] 0
           "Software Engineer at Acme Corp 2020-Present");
    [lia|reflexivity|reflexivity].
Defined.

(** *** The position-based split is a partition *)

Lemma append_assoc (x a b : string) :
  String.append x (String.append a b) = String.append (String.append x a) b.
Proof.
  induction x as [|c x IH]; [reflexivity|].
  change (String c (String.append x (String.append a b))
          = String c (String.append (String.append x a) b)).
  f_equal. exact IH.
Qed.

Lemma join_app (xs ys : list string) :
  xs ≠ [] → ys ≠ [] →
  join nl (xs ++ ys)
  = String.append (join nl xs) (String.append nl (join nl ys)).
Proof.
  intros Hxs Hys. induction xs as [|x xs IH]; [done|].
  destruct xs as [|x' xs].
  - simpl. destruct ys as [|y ys]; [done|]. reflexivity.
  - change (join nl ((x :: x' :: xs) ++ ys))
      with (String.append x (String.append nl (join nl ((x' :: xs) ++ ys)))).
    rewrite IH by done.
    change (join nl (x :: x' :: xs))
      with (String.append x (String.append nl (join nl (x' :: xs)))).
    by rewrite !append_assoc.
Qed.

Lemma slice_nonempty {A : Type} (a b : nat) (l : list A) :
  a < b → a < List.length l → slice a b l ≠ [].
Proof.
  intros Hab Hal Hnil. apply (f_equal List.length) in Hnil.
  unfold slice in Hnil. rewrite length_take, length_drop in Hnil.
  simpl in Hnil. lia.
Qed.

Lemma slice_app {A : Type} (a b c : nat) (l : list A) :
  a <= b → b <= c → slice a b l ++ slice b c l = slice a c l.
Proof.
  intros Hab Hbc. unfold slice.
  replace (c - a) with ((b - a) + (c - b)) by lia.
  rewrite <- (take_drop (b - a) (take (b - a + (c - b)) (drop a l))).
  rewrite take_take. replace (Nat.min (b - a) (b - a + (c - b))) with (b - a) by lia.
  f_equal. rewrite <- take_drop_commute, drop_drop.
  replace (a + (b - a)) with b by lia.
  by replace (b - a + (c - b) - (b - a)) with (c - b) by lia.
Qed.

Lemma seq_glue (a b c : nat) :
  a <= b → b <= c → seq a (b - a) ++ seq b (c - b) = seq a (c - a).
Proof.
  intros Hab Hbc. replace (c - a) with ((b - a) + (c - b)) by lia.
  rewrite seq_app. by replace (a + (b - a)) with b by lia.
Qed.

(** X7 (partition).  The position-based split loses nothing and repeats
    nothing: the index lists of its sections, put one after the other,
    are exactly the indices [0 .. len(lines) - 1] in order, and joining
    the contents of its sections with newlines gives back the document. *)
Theorem basic_sections_partition (lines : list string) :
  List.concat (owners (_create_basic_sections_owned lines))
  = seq 0 (List.length lines)
  ∧ join nl (map content (_create_basic_sections lines)) = join nl lines.
Proof.
  unfold _create_basic_sections, _create_basic_sections_owned.
  set (n := List.length lines).
  set (pe := Nat.min (Nat.max 5 (n / 5)) 10).
  set (ee := Nat.min n (pe + int_times_0_6 n)).
  assert (Hpe : 5 <= pe <= 10) by (unfold pe; lia).
  assert (Hee : ee <= n) by (unfold ee; lia).
  replace (0 <? pe) with true by (symmetry; apply Nat.ltb_lt; lia).
  assert (Hfull : slice 0 n lines = lines).
  { unfold slice. rewrite drop_0. apply take_ge. unfold n. lia. }
  destruct (Nat.ltb_spec pe ee) as [Hlt|Hge].
  - assert (Hpn : pe < n) by lia.
    destruct (Nat.ltb_spec ee n) as [Hlt'|Hge'].
    + split.
      * simpl. rewrite !Ownership.indices_slice. fold n.
        rewrite app_nil_r.
        replace (Nat.min (pe - 0) (n - 0)) with (pe - 0) by lia.
        replace (Nat.min (ee - pe) (n - pe)) with (ee - pe) by lia.
        replace (Nat.min (n - ee) (n - ee)) with (n - ee) by lia.
        rewrite (seq_glue pe ee n), (seq_glue 0 pe n) by lia.
        f_equal. lia.
      * simpl. rewrite !Totality.content_of_slice.
        rewrite <- Hfull at 4.
        rewrite <- (slice_app 0 pe n lines) by lia.
        rewrite <- (slice_app pe ee n lines) by lia.
        rewrite (join_app (slice 0 pe lines)).
        -- rewrite (join_app (slice pe ee lines)); [reflexivity| |].
           ++ apply slice_nonempty; [done|]. fold n. lia.
           ++ apply slice_nonempty; [done|]. fold n. lia.
        -- apply slice_nonempty; [lia|]. fold n. lia.
        -- rewrite slice_app by lia. apply slice_nonempty; [lia|]. fold n. lia.
    + assert (ee = n) by lia. split.
      * simpl. rewrite !Ownership.indices_slice. fold n.
        rewrite app_nil_r.
        replace (Nat.min (pe - 0) (n - 0)) with (pe - 0) by lia.
        replace (Nat.min (ee - pe) (n - pe)) with (n - pe) by lia.
        rewrite (seq_glue 0 pe n) by lia. f_equal. lia.
      * simpl. rewrite !Totality.content_of_slice.
        rewrite <- Hfull at 3.
        rewrite <- (slice_app 0 pe n lines) by lia.
        replace ee with n by done.
        rewrite (join_app (slice 0 pe lines)); [reflexivity| |].
        -- apply slice_nonempty; [lia|]. fold n. lia.
        -- apply slice_nonempty; [lia|]. fold n. lia.
  - assert (Hnp : n <= pe).
    { unfold ee in Hge. unfold int_times_0_6 in Hge.
      destruct (Nat.le_gt_cases n pe) as [|Hgt]; [done|].
      assert (1 <= 3 * n / 5) by (apply Nat.div_le_lower_bound; lia). lia. }
    replace (ee <? n) with false by (symmetry; apply Nat.ltb_ge; lia).
    split.
    + simpl. rewrite Ownership.indices_slice. fold n.
      rewrite app_nil_r. f_equal. lia.
    + simpl. rewrite Totality.content_of_slice.
      unfold slice. rewrite drop_0, take_ge by (fold n; lia).
      unfold join. simpl. reflexivity.
Qed.

End SegmenterCoverage.

(** ** Section boundaries and headers *)

Module BoundaryFacts.

Import Notions MoreNotions DocumentParser DocumentParserMore.

Lemma insert_boundary_Permutation b bs : insert_boundary b bs ≡ₚ b :: bs.
Proof.
  induction bs as [|b' bs IH]; simpl; [done|].
  destruct (_ <=? _); [done|]. rewrite IH. apply Permutation_swap.
Qed.

Lemma sorted_by_index_Permutation bs : sorted_by_index bs ≡ₚ bs.
Proof.
  induction bs as [|b bs IH]; simpl; [done|].
  rewrite insert_boundary_Permutation. by rewrite IH.
Qed.

Lemma insert_boundary_sorted b bs :
  StronglySorted by_index bs → StronglySorted by_index (insert_boundary b bs).
Proof.
  induction 1 as [|b' bs Hs IH Hall]; simpl; [repeat constructor|].
  destruct (Nat.leb_spec (boundary_index b) (boundary_index b')) as [Hle|Hgt].
  - constructor; [by constructor|]. constructor; [done|].
    eapply Forall_impl; [exact Hall|]. unfold by_index. intros; lia.
  - constructor; [done|]. rewrite insert_boundary_Permutation.
    constructor; [unfold by_index; lia|done].
Qed.

Lemma sorted_by_index_sorted bs : StronglySorted by_index (sorted_by_index bs).
Proof.
  induction bs as [|b bs IH]; simpl; [constructor|].
  by apply insert_boundary_sorted.
Qed.

Lemma first_hit_bound test start lines i :
  first_hit test start lines = Some i →
  start <= i < start + List.length lines.
Proof.
  revert start. induction lines as [|line rest IH]; intros start; simpl;
    [done|].
  destruct (test line).
  - intros [= <-]. lia.
  - intros H%IH. lia.
Qed.

Lemma determine_section_type_titled line :
  _get_section_title (_determine_section_type line) ≠ "Information".
Proof.
  unfold _determine_section_type.
  repeat (match goal with |- context [if ?b then _ else _] => destruct b end;
          [discriminate|]).
  discriminate.
Qed.

Lemma header_boundaries_spec (lines : list string) (ls : list (nat * string)) :
  Forall (fun il => il.1 < List.length lines) ls →
  StronglySorted lt (map fst ls) →
  Forall (boundary_of lines) (header_boundaries ls)
  ∧ StronglySorted lt (map boundary_index (header_boundaries ls))
  ∧ Forall (fun b => boundary_index b ∈ map fst ls) (header_boundaries ls).
Proof.
  induction ls as [|[i line] rest IH]; intros Hin Hsorted; simpl.
  - repeat split; constructor.
  - apply Forall_cons in Hin as [Hi Hin].
    apply StronglySorted_inv in Hsorted as [Hsorted Hlt].
    destruct (IH Hin Hsorted) as (Hb & Hs & Hmem).
    assert (Hmem' : Forall (fun b => boundary_index b ∈ i :: map fst rest)
                           (header_boundaries rest)).
    { eapply Forall_impl; [exact Hmem|]. intros b Hb'.
      by apply list_elem_of_further. }
    destruct (_is_clear_section_header line); [|done].
    split; [|split].
    + constructor; [|done]. split; [exact Hi|]. split; [reflexivity|].
      apply determine_section_type_titled.
    + simpl. constructor; [done|].
      apply Forall_forall. intros j Hj.
      apply list_elem_of_fmap in Hj as (b & -> & Hb').
      eapply Forall_forall in Hmem; [|exact Hb'].
      eapply Forall_forall in Hlt; [exact Hlt|exact Hmem].
    + constructor; [apply list_elem_of_here|done].
Qed.

Lemma insert_boundary_first b bs :
  boundary_index b = 0 → insert_boundary b bs = b :: bs.
Proof. intros Hb. destruct bs as [|b' bs]; simpl; [done|]. by rewrite Hb. Qed.

#[local] Arguments sorted_by_index : simpl never.

Lemma sorted_by_index_cons b bs :
  sorted_by_index (b :: bs) = insert_boundary b (sorted_by_index bs).
Proof. reflexivity. Qed.

Lemma logical_boundaries_cases (lines : list string) :
  lines ≠ [] →
  ∃ rest, _create_logical_boundaries lines
          = (0, "personal", "Personal Information") :: sorted_by_index rest
          ∧ Forall (boundary_of lines) rest
          ∧ map boundary_type rest `sublist_of` ["experience"; "skills"].
Proof.
  intros Hne. unfold _create_logical_boundaries.
  set (n := List.length lines).
  assert (Hn : 0 < n) by (unfold n; destruct lines; [done|simpl; lia]).
  set (b0 := match lines with [] => [] | _ => _ end).
  assert (Hb0 : b0 = [(0, "personal", "Personal Information")])
    by (unfold b0; by destruct lines).
  rewrite Hb0. clear b0 Hb0.
  set (e := first_hit _ 0 lines).
  set (s := first_hit _ (n / 2) (drop (n / 2) lines)).
  assert (He : ∀ i, e = Some i → i < n).
  { intros i Hi%first_hit_bound. fold n in Hi. lia. }
  assert (Hs : ∀ i, s = Some i → i < n).
  { intros i Hi%first_hit_bound. rewrite length_drop in Hi. fold n in Hi.
    assert (n / 2 <= n) by (apply Nat.Div0.div_le_upper_bound; lia). lia. }
  destruct e as [i|], s as [j|]; simpl.
  - specialize (He i eq_refl). specialize (Hs j eq_refl).
    exists [(i - 2, "experience", "Work Experience");
            (j - 1, "skills", "Technical Skills")].
    split; [by rewrite sorted_by_index_cons, insert_boundary_first|]. split; [|done].
    repeat constructor; try discriminate; unfold boundary_index; simpl;
      fold n; lia.
  - specialize (He i eq_refl).
    exists [(i - 2, "experience", "Work Experience")].
    split; [by rewrite sorted_by_index_cons, insert_boundary_first|]. split.
    + repeat constructor; try discriminate; unfold boundary_index; simpl;
        fold n; lia.
    + apply sublist_skip, sublist_cons, sublist_nil.
  - specialize (Hs j eq_refl).
    exists [(j - 1, "skills", "Technical Skills")].
    split; [by rewrite sorted_by_index_cons, insert_boundary_first|]. split.
    + repeat constructor; try discriminate; unfold boundary_index; simpl;
        fold n; lia.
    + apply sublist_cons, sublist_skip, sublist_nil.
  - exists []. split; [done|]. split; [constructor|].
    apply sublist_cons, sublist_cons, sublist_nil.
Qed.

Lemma logical_boundaries_empty : _create_logical_boundaries [] = [].
Proof. reflexivity. Qed.

(** X8 (boundaries).  The boundaries of [_find_section_boundaries] come
    in the order of the document; each sits on a line of the document and
    carries the title of its type, never the default title; and only the
    empty document has no boundary. *)
Theorem boundaries_wellformed (lines : list string) :
  let result := _find_section_boundaries lines in
  StronglySorted by_index result
  ∧ Forall (boundary_of lines) result
  ∧ (result = [] ↔ lines = []).
Proof.
  intros result. subst result. unfold _find_section_boundaries.
  destruct (header_boundaries_spec lines (enumerate lines))
    as (Hb & Hs & _).
  { apply Forall_forall. intros [i line] Hin.
    apply Ownership.enumerate_from_lookup in Hin as [_ Hin].
    apply lookup_lt_Some in Hin. simpl. lia. }
  { unfold enumerate. rewrite Ownership.indices_enumerate_from.
    apply SegmenterFacts.StronglySorted_seq. }
  destruct (header_boundaries (enumerate lines)) as [|b bs] eqn:Hhb.
  - destruct lines as [|l0 ls].
    { split; [constructor|]. split; [constructor|done]. }
    destruct (logical_boundaries_cases (l0 :: ls)) as (rest & -> & Hall & _);
      [done|].
    split; [|split; [|done]].
    + rewrite <- (insert_boundary_first _ (sorted_by_index rest)) by done.
      apply (sorted_by_index_sorted (_ :: rest)).
    + constructor.
      * split; [unfold boundary_index; simpl; lia|].
        split; [reflexivity|discriminate].
      * by rewrite sorted_by_index_Permutation.
  - split; [|split; [done|]].
    + clear -Hs. revert Hs. generalize (b :: bs). intros l.
      induction l as [|a l IH]; simpl; intros Hs; [constructor|].
      apply StronglySorted_inv in Hs as [Hs Ha].
      constructor; [by apply IH|].
      apply Forall_forall. intros c Hc.
      eapply Forall_forall in Ha; [|apply list_elem_of_fmap; by exists c].
      unfold by_index. lia.
    + split; [done|]. intros ->. done.
Qed.

(** X9 (logical boundaries).  For a document with at least one line,
    [_create_logical_boundaries] opens with the personal boundary on
    line 0 and adds at most one experience and at most one skills
    boundary, in the order of their lines: between one and three
    boundaries in all. *)
Theorem logical_boundaries_shape (lines : list string) :
  lines ≠ [] →
  ∃ rest,
    _create_logical_boundaries lines
    = (0, "personal", "Personal Information") :: rest
    ∧ map boundary_type rest ⊆+ ["experience"; "skills"]
    ∧ List.length rest <= 2
    ∧ StronglySorted by_index rest.
Proof.
  intros Hne.
  destruct (logical_boundaries_cases lines Hne) as (rest & -> & _ & Hsub).
  exists (sorted_by_index rest). split; [done|].
  assert (Hperm : map boundary_type (sorted_by_index rest)
                  ⊆+ ["experience"; "skills"]).
  { rewrite sorted_by_index_Permutation. by apply sublist_submseteq. }
  split; [done|]. split; [|apply sorted_by_index_sorted].
  apply submseteq_length in Hperm. by rewrite length_map in Hperm.
Qed.

Lemma logical_boundaries_shape_witness :
  ∃ rest,
    _create_logical_boundaries ["Jo"; "x"; "y"; "python"; "engineer"]
    = (0, "personal", "Personal Information") :: rest
    ∧ map boundary_type rest ⊆+ ["experience"; "skills"]
    ∧ List.length rest <= 2
    ∧ StronglySorted by_index rest.
Proof.
  apply (logical_boundaries_shape ["Jo"; "x"; "y"; "python"; "engineer"]).
  discriminate.
Defined.

(** *** [is_section_header] *)

Lemma blank_line_is_no_header (line : string) :
  has_visible line = false → is_section_header line = false.
Proof.
  intros Hblank. unfold is_section_header.
  by rewrite Totality.truthy_strip, Hblank.
Qed.




End BoundaryFacts.

(** ** The choice of the line classifier *)

Module ClassifierChoice.

Import Notions MoreNotions Classifier.

(** The first entry with the highest score, in a list of scores whose
    maximum is positive. *)
Lemma find_first_max (scores : list (string * nat)) :
  let max_score := fold_right Nat.max 0 (map snd scores) in
  0 < max_score →
  ∃ pre ty post,
    scores = pre ++ (ty, max_score) :: post
    ∧ List.find (fun kv => kv.2 =? max_score) scores = Some (ty, max_score)
    ∧ Forall (fun kv => kv.2 < max_score) pre
    ∧ Forall (fun kv => kv.2 <= max_score) post.
Proof.
  intros max_score Hpos.
  assert (Hle : Forall (fun kv => kv.2 <= max_score) scores).
  { subst max_score. clear. induction scores as [|[k v] l IH]; simpl;
      constructor; [simpl; lia|].
    eapply Forall_impl; [exact IH|]. simpl. intros; lia. }
  assert (Hex : ∃ kv, kv ∈ scores ∧ kv.2 = max_score).
  { subst max_score. clear -Hpos.
    induction scores as [|[k v] l IH]; simpl in *; [lia|].
    destruct (Nat.max_spec v (fold_right Nat.max 0 (map snd l)))
      as [[Hlt ->]|[Hge ->]].
    - destruct IH as (kv & Hin & Heq); [lia|].
      exists kv. split; [by apply list_elem_of_further|done].
    - exists (k, v). split; [apply list_elem_of_here|done]. }
  clearbody max_score. clear Hpos.
  induction scores as [|[k v] l IH].
  - destruct Hex as (kv & Hin & _). by apply not_elem_of_nil in Hin.
  - apply Forall_cons in Hle as [Hv Hl]. simpl in Hv.
    destruct (Nat.eqb_spec v max_score) as [->|Hne].
    + exists [], k, l. simpl. rewrite Nat.eqb_refl. repeat split; done.
    + destruct IH as (pre & ty & post & -> & Hfind & Hpre & Hpost); [done| |].
      { destruct Hex as (kv & Hin & Heq).
        apply elem_of_cons in Hin as [->|Hin]; [done|]. by exists kv. }
      exists ((k, v) :: pre), ty, post. simpl.
      destruct (Nat.eqb_spec v max_score) as [|_]; [done|].
      repeat split; try done. constructor; [simpl; lia|done].
Qed.

Lemma table_get_missing {A : Type} (k : string) (d : list (string * list A)) :
  k ∉ map fst d → table_get k d = [].
Proof.
  induction d as [|[k' v] d IH]; simpl; [done|].
  intros [Hne Hout]%not_elem_of_cons.
  destruct (String.eqb_spec k k'); [done|]. by apply IH.
Qed.

(** With a positive score somewhere, the answer is the first entry of
    [section_scores] that has the highest score. *)
Lemma positive_score_choice (text : string) (ty : string) :
  0 < section_score ty text →
  ∃ pre post,
    section_scores text
    = pre ++ (classify_section_type text,
              fold_right Nat.max 0 (map snd (section_scores text))) :: post
    ∧ Forall (fun kv => kv.2 < fold_right Nat.max 0
                                 (map snd (section_scores text))) pre
    ∧ Forall (fun kv => kv.2 <= fold_right Nat.max 0
                                  (map snd (section_scores text))) post.
Proof.
  intros Hpos.
  assert (Hty : ty ∈ map fst section_keywords).
  { destruct (decide (ty ∈ map fst section_keywords)) as [|Hout]; [done|].
    exfalso. revert Hpos. unfold section_score.
    rewrite (table_get_missing ty section_keywords Hout).
    rewrite (table_get_missing ty patterns);
      [unfold keyword_score, pattern_score; simpl; lia|].
    intros Hin. apply Hout. apply list_elem_of_In in Hin.
    apply list_elem_of_In. simpl in *. tauto. }
  pose (scores := section_scores text).
  assert (Hmax : 0 < fold_right Nat.max 0 (map snd scores)).
  { assert (Hin : (ty, section_score ty text) ∈ scores).
    { unfold scores, section_scores.
      apply list_elem_of_fmap in Hty as ([k v] & -> & Hkv).
      apply list_elem_of_fmap. by exists (k, v). }
    clear -Hin Hpos. induction scores as [|[k v] l IH];
      [by apply not_elem_of_nil in Hin|].
    simpl. apply elem_of_cons in Hin as [[= <- <-]|Hin]; [lia|].
    specialize (IH Hin). lia. }
  destruct (find_first_max scores Hmax)
    as (pre & best & post & Hsplit & Hfind & Hpre & Hpost).
  assert (Hresult : classify_section_type text = best).
  { unfold classify_section_type. fold scores.
    apply Nat.ltb_lt in Hmax. rewrite Hmax, Hfind. reflexivity. }
  exists pre, post. fold scores. by rewrite Hresult.
Qed.

(** X11 (first best type).  When some type scores above zero,
    [classify_section_type] returns a type of the keyword table whose
    score no other type exceeds, and among equal best types the first in
    the order of the table: every type before it scores strictly less. *)
Theorem classifier_picks_first_best (text : string) (ty : string) :
  0 < section_score ty text →
  ∃ before after,
    map fst section_keywords
    = before ++ classify_section_type text :: after
    ∧ Forall (fun t => section_score t text
                       < section_score (classify_section_type text) text)
             before
    ∧ Forall (fun t => section_score t text
                       <= section_score (classify_section_type text) text)
             after.
Proof.
  intros Hpos.
  destruct (positive_score_choice text ty Hpos)
    as (pre & post & Hsplit & Hpre & Hpost).
  set (scores := section_scores text) in *.
  set (best := classify_section_type text) in *.
  assert (Hscore : ∀ kv, kv ∈ scores → kv.2 = section_score kv.1 text).
  { intros kv Hkv. unfold scores, section_scores in Hkv.
    apply list_elem_of_fmap in Hkv as (kw & -> & _). reflexivity. }
  assert (Hbest : section_score best text
                  = fold_right Nat.max 0 (map snd scores)).
  { symmetry. apply (Hscore (best, _)). rewrite Hsplit.
    apply elem_of_app. right. apply list_elem_of_here. }
  exists (map fst pre), (map fst post). rewrite Hbest.
  split; [|split].
  - transitivity (map fst scores).
    + unfold scores, section_scores. rewrite <- list_fmap_compose.
      by apply list_fmap_ext.
    + rewrite Hsplit at 1. by rewrite map_app.
  - apply Forall_fmap, Forall_forall. intros kv Hkv. simpl.
    rewrite <- Hscore.
    + eapply Forall_forall in Hpre; [exact Hpre|done].
    + rewrite Hsplit. apply elem_of_app. by left.
  - apply Forall_fmap, Forall_forall. intros kv Hkv. simpl.
    rewrite <- Hscore.
    + eapply Forall_forall in Hpost; [exact Hpost|done].
    + rewrite Hsplit. apply elem_of_app. right. by apply list_elem_of_further.
Qed.

Lemma classifier_picks_first_best_witness :
  ∃ before after,
    map fst section_keywords
    = before ++ classify_section_type "career summary" :: after
    ∧ Forall (fun t => section_score t "career summary"
                       < section_score (classify_section_type "career summary")
                                       "career summary")
             before
    ∧ Forall (fun t => section_score t "career summary"
                       <= section_score (classify_section_type "career summary")
                                        "career summary")
             after.
Proof.
  apply (classifier_picks_first_best "career summary" "summary").
  vm_compute. lia.
Defined.

(** X12 (other).  [classify_section_type] answers "other" only for a text
    without any evidence: every type scores zero, the text holds no at
    sign, and none of the words of the fallback heuristics occurs. *)
Theorem other_means_no_evidence (text : string) :
  classify_section_type text = "other" →
  (∀ ty, section_score ty text = 0)
  ∧ contains "@" text = false
  ∧ any_in ["phone"; "email"; "address"; "university"; "degree"; "bachelor";
            "master"; "phd"; "company"; "manager"; "developer"; "analyst";
            "engineer"; "python"; "javascript"; "java"; "react"; "node"]
           (lower text) = false.
Proof.
  intros Hother.
  assert (Hzero : ∀ ty, section_score ty text = 0).
  { intros ty. destruct (Nat.eq_0_gt_0_cases (section_score ty text))
      as [|Hpos]; [done|].
    destruct (positive_score_choice text ty Hpos) as (pre & post & Hsplit & _).
    rewrite Hother in Hsplit. exfalso.
    assert (Hin : "other" ∈ map fst section_keywords).
    { replace (map fst section_keywords) with (map fst (section_scores text)).
      - rewrite Hsplit, map_app. apply elem_of_app. right.
        apply list_elem_of_here.
      - unfold section_scores. rewrite <- list_fmap_compose.
        by apply list_fmap_ext. }
    revert Hin. clear. intros Hin. apply list_elem_of_In in Hin. simpl in Hin.
    repeat (destruct Hin as [Hin|Hin]; [discriminate Hin|]). exact Hin. }
  split; [exact Hzero|].
  revert Hother. unfold classify_section_type.
  set (scores := section_scores text).
  destruct (if 0 <? _ then _ else _) as [[section_type score]|] eqn:Hfind.
  { intros ->. exfalso.
    destruct (0 <? _); [|done].
    apply find_some in Hfind as [Hin _].
    apply list_elem_of_In in Hin. unfold scores, section_scores in Hin.
    apply list_elem_of_fmap in Hin as ([k v] & [= Hk _] & Hkv).
    simpl in Hk. subst k.
    apply (list_elem_of_fmap_2 fst) in Hkv.
    revert Hkv. clear. intros Hin. apply list_elem_of_In in Hin. simpl in Hin.
    repeat (destruct Hin as [Hin|Hin]; [discriminate Hin|]). exact Hin. }
  unfold any_in. simpl existsb.
  destruct (contains "@" text); [discriminate|].
  repeat (match goal with
          | |- context [contains ?k (lower text)] =>
              destruct (contains k (lower text)); [discriminate|]
          end).
  done.
Qed.

Lemma other_means_no_evidence_witness :
  (∀ ty, section_score ty "Volunteer at the animal shelter" = 0)
  ∧ contains "@" "Volunteer at the animal shelter" = false
  ∧ any_in ["phone"; "email"; "address"; "university"; "degree"; "bachelor";
            "master"; "phd"; "company"; "manager"; "developer"; "analyst";
            "engineer"; "python"; "javascript"; "java"; "react"; "node"]
           (lower "Volunteer at the animal shelter") = false.
Proof.
  apply (other_means_no_evidence "Volunteer at the animal shelter").
  vm_compute. reflexivity.
Defined.

End ClassifierChoice.

(** ** The scorers *)

Module ScorerFacts.

Import Notions MoreNotions AIATSScorer OllamaResumeAnalyzer.

Lemma rule_categories_valid (sections : list ResumeSection) :
  map fst (rule_category_scores sections) = category_keys
  ∧ Forall (fun kv => in_band kv.2) (rule_category_scores sections)
  ∧ (0 <= Z.min 100 (sum_values (rule_category_scores sections)) <= 100)%Z.
Proof.
  pose proof (RuleBased.format_structure_band sections) as H1.
  pose proof (RuleBased.keywords_skills_band sections) as H2.
  pose proof (RuleBased.experience_relevance_band sections) as H3.
  pose proof (RuleBased.contact_info_band sections) as H4.
  pose proof (RuleBased.education_credentials_band sections) as H5.
  split; [reflexivity|]. split.
  - unfold rule_category_scores. repeat (constructor; [done|]). constructor.
  - unfold rule_category_scores, sum_values, in_band in *. simpl. lia.
Qed.

Lemma rule_suggestions_cases (sections : list ResumeSection) :
  let result := _enhanced_fallback_analysis sections in
  3 <= List.length (suggestions result) <= 4
  ∧ NoDup (suggestions result)
  ∧ targeted_suggestions sections `prefix_of` suggestions result.
Proof.
  unfold _enhanced_fallback_analysis, targeted_suggestions.
  cbv zeta. unfold suggestions.
  repeat match goal with
         | |- context [(?a <? 15)%Z] =>
             let b := fresh "b" in generalize (a <? 15)%Z; intros b
         end.
  destruct b, b0, b1, b2; vm_compute.
  all: split; [lia|].
  all: split; [|eexists; reflexivity].
  all: repeat (apply NoDup_cons_2;
               [let H := fresh in
                intros H; apply list_elem_of_In in H; simpl in H;
                repeat (destruct H as [H|H]; [discriminate H|]); exact H|]).
  all: apply NoDup_nil_2.
Qed.

Lemma rule_strengths_cases (sections : list ResumeSection) :
  1 <= List.length (strengths (_enhanced_fallback_analysis sections)) <= 3.
Proof.
  unfold _enhanced_fallback_analysis, targeted_strengths.
  cbv zeta. unfold strengths.
  repeat match goal with
         | |- context [(20 <=? ?a)%Z] =>
             let b := fresh "b" in generalize (20 <=? a)%Z; intros b
         end.
  destruct b, b0, b1, b2; vm_compute; lia.
Qed.

(** X13 (rule-based advice).  The rule-based scorer always returns a score
    within the bounds of the response model, with three or four
    suggestions, no suggestion twice, and between one and three
    strengths; and each of the categories contact_info, keywords_skills,
    experience_relevance and format_structure that scores below 15 has
    its suggestion in the result. *)
Theorem rule_based_advice (sections : list ResumeSection) :
  let result := _enhanced_fallback_analysis sections in
  valid_score result
  ∧ 3 <= List.length (suggestions result) <= 4
  ∧ 1 <= List.length (strengths result)
  ∧ NoDup (suggestions result)
  ∧ ∀ key advice, (key, advice) ∈ category_advice →
      (dict_get key 0 (category_scores result) < 15)%Z →
      advice ∈ suggestions result.
Proof.
  intros result.
  destruct (rule_categories_valid sections) as (Hkeys & Hbands & Hoverall).
  destruct (rule_suggestions_cases sections) as (Hsug & Hnd & Hprefix).
  pose proof (rule_strengths_cases sections) as Hstr.
  fold result in Hsug, Hstr, Hnd, Hprefix.
  split; [|split; [done|split; [lia|split; [done|]]]].
  { split; [exact Hoverall|]. split; [exact Hkeys|]. split; [exact Hbands|].
    lia. }
  intros key advice Hin Hlow.
  destruct Hprefix as [padding ->]. apply elem_of_app. left.
  apply Z.ltb_lt in Hlow.
  change (category_scores result) with (rule_category_scores sections) in Hlow.
  unfold category_advice in Hin. unfold targeted_suggestions.
  repeat (apply elem_of_cons in Hin as [[= -> ->]|Hin];
          [rewrite Hlow; unfold append_if;
           repeat (match goal with
                   | |- context [if ?b then _ else _] => destruct b
                   end);
           rewrite ?elem_of_app, ?list_elem_of_singleton; tauto|]).
  by apply not_elem_of_nil in Hin.
Qed.


(** *** The model-assisted scorer of [ai_ats_scorer.py] *)

Lemma str_list_prefix_length (n : nat) (v : json) (l : list string) :
  str_list_prefix n v = Some l → List.length l <= n.
Proof.
  destruct v as [| | | |items|]; simpl; try discriminate.
  intros H%length_mapM. rewrite <- H, length_take. lia.
Qed.

Lemma sanitized_valid (ai_analysis : json) (result : ATSScore) :
  sanitized ai_analysis = Some result → valid_score result.
Proof.
  intros H.
  destruct (ModelScores.sanitized_in_band _ _ H) as [Hoverall Hbands].
  split; [exact Hoverall|]. split; [|split; [exact Hbands|]].
  all: revert H; unfold sanitized; intros H.
  all: repeat match type of H with
         | context [clamped ?hi ?k ?d ?v] =>
             destruct (clamped hi k d v); simpl in H; [|discriminate]
         | context [get ?k ?d ?v] =>
             destruct (get k d v); simpl in H; [|discriminate]
         | context [str_list_prefix ?n ?v] =>
             let Hl := fresh "Hl" in
             destruct (str_list_prefix n v) eqn:Hl; simpl in H;
             [apply str_list_prefix_length in Hl|discriminate]
         end.
  all: injection H as <-; simpl; first [reflexivity|lia].
Qed.

Lemma rule_based_valid (sections : list ResumeSection) :
  valid_score (_enhanced_fallback_analysis sections).
Proof.
  destruct (rule_categories_valid sections) as (Hkeys & Hbands & Hoverall).
  destruct (rule_suggestions_cases sections) as (Hsug & _ & _).
  pose proof (rule_strengths_cases sections) as Hstr.
  split; [exact Hoverall|]. split; [exact Hkeys|]. split; [exact Hbands|].
  lia.
Qed.

(** X14 (model-assisted score).  Whatever the model replies and whatever
    [json.loads] makes of it, [AIATSScorer.analyze_resume] returns a
    score within the bounds of the response model: the overall score
    within 0..100, exactly the five categories, each within 0..25, at
    most four suggestions and at most three strengths. *)
Theorem ai_score_always_valid (json_loads : string → option json)
    (reply : option string) (sections : list ResumeSection) :
  valid_score (analyze_resume json_loads reply sections).
Proof.
  unfold analyze_resume.
  destruct reply as [ai_response|]; [|apply rule_based_valid].
  destruct (json_span ai_response) as [json_str|]; [|apply rule_based_valid].
  destruct (json_loads json_str) as [ai_analysis|]; [|apply rule_based_valid].
  destruct (sanitized ai_analysis) as [result|] eqn:Hs; simpl.
  - by apply sanitized_valid in Hs.
  - apply rule_based_valid.
Qed.

(** *** The scorers of [ollama_resume_analyzer.py] *)

(** X15 (fallback score).  The fallback scorer of the Ollama analyzer
    returns a score within the bounds of the response model whose
    overall score is the plain sum of its five categories, between 55
    and 81, with exactly four suggestions and two strengths. *)
Theorem fallback_score_shape (sections : list ResumeSection) :
  let result := _fallback_ats_scoring sections in
  valid_score result
  ∧ overall_score result = sum_values (category_scores result)
  ∧ (55 <= overall_score result <= 81)%Z
  ∧ List.length (suggestions result) = 4
  ∧ List.length (strengths result) = 2.
Proof.
  unfold _fallback_ats_scoring. cbv zeta.
  generalize (existsb (fun s => contains "email" (lower (content s))
                                || contains "phone" (lower (content s)))
                      sections).
  generalize (existsb (fun s => contains "experience" (lower (title s))
                                || contains "work" (lower (title s)))
                      sections).
  generalize (existsb (fun s => contains "skill" (lower (title s))) sections).
  generalize (existsb (fun s => contains "education" (lower (title s))
                                || contains "degree" (lower (content s)))
                      sections).
  generalize (Classifier.sum_nat
                (map (fun s => List.length (split_ws (content s))) sections)).
  intros total_words has_education has_skills has_experience has_contact.
  destruct (total_words <? 200), (100 <? total_words),
    has_education, has_skills, has_experience, has_contact.
  all: unfold valid_score, in_band; simpl.
  all: repeat split; try reflexivity; try lia.
  all: repeat (constructor; [simpl; lia|]); constructor.
Qed.

Lemma fallback_advice_bounded (sections : list ResumeSection) :
  List.length (suggestions (_fallback_ats_scoring sections)) <= 4
  ∧ List.length (strengths (_fallback_ats_scoring sections)) <= 3.
Proof.
  unfold _fallback_ats_scoring. cbv zeta. unfold suggestions, strengths.
  split; [|simpl; lia]. rewrite length_take. lia.
Qed.

Lemma parse_reply_falsy (json_loads : string → option json) (text : string) :
  never_truthy json_loads → truthy_opt (parse_reply json_loads text) = false.
Proof.
  intros Hfalsy.
  assert (Htry : ∀ s p, truthy_opt p = false →
                        truthy_opt (try_loads json_loads s p) = false).
  { intros s p Hp. unfold try_loads.
    destruct (json_loads s) as [v|] eqn:Hv; [|exact Hp].
    simpl. by apply (Hfalsy s). }
  unfold parse_reply.
  assert (H1 : truthy_opt (try_loads json_loads text None) = false)
    by by apply Htry.
  rewrite H1.
  set (parsed2 := match json_span text with Some _ => _ | None => _ end).
  assert (H2 : truthy_opt parsed2 = false).
  { unfold parsed2. destruct (json_span text); [by apply Htry|exact H1]. }
  rewrite H2. by apply Htry.
Qed.

(** X16 (Ollama score).  Whatever the model generates and whatever
    [json.loads] makes of it, [score_ats_with_ollama] returns at most
    four suggestions and at most three strengths, although it does not
    bound the numbers of the reply. *)
Theorem ollama_score_advice_bounded (json_loads : string → option json)
    (generated : option string) (sections : list ResumeSection) :
  let result := score_ats_with_ollama json_loads generated sections in
  List.length (suggestions result) <= 4
  ∧ List.length (strengths result) <= 3.
Proof.
  intros result. subst result. unfold score_ats_with_ollama.
  pose proof (fallback_advice_bounded sections) as Hfb.
  destruct generated as [response|]; [|exact Hfb].
  destruct (truthy_opt _); [|exact Hfb].
  destruct (parse_reply json_loads (strip response)) as [parsed|];
    [|exact Hfb].
  simpl. destruct (ats_of_parsed parsed) as [ats|] eqn:Hats; [|exact Hfb].
  simpl. revert Hats. unfold ats_of_parsed. intros H.
  repeat match type of H with
         | context [get ?k ?d ?v] =>
             destruct (get k d v); simpl in H; [|discriminate]
         | context [as_int ?v] =>
             destruct (as_int v); simpl in H; [|discriminate]
         | context [as_int_dict ?v] =>
             destruct (as_int_dict v); simpl in H; [|discriminate]
         | context [str_list_prefix ?n ?v] =>
             let Hl := fresh "Hl" in
             destruct (str_list_prefix n v) eqn:Hl; simpl in H;
             [apply str_list_prefix_length in Hl|discriminate]
         end.
  injection H as <-. simpl. lia.
Qed.

End ScorerFacts.

(** ** The Ollama analyzer *)

Module OllamaFacts.

Import Notions MoreNotions OllamaResumeAnalyzer OllamaSections.

(** *** The JSON object inside a reply *)

Lemma append_cons (a : ascii) (s t : string) :
  String.append (String a s) t = String a (String.append s t).
Proof. reflexivity. Qed.

Lemma append_middle (mid : string) (c : ascii) (post : string) :
  String.append mid (String c post)
  = String.append (String.append mid (String c EmptyString)) post.
Proof.
  induction mid as [|b mid IH]; [reflexivity|].
  rewrite !append_cons. by f_equal.
Qed.

Lemma has_char_cons (c a : ascii) (s : string) :
  has_char c (String a s) = Ascii.eqb c a || has_char c s.
Proof. reflexivity. Qed.

Lemma has_char_middle (c : ascii) (mid post : string) :
  has_char c (String.append mid (String c post)) = true.
Proof.
  induction mid as [|b mid IH].
  - change (has_char c (String c post) = true).
    by rewrite has_char_cons, Ascii.eqb_refl.
  - rewrite append_cons, has_char_cons, IH. apply orb_true_r.
Qed.

Lemma has_char_append (c : ascii) (s t : string) :
  has_char c (String.append s t) = has_char c s || has_char c t.
Proof.
  induction s as [|b s IH]; [reflexivity|].
  rewrite append_cons, !has_char_cons, IH. apply orb_assoc.
Qed.

Lemma upto_last_none (c : ascii) (s : string) :
  upto_last c s = None ↔ has_char c s = false.
Proof.
  induction s as [|b s IH]; simpl; [done|].
  rewrite has_char_cons, (Ascii.eqb_sym c b).
  destruct (upto_last c s) as [r|].
  - split; [discriminate|]. intros [_ H]%orb_false_elim.
    by apply IH in H.
  - rewrite (proj1 IH eq_refl), orb_false_r.
    destruct (Ascii.eqb b c); split; done.
Qed.

Lemma upto_last_spec (c : ascii) (s r : string) :
  upto_last c s = Some r
  ↔ ∃ mid post, s = String.append mid (String c post)
                ∧ r = String.append mid (String c EmptyString)
                ∧ has_char c post = false.
Proof.
  revert r. induction s as [|a s IH]; intros r.
  - split; [discriminate|]. intros (mid & post & H & _).
    destruct mid; discriminate.
  - simpl. destruct (upto_last c s) as [r'|] eqn:Hr.
    + split.
      * intros [= <-].
        destruct (proj1 (IH r') eq_refl) as (mid & post & Hs & Hr' & Hpost).
        exists (String a mid), post. rewrite !append_cons, <- Hs, <- Hr'.
        by repeat split.
      * intros (mid & post & Heq & -> & Hpost).
        destruct mid as [|a' mid].
        -- injection Heq as -> ->. exfalso.
           apply upto_last_none in Hpost. congruence.
        -- rewrite append_cons in Heq. injection Heq as -> Heq.
           assert (Hsome : Some r' = Some (String.append mid (String c EmptyString))).
           { apply IH. by exists mid, post. }
           injection Hsome as ->. reflexivity.
    + apply upto_last_none in Hr.
      split.
      * destruct (Ascii.eqb_spec a c) as [->|Hne]; [|discriminate].
        intros [= <-]. exists EmptyString, s. by repeat split.
      * intros (mid & post & Heq & -> & Hpost).
        destruct mid as [|a' mid].
        -- injection Heq as -> ->. by rewrite Ascii.eqb_refl.
        -- rewrite append_cons in Heq. injection Heq as -> Heq. exfalso.
           rewrite Heq, has_char_middle in Hr. discriminate.
Qed.

(** X17 (JSON span).  The text handed to [json.loads] by the second
    strategy is the leftmost longest run from an opening brace to a
    closing brace: [json_span] finds it exactly when the reply holds a
    closing brace after its first opening brace, and finds nothing
    otherwise. *)
Theorem json_span_is_leftmost_longest (text span : string) :
  json_span text = Some span ↔ leftmost_longest_span text span.
Proof.
  unfold leftmost_longest_span, braced. revert span.
  induction text as [|a text IH]; intros span.
  - split; [discriminate|]. intros (pre & mid & post & H & _).
    destruct pre; discriminate.
  - simpl. destruct (Ascii.eqb_spec a "{"%char) as [->|Hne].
    + split.
      * destruct (upto_last "}" text) as [r|] eqn:Hr; [|discriminate].
        intros [= <-].
        apply upto_last_spec in Hr as (mid & post & -> & -> & Hpost).
        exists EmptyString, mid, post. repeat split; try done.
        change (String "{" (String.append mid (String "}" post))
                = String "{" (String.append (String.append mid "}") post)).
        by rewrite append_middle.
      * intros (pre & mid & post & Heq & -> & Hpre & Hpost).
        destruct pre as [|b pre].
        -- simpl in Heq. rewrite append_cons in Heq. injection Heq as ->.
           assert (Hr : upto_last "}" (String.append
                           (String.append mid "}") post)
                        = Some (String.append mid "}")).
           { apply upto_last_spec. exists mid, post. split; [|done].
             symmetry. apply append_middle. }
           by rewrite Hr.
        -- rewrite append_cons in Heq. injection Heq as <- _.
           rewrite has_char_cons in Hpre. discriminate.
    + rewrite IH. split.
      * intros (pre & mid & post & -> & -> & Hpre & Hpost).
        exists (String a pre), mid, post. repeat split; try done.
        rewrite has_char_cons, Hpre.
        destruct (Ascii.eqb_spec "{"%char a); [congruence|done].
      * intros (pre & mid & post & Heq & -> & Hpre & Hpost).
        destruct pre as [|b pre].
        -- simpl in Heq. rewrite append_cons in Heq. by injection Heq as ->.
        -- rewrite append_cons in Heq. injection Heq as <- ->.
           rewrite has_char_cons in Hpre.
           apply orb_false_elim in Hpre as [_ Hpre].
           by exists pre, mid, post.
Qed.


(** *** Replies that do not parse *)

(** A [json.loads] that fails on every text. *)
Lemma no_loads_never_truthy : never_truthy (fun _ => None).
Proof. intros s v H. discriminate. Qed.

(** X18 (falsy reply).  The three strategies keep a parsed value only when
    it is truthy.  So when [json.loads] never gives a truthy value (it
    fails, or the reply is [{}], [[]], [0], [null] or an empty string),
    both steps answer with their fallback, as they do when the model
    call raises. *)
Theorem falsy_reply_falls_back (json_loads : string → option json)
    (generated : option string) (raw_text : string)
    (sections : list ResumeSection) :
  never_truthy json_loads →
  extract_sections_with_ollama json_loads generated raw_text
  = _fallback_section_extraction raw_text
  ∧ score_ats_with_ollama json_loads generated sections
    = _fallback_ats_scoring sections.
Proof.
  intros Hfalsy.
  unfold extract_sections_with_ollama, score_ats_with_ollama.
  destruct generated as [response|]; [|done].
  by rewrite (ScorerFacts.parse_reply_falsy json_loads (strip response) Hfalsy).
Qed.

Lemma falsy_reply_falls_back_witness :
  extract_sections_with_ollama (fun _ => Some (JDict [])) (Some "{}") "Jo"
  = _fallback_section_extraction "Jo"
  ∧ score_ats_with_ollama (fun _ => Some (JDict [])) (Some "{}") []
    = _fallback_ats_scoring [].
Proof.
  apply (falsy_reply_falls_back (fun _ => Some (JDict [])) (Some "{}") "Jo" []).
  intros s v [= <-]. reflexivity.
Defined.

(** *** Sections that the model gives *)

Lemma section_of_item_confidence (item : json) (s : ResumeSection) :
  section_of_item item = Some s → confidence s = (9 # 10)%Q.
Proof.
  unfold section_of_item. intros H.
  repeat match type of H with
         | context [get ?k ?d ?v ≫= as_str] =>
             destruct (get k d v ≫= as_str); simpl in H; [|discriminate]
         end.
  by injection H as <-.
Qed.

(** X19 (model sections).  When the whole reply parses to a dict whose
    [sections] entry is a list of well-formed items, the sections of the
    model are returned as they are, one per item and with confidence
    0.9: nothing is checked against the text, and an empty list is
    returned as an empty list, without the fallback. *)
Theorem model_sections_taken_as_given (json_loads : string → option json)
    (response raw_text : string) (d : list (string * json))
    (items : list json) (secs : list ResumeSection) :
  json_loads (strip response) = Some (JDict d) →
  assoc "sections" d = Some (JList items) →
  mapM section_of_item items = Some secs →
  extract_sections_with_ollama json_loads (Some response) raw_text = secs
  ∧ List.length secs = List.length items
  ∧ Forall (fun s => confidence s = (9 # 10)%Q) secs.
Proof.
  intros Hloads Hsections Hitems.
  split; [|split].
  - unfold extract_sections_with_ollama, parse_reply, try_loads.
    rewrite Hloads.
    destruct d as [|kv d']; [discriminate Hsections|].
    cbn [truthy_opt Json.truthy]. cbn [mbind option_bind sections_of_parsed].
    rewrite Hsections. simpl. by rewrite Hitems.
  - symmetry. by eapply length_mapM.
  - apply mapM_Some_1 in Hitems. clear Hsections.
    induction Hitems as [|item s items' secs' Hitem _ IH];
      [constructor|].
    constructor; [by eapply section_of_item_confidence|exact IH].
Qed.

Lemma model_sections_taken_as_given_witness :
  extract_sections_with_ollama
    (fun _ => Some (JDict [("sections", JList [])])) (Some "{}")
    scenario_A_text = [].
Proof.
  apply (model_sections_taken_as_given
           (fun _ => Some (JDict [("sections", JList [])])) "{}"
           scenario_A_text [("sections", JList [])] [] []);
    reflexivity.
Defined.

(** X20 (success flag in the service).  The two steps of the class catch
    their own exceptions, so [analyze_complete_resume] does not take its
    [except] branch on a model outage: when the model call raises in
    both steps, the analysis holds exactly the sections and the score of
    the [except] branch, the fallback extraction and the fallback score
    on it, but with [success] true. *)
Theorem model_outage_reported_as_success
    (json_loads : string → option json)
    (generate_sections : string → option string)
    (generate_score : list ResumeSection → option string)
    (elapsed : Q) (raw_text name : string) :
  generate_sections raw_text = None →
  (∀ sections, generate_score sections = None) →
  analyze_with_model json_loads generate_sections generate_score elapsed
    raw_text name
  = mkAnalysis true name (_fallback_section_extraction raw_text)
      (_fallback_ats_scoring (_fallback_section_extraction raw_text))
      raw_text elapsed.
Proof.
  intros Hsections Hscore.
  unfold analyze_with_model, analyze_complete_resume. simpl.
  rewrite Hsections. simpl. by rewrite Hscore.
Qed.

Lemma model_outage_reported_as_success_witness :
  analyze_with_model (fun _ => None) (fun _ => None) (fun _ => None)
    (1 # 2) "Jo" "resume.pdf"
  = mkAnalysis true "resume.pdf" (_fallback_section_extraction "Jo")
      (_fallback_ats_scoring (_fallback_section_extraction "Jo"))
      "Jo" (1 # 2).
Proof.
  apply (model_outage_reported_as_success (fun _ => None) (fun _ => None)
           (fun _ => None) (1 # 2) "Jo" "resume.pdf"); reflexivity.
Defined.

(** *** The fallback extraction *)









End OllamaFacts.

(** ** Errors of the endpoints *)

Module EndpointErrors.

Import Notions MoreNotions Service LegacyScore.

Section WithEnvironment.

Variable pdf_text : string → string + string.
Variable docx_paragraphs : string → string + list string.
Variable txt_text : string → string + string.
Variable analyzer :
  option (string → option string → string + CompleteResumeAnalysis).

Lemma parse_pdf_status content :
  status_of (parse_pdf pdf_text content) = 200
  ∨ status_of (parse_pdf pdf_text content) = 400.
Proof. unfold parse_pdf. destruct (pdf_text content); simpl; auto. Qed.

Lemma parse_docx_status content :
  status_of (parse_docx docx_paragraphs content) = 200
  ∨ status_of (parse_docx docx_paragraphs content) = 400.
Proof. unfold parse_docx. destruct (docx_paragraphs content); simpl; auto. Qed.

Lemma parse_txt_status content :
  status_of (parse_txt txt_text content) = 200
  ∨ status_of (parse_txt txt_text content) = 400.
Proof. unfold parse_txt. destruct (txt_text content); simpl; auto. Qed.

Lemma parse_file_accepted (file : UploadFile) :
  type_accepted file = true →
  status_of (parse_file pdf_text docx_paragraphs txt_text file) ≠ 500
  ∧ parse_file pdf_text docx_paragraphs txt_text file
    ≠ HTTPException 400 "Unsupported file type".
Proof.
  unfold type_accepted, parse_file. intros Hacc.
  pose proof (parse_pdf_status (file_content file)) as Hpdf.
  pose proof (parse_docx_status (file_content file)) as Hdocx.
  pose proof (parse_txt_status (file_content file)) as Htxt.
  assert (Hp : parse_pdf pdf_text (file_content file)
               ≠ HTTPException 400 "Unsupported file type").
  { unfold parse_pdf. destruct (pdf_text _); discriminate. }
  assert (Hd : parse_docx docx_paragraphs (file_content file)
               ≠ HTTPException 400 "Unsupported file type").
  { unfold parse_docx. destruct (docx_paragraphs _); discriminate. }
  assert (Ht : parse_txt txt_text (file_content file)
               ≠ HTTPException 400 "Unsupported file type").
  { unfold parse_txt. destruct (txt_text _); discriminate. }
  destruct (is_type (content_type file) pdf_type); [split; [lia|done]|].
  destruct (is_type (content_type file) docx_type); [split; [lia|done]|].
  destruct (is_type (content_type file) txt_type); [split; [lia|done]|].
  simpl in Hacc.
  destruct (upload_filename file) as [name|]; [|discriminate].
  destruct (endswith (lower name) ".pdf"); [split; [lia|done]|].
  destruct (endswith (lower name) ".docx"); [split; [lia|done]|].
  destruct (endswith (lower name) ".txt"); [split; [lia|done]|].
  discriminate.
Qed.

(** X22 (server errors).  [analyze_resume] answers with status 500 only
    when the analyzer itself raises on the text of the file: the type
    check in front of [parse_file] rules out its "Unsupported file type"
    and its own status 500 (an upload without content type and without
    file name), so the detail of a 500 always starts with
    "Analysis failed: ". *)
Theorem server_error_is_analyzer_failure (file : UploadFile)
    (detail : string) :
  (analyze_resume pdf_text docx_paragraphs txt_text analyzer file).1
  = HTTPException 500 detail →
  ∃ analyze raw_text message,
    analyzer = Some analyze
    ∧ parse_file pdf_text docx_paragraphs txt_text file = Ok raw_text
    ∧ analyze raw_text (upload_filename file) = inl message
    ∧ detail = String.append "Analysis failed: " message.
Proof.
  unfold analyze_resume.
  destruct analyzer as [analyze|]; [|discriminate].
  destruct (type_accepted file) eqn:Hacc; [|discriminate]. simpl.
  destruct (parse_file_accepted file Hacc) as [Hstatus _].
  destruct (parse_file pdf_text docx_paragraphs txt_text file)
    as [raw_text|code d] eqn:Hparse.
  - destruct (negb _); [discriminate|].
    destruct (analyze raw_text (upload_filename file)) as [message|analysis]
      eqn:Hanalyze; [|discriminate].
    simpl. intros [= <-]. by exists analyze, raw_text, message.
  - simpl. intros [= -> ->]. by simpl in Hstatus.
Qed.

End WithEnvironment.

Lemma server_error_is_analyzer_failure_witness :
  ∃ analyze raw_text message,
    Some (fun (_ : string) (_ : option string) =>
            inl "model down" : string + CompleteResumeAnalysis)
    = Some analyze
    ∧ parse_file scenario_pdf no_docx no_txt sample_upload = Ok raw_text
    ∧ analyze raw_text (upload_filename sample_upload) = inl message
    ∧ "Analysis failed: model down"
      = String.append "Analysis failed: " message.
Proof.
  apply (server_error_is_analyzer_failure scenario_pdf no_docx no_txt
           (Some (fun _ _ => inl "model down")) sample_upload).
  reflexivity.
Defined.

Section LegacyEndpoint.

Variable str_of_http : nat → string → string.
Variable not_iterable : json → string.
Variable make_section : list (string * json) → string + ResumeSection.
Variable analyzer : option (list ResumeSection → ATSScore).

(** X23 (legacy scoring).  [ats_score_legacy] never answers with status
    400: the two [HTTPException]s with status 400 that its body raises
    are caught by its own [except Exception] and answered as status 500.
    So a request without sections gets status 500 when the analyzer is
    there, with the text of the caught exception in the detail. *)
Theorem legacy_score_never_400 (request : list (string * json)) :
  let result := ats_score_legacy str_of_http not_iterable make_section
                  analyzer request in
  status_of result ∈ [200; 500; 503]
  ∧ (analyzer ≠ None →
     assoc "sections" request = None →
     result = HTTPException 500
                (String.append "ATS scoring failed: "
                   (str_of_http 400 "No sections provided"))).
Proof.
  intros result. subst result. unfold ats_score_legacy. split.
  - destruct analyzer as [score|]; [|simpl; repeat constructor].
    destruct (score_body _ _ _ _); simpl; repeat constructor.
  - intros Hanalyzer Hmissing.
    destruct analyzer as [score|]; [|done].
    unfold score_body. rewrite Hmissing. reflexivity.
Qed.

End LegacyEndpoint.

End EndpointErrors.
